(** * Claim de-duplication and fraud scoring: a shallow embedding

    The development follows the Python sources
      - [src/gemini_integration/duplicate_detector.py]  (DuplicateDetector)
      - [src/gemini_integration/fraud_detector.py]      (FraudDetector)
      - [src/processing/pipeline.py]                    (ClaimsProcessingPipeline)
      - [src/gemini_integration/claims_analyzer.py]     (ClaimsAnalyzer)
      - [src/emails/email_processor.py], [src/emails/email_client.py]
        (the relevance filter and the record of processed e-mails)
    together with the two standard-library routines they rely on,
    [hashlib.md5] and [difflib.SequenceMatcher].

    Conventions of the embedding.
      - Python objects that flow out of [json.loads] are values of the
        inductive type [value]; a [dict] is an association list in insertion
        order.
      - Python text is modelled by [string] (one-byte characters): the model
        covers ASCII text, for which [str.lower], [str.encode] and the
        character-wise work of [SequenceMatcher] coincide with their
        byte-wise versions.
      - Python floats are modelled by exact rationals ([Q]); the IEEE special
        values are outside the model: [json.loads] also accepts [NaN] and the
        two infinities, and no [value] stands for them, so that "a number"
        reads "a finite number" throughout.
      - A raised exception is the [Raise] constructor of [result]; a
        [try/except Exception] block is [try_except]. *)

From Stdlib Require Import List String Ascii Bool Arith Lia.
From Stdlib Require Import ZArith NArith QArith.
From Stdlib Require Import DecimalString Sorted.
Import ListNotations.

Set Warnings "-register-all,-abstract-large-number".

Local Open Scope string_scope.
Local Open Scope list_scope.

(* ================================================================= *)
(** ** Exceptions *)

Module Exn.

Inductive exn : Type :=
| TypeError
| AttributeError
| ValueError
| KeyError
| IndexError
| JSONDecodeError
| OverflowError
| OSError
| ExternalError.

Inductive result (A : Type) : Type :=
| Ok (a : A)
| Raise (e : exn).

Arguments Ok {A} a.
Arguments Raise {A} e.

Definition bind {A B : Type} (m : result A) (f : A -> result B) : result B :=
  match m with
  | Ok a => f a
  | Raise e => Raise e
  end.

(** [try: body except Exception as e: handler e] *)
Definition try_except {A : Type} (body : result A) (handler : exn -> A) : A :=
  match body with
  | Ok a => a
  | Raise e => handler e
  end.

Definition raises {A : Type} (m : result A) : bool :=
  match m with
  | Ok _ => false
  | Raise _ => true
  end.

End Exn.
Export Exn.

Notation "x <- m ;; k" := (bind m (fun x => k))
  (at level 61, m at next level, right associativity).

(* ================================================================= *)
(** ** MD5 (RFC 1321), as computed by [hashlib.md5(...).hexdigest()] *)

Module MD5.

Local Open Scope N_scope.

Definition mask32 : N := 0xFFFFFFFF.
Definition add32 (x y : N) : N := N.land (x + y) mask32.
Definition not32 (x : N) : N := N.lxor x mask32.
Definition rotl32 (x : N) (c : N) : N :=
  N.land (N.lor (N.shiftl x c) (N.shiftr x (32 - c))) mask32.

Definition K : list N :=
  [ 0xd76aa478; 0xe8c7b756; 0x242070db; 0xc1bdceee;
    0xf57c0faf; 0x4787c62a; 0xa8304613; 0xfd469501;
    0x698098d8; 0x8b44f7af; 0xffff5bb1; 0x895cd7be;
    0x6b901122; 0xfd987193; 0xa679438e; 0x49b40821;
    0xf61e2562; 0xc040b340; 0x265e5a51; 0xe9b6c7aa;
    0xd62f105d; 0x02441453; 0xd8a1e681; 0xe7d3fbc8;
    0x21e1cde6; 0xc33707d6; 0xf4d50d87; 0x455a14ed;
    0xa9e3e905; 0xfcefa3f8; 0x676f02d9; 0x8d2a4c8a;
    0xfffa3942; 0x8771f681; 0x6d9d6122; 0xfde5380c;
    0xa4beea44; 0x4bdecfa9; 0xf6bb4b60; 0xbebfbc70;
    0x289b7ec6; 0xeaa127fa; 0xd4ef3085; 0x04881d05;
    0xd9d4d039; 0xe6db99e5; 0x1fa27cf8; 0xc4ac5665;
    0xf4292244; 0x432aff97; 0xab9423a7; 0xfc93a039;
    0x655b59c3; 0x8f0ccc92; 0xffeff47d; 0x85845dd1;
    0x6fa87e4f; 0xfe2ce6e0; 0xa3014314; 0x4e0811a1;
    0xf7537e82; 0xbd3af235; 0x2ad7d2bb; 0xeb86d391 ].

Definition shifts : list N :=
  [ 7; 12; 17; 22; 7; 12; 17; 22; 7; 12; 17; 22; 7; 12; 17; 22;
    5;  9; 14; 20; 5;  9; 14; 20; 5;  9; 14; 20; 5;  9; 14; 20;
    4; 11; 16; 23; 4; 11; 16; 23; 4; 11; 16; 23; 4; 11; 16; 23;
    6; 10; 15; 21; 6; 10; 15; 21; 6; 10; 15; 21; 6; 10; 15; 21 ].

Definition bytes_of_string (s : string) : list N :=
  map N_of_ascii (list_ascii_of_string s).

(** little-endian bytes of the low [n] bytes of [x] *)
Fixpoint le_bytes (n : nat) (x : N) : list N :=
  match n with
  | O => []
  | S n' => N.land x 0xFF :: le_bytes n' (N.shiftr x 8)
  end.

Definition pad (msg : list N) : list N :=
  let len := N.of_nat (List.length msg) in
  let zeros := N.to_nat ((55 + 64 - len mod 64) mod 64) in
  msg ++ [0x80] ++ repeat 0 zeros ++ le_bytes 8 (len * 8).

Fixpoint words_of_bytes (fuel : nat) (bs : list N) : list N :=
  match fuel with
  | O => []
  | S fuel' =>
      match bs with
      | b0 :: b1 :: b2 :: b3 :: rest =>
          (b0 + N.shiftl b1 8 + N.shiftl b2 16 + N.shiftl b3 24)
            :: words_of_bytes fuel' rest
      | _ => []
      end
  end.

Record state : Type := mkState { sA : N; sB : N; sC : N; sD : N }.

Definition init : state :=
  mkState 0x67452301 0xefcdab89 0x98badcfe 0x10325476.

Definition round (M : list N) (st : state) (i : nat) : state :=
  let '(mkState A B C D) := st in
  let iN := N.of_nat i in
  let '(F, g) :=
    if iN <? 16 then
      (N.lor (N.land B C) (N.land (not32 B) D), iN)
    else if iN <? 32 then
      (N.lor (N.land D B) (N.land (not32 D) C), (5 * iN + 1) mod 16)
    else if iN <? 48 then
      (N.lxor (N.lxor B C) D, (3 * iN + 5) mod 16)
    else
      (N.lxor C (N.lor B (not32 D)), (7 * iN) mod 16) in
  let F' := add32 (add32 (add32 F A) (nth i K 0)) (nth (N.to_nat g) M 0) in
  mkState D (add32 B (rotl32 F' (nth i shifts 0))) B C.

Definition process_chunk (st : state) (M : list N) : state :=
  let st' := fold_left (round M) (seq 0 64) st in
  mkState (add32 (sA st) (sA st')) (add32 (sB st) (sB st'))
          (add32 (sC st) (sC st')) (add32 (sD st) (sD st')).

Fixpoint chunks16 (fuel : nat) (ws : list N) : list (list N) :=
  match fuel with
  | O => []
  | S fuel' =>
      match ws with
      | [] => []
      | _ => firstn 16 ws :: chunks16 fuel' (skipn 16 ws)
      end
  end.

Definition digest (msg : list N) : list N :=
  let bs := pad msg in
  let ws := words_of_bytes (List.length bs) bs in
  let st := fold_left process_chunk (chunks16 (List.length ws) ws) init in
  le_bytes 4 (sA st) ++ le_bytes 4 (sB st)
    ++ le_bytes 4 (sC st) ++ le_bytes 4 (sD st).

Definition hex_digit (n : N) : ascii :=
  if n <? 10 then ascii_of_N (48 + n) else ascii_of_N (87 + n).

Fixpoint hex_of_bytes (bs : list N) : string :=
  match bs with
  | [] => EmptyString
  | b :: bs' =>
      String (hex_digit (N.shiftr b 4))
        (String (hex_digit (N.land b 0xF)) (hex_of_bytes bs'))
  end.

(** [hashlib.md5(s.encode()).hexdigest()] *)
Definition hexdigest (s : string) : string :=
  hex_of_bytes (digest (bytes_of_string s)).

End MD5.

(* ================================================================= *)
(** ** Python text operations used by the sources *)

Module Str.

Definition is_upper (c : ascii) : bool :=
  let n := nat_of_ascii c in (65 <=? n)%nat && (n <=? 90)%nat.

Definition is_digit (c : ascii) : bool :=
  let n := nat_of_ascii c in (48 <=? n)%nat && (n <=? 57)%nat.

(** [str.isspace] on one-byte characters *)
Definition is_space (c : ascii) : bool :=
  let n := nat_of_ascii c in
  ((9 <=? n)%nat && (n <=? 13)%nat)
  || ((28 <=? n)%nat && (n <=? 32)%nat).

Definition lower_char (c : ascii) : ascii :=
  if is_upper c then ascii_of_nat (nat_of_ascii c + 32) else c.

(** [s.lower()] *)
Fixpoint lower (s : string) : string :=
  match s with
  | EmptyString => EmptyString
  | String c s' => String (lower_char c) (lower s')
  end.

(** [sub in s] *)
Fixpoint contains (sub s : string) : bool :=
  if String.prefix sub s then true
  else match s with
       | EmptyString => false
       | String _ s' => contains sub s'
       end.

Fixpoint rev_append (acc s : string) : string :=
  match acc with
  | EmptyString => s
  | String c acc' => rev_append acc' (String c s)
  end.

Definition rev (s : string) : string := rev_append s EmptyString.

(** [s.split(sep)] for a non-empty separator: [skip] counts the characters
    of a separator occurrence still to be dropped, [cur] is the current
    piece, reversed. *)
Fixpoint split_go (sep s : string) (skip : nat) (cur : string) : list string :=
  match s with
  | EmptyString => [rev cur]
  | String c s' =>
      match skip with
      | S k => split_go sep s' k cur
      | O =>
          if String.prefix sep s
          then rev cur :: split_go sep s' (String.length sep - 1) EmptyString
          else split_go sep s' 0 (String c cur)
      end
  end.

Definition split (sep s : string) : list string :=
  split_go sep s 0 EmptyString.

Fixpoint lstrip (s : string) : string :=
  match s with
  | EmptyString => EmptyString
  | String c s' => if is_space c then lstrip s' else s
  end.

(** [s.strip()] *)
Definition strip (s : string) : string :=
  rev (lstrip (rev (lstrip s))).

(** [sep.join(parts)] on a list of [str] *)
Fixpoint join (sep : string) (parts : list string) : string :=
  match parts with
  | [] => EmptyString
  | [p] => p
  | p :: rest => (p ++ sep ++ join sep rest)%string
  end.

(** [re.search(r'\d{6,}@', s) is not None]: some [@] is immediately
    preceded by at least six digits.  [run] is the length of the digit run
    that ends just before the current position. *)
Fixpoint six_digits_at (s : string) (run : nat) : bool :=
  match s with
  | EmptyString => false
  | String c s' =>
      if is_digit c then six_digits_at s' (S run)
      else if Ascii.eqb c "@"%char && (6 <=? run)%nat then true
      else six_digits_at s' 0
  end.

End Str.

(* ================================================================= *)
(** ** Python values *)

Module Py.

(** What [json.loads] can return, plus the objects the sources build from
    them.  A [dict] is kept in insertion order; its keys are the hashable
    values. *)
Inductive value : Type :=
| VNone
| VBool (b : bool)
| VInt (z : Z)
| VFloat (q : Q)
| VStr (s : string)
| VList (l : list value)
| VDict (d : list (value * value)).

Definition dict : Type := list (value * value).

(** Library routines that are taken as given. *)
Class Runtime : Type := {
  (** [repr] of a float *)
  float_repr : Q -> string;
  (** [json.loads]; [Raise] stands for a [JSONDecodeError] *)
  json_loads : string -> result value;
  (** [json.dumps(_, indent=2)] *)
  json_dumps : value -> string;
  (** iteration order of [set(l)], for a list of hashable values *)
  set_order : list value -> list value
}.

Definition as_number (v : value) : option Q :=
  match v with
  | VBool b => Some (if b then 1 else 0)%Q
  | VInt z => Some (inject_Z z)
  | VFloat q => Some q
  | _ => None
  end.

Definition Qgtb (x y : Q) : bool := negb (Qle_bool x y).
Definition Qgeb (x y : Q) : bool := Qle_bool y x.

Definition hashable (v : value) : bool :=
  match v with
  | VList _ | VDict _ => false
  | _ => true
  end.

(** [==] on hashable values (the equality a [dict] uses for its keys) *)
Definition atom_eqb (x y : value) : bool :=
  match x, y with
  | VNone, VNone => true
  | VStr s, VStr t => String.eqb s t
  | _, _ =>
      match as_number x, as_number y with
      | Some p, Some q => Qeq_bool p q
      | _, _ => false
      end
  end.

Fixpoint dict_lookup (d : dict) (k : value) : option value :=
  match d with
  | [] => None
  | (k', v) :: d' => if atom_eqb k' k then Some v else dict_lookup d' k
  end.

Definition dict_mem (d : dict) (k : value) : bool :=
  match dict_lookup d k with Some _ => true | None => false end.

(** [d[k] = v] on the underlying association list: an existing key keeps
    its place, a new one goes last *)
Fixpoint dict_set (d : dict) (k v : value) : dict :=
  match d with
  | [] => [(k, v)]
  | (k', v') :: d' =>
      if atom_eqb k' k then (k', v) :: d' else (k', v') :: dict_set d' k v
  end.

(** [k in d] *)
Definition py_contains (d : dict) (k : value) : result bool :=
  if hashable k then Ok (dict_mem d k) else Raise TypeError.

(** [d[k] = v] *)
Definition py_setitem (d : dict) (k v : value) : result dict :=
  if hashable k then Ok (dict_set d k v) else Raise TypeError.

(** [d.get(key, default)] on an actual [dict] *)
Definition dict_get (d : dict) (key : string) (default : value) : value :=
  match dict_lookup d (VStr key) with
  | Some v => v
  | None => default
  end.

(** [x.get(key, default)]: only a [dict] has the method *)
Definition py_get (x : value) (key : string) (default : value) : result value :=
  match x with
  | VDict d => Ok (dict_get d key default)
  | _ => Raise AttributeError
  end.

(** [x.lower()]: only [str] has the method *)
Definition py_lower (x : value) : result string :=
  match x with
  | VStr s => Ok (Str.lower s)
  | _ => Raise AttributeError
  end.

(** truth value of an object, as tested by [if x] and [not x] *)
Definition truthy (v : value) : bool :=
  match v with
  | VNone => false
  | VBool b => b
  | VInt z => negb (Z.eqb z 0)
  | VFloat q => negb (Qeq_bool q 0)
  | VStr s => negb (String.eqb s "")
  | VList l => match l with [] => false | _ => true end
  | VDict d => match d with [] => false | _ => true end
  end.

(** [x == y] *)
Fixpoint py_eqb (x y : value) {struct x} : bool :=
  match x, y with
  | VList l1, VList l2 =>
      (fix go (l1 l2 : list value) {struct l1} : bool :=
         match l1, l2 with
         | [], [] => true
         | a :: l1', b :: l2' => py_eqb a b && go l1' l2'
         | _, _ => false
         end) l1 l2
  | VDict d1, VDict d2 =>
      Nat.eqb (List.length d1) (List.length d2)
      && (fix go (d1 : list (value * value)) {struct d1} : bool :=
            match d1 with
            | [] => true
            | (k, v) :: d1' =>
                match dict_lookup d2 k with
                | Some v' => py_eqb v v'
                | None => false
                end && go d1'
            end) d1
  | VList _, _ | VDict _, _ | _, VList _ | _, VDict _ => false
  | _, _ => atom_eqb x y
  end.

(** [x > y]; [Raise TypeError] where Python has no ordering *)
Fixpoint py_gt (x y : value) {struct x} : result bool :=
  match x, y with
  | VStr s, VStr t => Ok (String.ltb t s)
  | VList l1, VList l2 =>
      (fix go (l1 l2 : list value) {struct l1} : result bool :=
         match l1, l2 with
         | [], _ => Ok false
         | _ :: _, [] => Ok true
         | a :: l1', b :: l2' =>
             if py_eqb a b then go l1' l2' else py_gt a b
         end) l1 l2
  | _, _ =>
      match as_number x, as_number y with
      | Some p, Some q => Ok (Qgtb p q)
      | _, _ => Raise TypeError
      end
  end.

Definition string_of_Z (z : Z) : string :=
  NilZero.string_of_int (Z.to_int z).

Definition needs_escape (c : ascii) : bool :=
  let n := nat_of_ascii c in (n <? 32)%nat || (127 <=? n)%nat.

Definition hex_nibble (n : nat) : ascii :=
  if (n <? 10)%nat then ascii_of_nat (48 + n) else ascii_of_nat (87 + n).

Fixpoint escape (quote : ascii) (s : string) : string :=
  match s with
  | EmptyString => EmptyString
  | String c s' =>
      let rest := escape quote s' in
      if Ascii.eqb c "\"%char then String "\"%char (String "\"%char rest)
      else if Ascii.eqb c quote then String "\"%char (String c rest)
      else if Ascii.eqb c "010"%char then String "\"%char (String "n"%char rest)
      else if Ascii.eqb c "013"%char then String "\"%char (String "r"%char rest)
      else if Ascii.eqb c "009"%char then String "\"%char (String "t"%char rest)
      else if needs_escape c then
        let n := nat_of_ascii c in
        String "\"%char (String "x"%char
          (String (hex_nibble (n / 16)) (String (hex_nibble (n mod 16)) rest)))
      else String c rest
  end.

(** [repr] of a [str] *)
Definition str_repr (s : string) : string :=
  let quote :=
    if Str.contains "'" s && negb (Str.contains (String (ascii_of_nat 34) "") s)
    then ascii_of_nat 34 else "'"%char in
  String quote (escape quote s ++ String quote "")%string.

Section Repr.
Context {R : Runtime}.

(** [repr(x)] *)
Fixpoint py_repr (x : value) : string :=
  match x with
  | VNone => "None"
  | VBool true => "True"
  | VBool false => "False"
  | VInt z => string_of_Z z
  | VFloat q => float_repr q
  | VStr s => str_repr s
  | VList l => ("[" ++ Str.join ", " (map py_repr l) ++ "]")%string
  | VDict d =>
      ("{" ++ Str.join ", "
               (map (fun kv => py_repr (fst kv) ++ ": " ++ py_repr (snd kv)) d)
           ++ "}")%string
  end.

(** [str(x)] *)
Definition py_str (x : value) : string :=
  match x with
  | VStr s => s
  | _ => py_repr x
  end.
End Repr.

(** [sep.join(items)]: every item must be a [str] *)
Fixpoint py_join_parts (items : list value) : result (list string) :=
  match items with
  | [] => Ok []
  | VStr s :: rest => ps <- py_join_parts rest ;; Ok (s :: ps)
  | _ :: _ => Raise TypeError
  end.

Definition py_join (sep : string) (items : list value) : result string :=
  ps <- py_join_parts items ;; Ok (Str.join sep ps).

(** [for x in v]: the items a [for] loop visits *)
Definition py_iter (v : value) : result (list value) :=
  match v with
  | VList l => Ok l
  | VDict d => Ok (map fst d)
  | VStr s => Ok (map (fun c => VStr (String c "")) (list_ascii_of_string s))
  | _ => Raise TypeError
  end.

(** the least integer that [float] cannot hold: an [int] of this magnitude
    or more is too large to convert to a float *)
Definition float_overflow : Z := 2 ^ 1024 - 2 ^ 970.

(** [x * c] for a float constant [c]: an [int] is converted to a float
    first, which raises [OverflowError] when it is too large *)
Definition py_mul_float (x : value) (c : Q) : result Q :=
  match x with
  | VNone | VStr _ | VList _ | VDict _ => Raise TypeError
  | VInt z =>
      if (Z.abs z <? float_overflow)%Z then Ok (inject_Z z * c)%Q
      else Raise OverflowError
  | _ => match as_number x with
         | Some q => Ok (q * c)%Q
         | None => Raise TypeError
         end
  end.

(** [max(items, key=key)] for a non-empty list: the running maximum is
    replaced only by an item whose key is strictly greater.  On keys that
    are finite numbers this yields the first maximum; a NaN key, against
    which every comparison is false, is not a [value]. *)
Fixpoint max_loop {A : Type} (key : A -> value) (best : A) (rest : list A)
  : result A :=
  match rest with
  | [] => Ok best
  | x :: rest' =>
      gt <- py_gt (key x) (key best) ;;
      max_loop key (if gt then x else best) rest'
  end.

Definition py_max {A : Type} (key : A -> value) (items : list A) : result A :=
  match items with
  | [] => Raise ValueError
  | x :: rest => max_loop key x rest
  end.

End Py.
Export Py.

(* ================================================================= *)
(** ** [difflib.SequenceMatcher(None, a, b).ratio()]

    The matcher is built with [isjunk=None] and the default [autojunk=True],
    so the junk set is empty and, for a second sequence of 200 items or
    more, the items occurring more than [n // 100 + 1] times are "popular"
    and are purged from the index [b2j]. *)

Module Difflib.

Local Open Scope nat_scope.

Definition block : Type := (nat * nat * nat)%type.
Definition window : Type := (nat * nat * nat * nat)%type.

Definition item (s : list ascii) (i : nat) : ascii := nth i s Ascii.zero.

(** [b2j[x]] before purging: the positions of [x] in [b], increasing *)
Definition indices_of (b : list ascii) (x : ascii) : list nat :=
  map fst
    (filter (fun p => Ascii.eqb (snd p) x)
            (combine (seq 0 (List.length b)) b)).

Definition popular (b : list ascii) (x : ascii) : bool :=
  let n := List.length b in
  (200 <=? n) && (n / 100 + 1 <? List.length (indices_of b x)).

(** [b2j.get(x, nothing)] after [__chain_b] *)
Definition b2j_get (b : list ascii) (x : ascii) : list nat :=
  if popular b x then [] else indices_of b x.

(** [bjunk.__contains__]: the junk set is empty *)
Definition isbjunk (x : ascii) : bool := false.

Fixpoint j2len_get (j2len : list (nat * nat)) (j : nat) : nat :=
  match j2len with
  | [] => 0
  | (j', k) :: rest => if j' =? j then k else j2len_get rest j
  end.

(** [j2len.get(j-1, 0)]: for [j = 0] the key [-1] is never present *)
Definition j2len_get_pred (j2len : list (nat * nat)) (j : nat) : nat :=
  match j with
  | O => 0
  | S j' => j2len_get j2len j'
  end.

(** the loop [for j in b2j.get(a[i], nothing)] *)
Fixpoint flm_inner (j2len : list (nat * nat)) (i blo bhi : nat)
         (js : list nat) (newj2len : list (nat * nat)) (best : block)
  : list (nat * nat) * block :=
  match js with
  | [] => (newj2len, best)
  | j :: js' =>
      if j <? blo then flm_inner j2len i blo bhi js' newj2len best
      else if bhi <=? j then (newj2len, best)
      else
        let k := j2len_get_pred j2len j + 1 in
        let '(_, _, bestsize) := best in
        flm_inner j2len i blo bhi js' ((j, k) :: newj2len)
                  (if bestsize <? k then (i + 1 - k, j + 1 - k, k) else best)
  end.

(** the loop [for i in range(alo, ahi)] *)
Fixpoint flm_rows (a b : list ascii) (blo bhi : nat) (rows : list nat)
         (j2len : list (nat * nat)) (best : block) : block :=
  match rows with
  | [] => best
  | i :: rows' =>
      let '(newj2len, best') :=
        flm_inner j2len i blo bhi (b2j_get b (item a i)) [] best in
      flm_rows a b blo bhi rows' newj2len best'
  end.

(** [while besti > alo and bestj > blo and isbjunk(b[bestj-1]) == junk
     and a[besti-1] == b[bestj-1]] *)
Fixpoint extend_back (a b : list ascii) (alo blo : nat) (junk : bool)
         (besti bestj bestsize : nat) {struct besti} : block :=
  match besti with
  | O => (besti, bestj, bestsize)
  | S i' =>
      if (alo <? besti) && (blo <? bestj)
         && Bool.eqb (isbjunk (item b (bestj - 1))) junk
         && Ascii.eqb (item a i') (item b (bestj - 1))
      then extend_back a b alo blo junk i' (bestj - 1) (bestsize + 1)
      else (besti, bestj, bestsize)
  end.

(** [while besti+bestsize < ahi and bestj+bestsize < bhi and
     isbjunk(b[bestj+bestsize]) == junk and
     a[besti+bestsize] == b[bestj+bestsize]]; [gap] is [ahi - (besti+bestsize)] *)
Fixpoint extend_fwd (a b : list ascii) (ahi bhi : nat) (junk : bool)
         (gap besti bestj bestsize : nat) {struct gap} : nat :=
  match gap with
  | O => bestsize
  | S gap' =>
      if (besti + bestsize <? ahi) && (bestj + bestsize <? bhi)
         && Bool.eqb (isbjunk (item b (bestj + bestsize))) junk
         && Ascii.eqb (item a (besti + bestsize)) (item b (bestj + bestsize))
      then extend_fwd a b ahi bhi junk gap' besti bestj (bestsize + 1)
      else bestsize
  end.

Definition find_longest_match (a b : list ascii) (alo ahi blo bhi : nat) : block :=
  let '(i1, j1, k1) :=
    flm_rows a b blo bhi (seq alo (ahi - alo)) [] (alo, blo, 0) in
  let '(i2, j2, k2) := extend_back a b alo blo false i1 j1 k1 in
  let k3 := extend_fwd a b ahi bhi false (ahi - (i2 + k2)) i2 j2 k2 in
  let '(i4, j4, k4) := extend_back a b alo blo true i2 j2 k3 in
  let k5 := extend_fwd a b ahi bhi true (ahi - (i4 + k4)) i4 j4 k4 in
  (i4, j4, k5).

(** the loop [while queue] of [get_matching_blocks]; the head of [queue]
    is the end of the Python list, where [pop] and [append] work *)
Fixpoint blocks_loop (a b : list ascii) (fuel : nat) (queue : list window)
         (matching_blocks : list block) : option (list block) :=
  match queue with
  | [] => Some matching_blocks
  | (alo, ahi, blo, bhi) :: queue' =>
      match fuel with
      | O => None
      | S fuel' =>
          let '(i, j, k) := find_longest_match a b alo ahi blo bhi in
          if k =? 0 then blocks_loop a b fuel' queue' matching_blocks
          else
            let q1 :=
              if (alo <? i) && (blo <? j)
              then (alo, i, blo, j) :: queue' else queue' in
            let q2 :=
              if (i + k <? ahi) && (j + k <? bhi)
              then (i + k, ahi, j + k, bhi) :: q1 else q1 in
            blocks_loop a b fuel' q2 (matching_blocks ++ [(i, j, k)])
      end
  end.

(** tuple order on blocks *)
Definition block_leb (x y : block) : bool :=
  let '(i1, j1, k1) := x in
  let '(i2, j2, k2) := y in
  (i1 <? i2)
  || ((i1 =? i2) && ((j1 <? j2) || ((j1 =? j2) && (k1 <=? k2)))).

Fixpoint insert_block (x : block) (l : list block) : list block :=
  match l with
  | [] => [x]
  | y :: l' => if block_leb x y then x :: l else y :: insert_block x l'
  end.

(** [matching_blocks.sort()] *)
Definition sort_blocks (l : list block) : list block :=
  fold_right insert_block [] l.

(** the loop collapsing adjacent blocks; [cur] is [(i1, j1, k1)] *)
Fixpoint collapse (cur : block) (l : list block) : list block :=
  let '(i1, j1, k1) := cur in
  match l with
  | [] => if k1 =? 0 then [] else [cur]
  | (i2, j2, k2) :: l' =>
      if (i1 + k1 =? i2) && (j1 + k1 =? j2)
      then collapse (i1, j1, k1 + k2) l'
      else (if k1 =? 0 then [] else [cur]) ++ collapse (i2, j2, k2) l'
  end.

(** [get_matching_blocks()]; [None] only if the loop ran out of steps,
    which [2 * len(a) + 1] steps never do *)
Definition get_matching_blocks (a b : list ascii) : option (list block) :=
  let la := List.length a in
  let lb := List.length b in
  match blocks_loop a b (2 * la + 1) [(0, la, 0, lb)] [] with
  | Some blocks => Some (collapse (0, 0, 0) (sort_blocks blocks) ++ [(la, lb, 0)])
  | None => None
  end.

Definition sum_sizes (l : list block) : nat :=
  fold_right (fun x acc => snd x + acc) 0 l.

(** [_calculate_ratio(matches, length)] *)
Definition calculate_ratio (matches length : nat) : Q :=
  if (length =? 0)%nat then 1%Q
  else Qmake (2 * Z.of_nat matches) (Pos.of_nat length).

(** [SequenceMatcher(None, a, b).ratio()] *)
Definition ratio (a b : string) : Q :=
  let la := list_ascii_of_string a in
  let lb := list_ascii_of_string b in
  match get_matching_blocks la lb with
  | Some blocks =>
      calculate_ratio (sum_sizes blocks) (List.length la + List.length lb)
  | None => 0%Q
  end.

End Difflib.

(** Notions used to reason about the matcher. *)
Module Matching.

Import Difflib.
Local Open Scope nat_scope.

(** a block lies inside the window [a[alo:ahi]], [b[blo:bhi]] *)
Definition in_window (alo ahi blo bhi : nat) (m : block) : Prop :=
  let '(i, j, k) := m in
  alo <= i /\ i + k <= ahi /\ blo <= j /\ j + k <= bhi.

(** the lengths that [j2len] holds when row [i] is about to be visited *)
Definition row_ok (alo blo i : nat) (j2len : list (nat * nat)) : Prop :=
  Forall (fun e => blo <= fst e /\ snd e <= i - alo /\ snd e <= fst e + 1 - blo)
         j2len.

Definition valid_window (w : window) : Prop :=
  let '(alo, ahi, blo, bhi) := w in alo <= ahi /\ blo <= bhi.

(** a bound on the iterations that a queue of windows still needs *)
Definition steps_needed (queue : list window) : nat :=
  fold_right (fun w acc => let '(alo, ahi, _, _) := w in 2 * (ahi - alo) + 1 + acc)
             0 queue.

(** the total size of the blocks that a queue of windows can still hold *)
Definition room (queue : list window) : nat :=
  fold_right (fun w acc =>
                let '(alo, ahi, blo, bhi) := w in
                Nat.min (ahi - alo) (bhi - blo) + acc)
             0 queue.

(** the length of the run of indexed (not popular) items of [s] that ends at
    position [m] *)
Fixpoint run (s : list ascii) (m : nat) : nat :=
  if popular s (item s m) then 0
  else match m with
       | O => 1
       | S m' => S (run s m')
       end.

(** the same for the position before [i], and 0 for the first position *)
Definition run_before (s : list ascii) (i : nat) : nat :=
  match i with
  | O => 0
  | S i' => run s i'
  end.

(** What holds when row [i] of a sequence matched against itself is about to
    be visited: the best match so far lies on the diagonal and is at least as
    long as every run that ends before row [i], and [j2len] holds the run
    lengths of the row before. *)
Definition diagonal (s : list ascii) (i : nat) (j2len : list (nat * nat))
           (best : block) : Prop :=
  let '(besti, bestj, bestsize) := best in
  besti = bestj
  /\ (forall m, m < i -> run s m <= bestsize)
  /\ (forall j, j2len_get j2len j <= run s j
                /\ j2len_get j2len j <= run_before s i)
  /\ j2len_get_pred j2len i = run_before s i.

End Matching.

(* ================================================================= *)
(** ** Settings and external collaborators *)

(** The entries of [email_data] that the pipeline reads; the e-mail layer
    fills them with text. *)
Module EmailData.
Record t : Type := make {
  id : string;
  subject : string;
  sender_email : string;
  pdf_path : string;
  date : string
}.
End EmailData.

(** [config/settings.py] (the two thresholds are read from the process
    environment), [gemini_integration/prompts.py], the hosted model behind
    [GeminiClient.analyze_content] (which catches every exception itself and
    always returns text), and the system clock. *)
Class World : Type := {
  DUPLICATE_THRESHOLD : Q;
  FRAUD_THRESHOLD : Q;
  DUPLICATE_DETECTION_PROMPT : string;
  FRAUD_DETECTION_PROMPT : string;
  analyze_content : string -> string;
  (** [(datetime.now() - datetime.strptime(s, '%Y-%m-%d')).days];
      [None] when [strptime] raises *)
  days_since : string -> option Z;
  (** [datetime.now().isoformat()] at the n-th reading of the clock *)
  now_isoformat : nat -> string
}.

(** [result[index]] on the list returned by [split] *)
Definition py_index (l : list string) (n : nat) : result string :=
  match nth_error l n with
  | Some s => Ok s
  | None => Raise IndexError
  end.

(** [text.split('```json')[1].split('```')[0].strip()] *)
Definition fenced_json (text : string) : result string :=
  after <- py_index (Str.split "```json" text) 1 ;;
  inner <- py_index (Str.split "```" after) 0 ;;
  Ok (Str.strip inner).

(* ================================================================= *)
(** ** [gemini_integration/duplicate_detector.py] *)

Inductive match_kind : Type := exact | similar | ai_detected.

Module MatchCandidate.
Record t : Type := make {
  claim_id : value;
  match_type : match_kind;
  confidence : value;
  matching_fields : value
}.
End MatchCandidate.

(** The dict returned by [check_duplicate]; an absent key is [None]. *)
Module DuplicateVerdict.
Record t : Type := make {
  is_duplicate : bool;
  confidence : value;
  duplicate_of : option value;
  match_type : option match_kind;
  matches : option (list MatchCandidate.t);
  all_matches : option (list MatchCandidate.t);
  total_matches_found : option nat;
  error : option exn
}.
End DuplicateVerdict.

Module DuplicateDetector.
Section Detector.
Context {R : Runtime} {W : World}.

(** [fingerprint_text.encode()] cannot fail on the one-byte text of the
    model; Python text holding a lone surrogate, on which it raises
    [UnicodeEncodeError], is not a [string] *)
Definition _create_claim_fingerprint (claim : value) : result string :=
  claim_number <- py_get claim "claim_number" (VStr "") ;;
  insured_party <- py_get claim "insured_party" (VStr "") ;;
  claim_amount <- py_get claim "claim_amount" (VInt 0) ;;
  loss_date <- py_get claim "loss_date" (VStr "") ;;
  loss_location <- py_get claim "loss_location" (VStr "") ;;
  let key_fields :=
    [claim_number; insured_party; VStr (py_str claim_amount);
     loss_date; loss_location] in
  fingerprint_text <- py_join "|" key_fields ;;
  Ok (MD5.hexdigest fingerprint_text).

Definition _get_claim_text (claim : value) : result string :=
  claim_number <- py_get claim "claim_number" (VStr "") ;;
  insured_party <- py_get claim "insured_party" (VStr "") ;;
  loss_description <- py_get claim "loss_description" (VStr "") ;;
  loss_location <- py_get claim "loss_location" (VStr "") ;;
  claim_amount <- py_get claim "claim_amount" (VInt 0) ;;
  let text_parts :=
    [claim_number; insured_party; loss_description; loss_location;
     VStr (py_str claim_amount)] in
  Ok (Str.join " " (map py_str (filter truthy text_parts))).

Definition _calculate_similarity (text1 text2 : string) : Q :=
  Difflib.ratio (Str.lower text1) (Str.lower text2).

Fixpoint exact_loop (current_fingerprint : string) (items : dict)
         (matches : list MatchCandidate.t) : result (list MatchCandidate.t) :=
  match items with
  | [] => Ok matches
  | (claim_id, existing_claim) :: rest =>
      existing_fingerprint <- _create_claim_fingerprint existing_claim ;;
      exact_loop current_fingerprint rest
        (if String.eqb current_fingerprint existing_fingerprint
         then matches ++ [MatchCandidate.make claim_id exact (VFloat 1.0)
                            (VList [VStr "full_claim_fingerprint"])]
         else matches)
  end.

Definition _check_exact_matches (current_claim : value) (processed_claims : dict)
  : result (list MatchCandidate.t) :=
  current_fingerprint <- _create_claim_fingerprint current_claim ;;
  exact_loop current_fingerprint processed_claims [].

Fixpoint similar_loop (current_text : string) (items : dict)
         (matches : list MatchCandidate.t) : result (list MatchCandidate.t) :=
  match items with
  | [] => Ok matches
  | (claim_id, existing_claim) :: rest =>
      existing_text <- _get_claim_text existing_claim ;;
      let similarity := _calculate_similarity current_text existing_text in
      similar_loop current_text rest
        (if Qgtb similarity DUPLICATE_THRESHOLD
         then matches ++ [MatchCandidate.make claim_id similar (VFloat similarity)
                            (VList [VStr "claim_content"])]
         else matches)
  end.

Definition _check_similar_matches (current_claim : value) (processed_claims : dict)
  : result (list MatchCandidate.t) :=
  current_text <- _get_claim_text current_claim ;;
  similar_loop current_text processed_claims [].

Definition _build_duplicate_prompt (current_claim : value) (processed_claims : dict)
  : string :=
  ("
        " ++ DUPLICATE_DETECTION_PROMPT ++ "
        
        CURRENT CLAIM:
        " ++ json_dumps current_claim ++ "
        
        PREVIOUSLY PROCESSED CLAIMS:
        " ++ json_dumps (VDict processed_claims) ++ "
        
        Analyze if the current claim is a duplicate or variation of any previously processed claims.
        Consider similarities in: claim details, amounts, dates, parties involved, and loss descriptions.
        ")%string.

Fixpoint parse_loop (items : list value) (processed_claims : dict)
         (matches : list MatchCandidate.t) : result (list MatchCandidate.t) :=
  match items with
  | [] => Ok matches
  | m :: rest =>
      claim_id <- py_get m "claim_id" VNone ;;
      known <- py_contains processed_claims claim_id ;;
      if known then
        confidence <- py_get m "confidence" (VFloat 0.7) ;;
        matching_fields <- py_get m "matching_fields" (VList [VStr "ai_analysis"]) ;;
        parse_loop rest processed_claims
          (matches ++ [MatchCandidate.make claim_id ai_detected confidence
                         matching_fields])
      else parse_loop rest processed_claims matches
  end.

(** the body of the [try] block of [_parse_ai_duplicate_result] *)
Definition parse_ai_body (ai_text : string) (processed_claims : dict)
  : result (list MatchCandidate.t) :=
  ai_result <-
    (if Str.contains "```json" ai_text
     then json_str <- fenced_json ai_text ;; json_loads json_str
     else Ok (VDict [(VStr "matches", VList []);
                     (VStr "confidence", VFloat 0.0)])) ;;
  found <- py_get ai_result "matches" (VList []) ;;
  items <- py_iter found ;;
  parse_loop items processed_claims [].

Definition _parse_ai_duplicate_result (ai_text : string) (processed_claims : dict)
  : list MatchCandidate.t :=
  try_except (parse_ai_body ai_text processed_claims) (fun _ => []).

(** the sample handed to the prompt builder *)
Definition sample_claims (processed_claims : dict) : dict :=
  if (10 <? List.length processed_claims)%nat
  then firstn 10 processed_claims
  else processed_claims.

Definition _ai_duplicate_check (current_claim : value) (processed_claims : dict)
  : list MatchCandidate.t :=
  try_except
    (let prompt :=
       _build_duplicate_prompt current_claim (sample_claims processed_claims) in
     let ai_result := analyze_content prompt in
     Ok (_parse_ai_duplicate_result ai_result processed_claims))
    (fun _ => []).

Definition _combine_duplicate_results
           (exact_matches similar_matches ai_matches : list MatchCandidate.t)
  : result DuplicateVerdict.t :=
  let all_matches := exact_matches ++ similar_matches ++ ai_matches in
  match all_matches with
  | [] =>
      Ok (DuplicateVerdict.make false (VFloat 0.0) None None (Some [])
            None None None)
  | _ =>
      best_match <- py_max MatchCandidate.confidence all_matches ;;
      Ok (DuplicateVerdict.make true
            (MatchCandidate.confidence best_match)
            (Some (MatchCandidate.claim_id best_match))
            (Some (MatchCandidate.match_type best_match))
            None
            (Some all_matches)
            (Some (List.length all_matches))
            None)
  end.

(** the verdict of the [except] block of [check_duplicate] *)
Definition error_verdict (e : exn) : DuplicateVerdict.t :=
  DuplicateVerdict.make false (VFloat 0.0) None None None None None (Some e).

Definition check_duplicate (current_claim : value) (processed_claims : dict)
  : DuplicateVerdict.t :=
  try_except
    (if negb (truthy (VDict processed_claims)) then
       Ok (DuplicateVerdict.make false (VFloat 0.0) None None None None None None)
     else
       exact_matches <- _check_exact_matches current_claim processed_claims ;;
       similar_matches <- _check_similar_matches current_claim processed_claims ;;
       let ai_matches := _ai_duplicate_check current_claim processed_claims in
       _combine_duplicate_results exact_matches similar_matches ai_matches)
    error_verdict.

End Detector.
End DuplicateDetector.

(* ================================================================= *)
(** ** [gemini_integration/fraud_detector.py] *)

(** The dict returned by [detect_fraud]. *)
Module FraudAssessment.
Record t : Type := make {
  fraud_score : Q;
  risk_level : string;
  rule_based_score : Q;
  ai_analysis : value;
  red_flags : list value;
  recommendations : list value;
  detection_methods : list string
}.
End FraudAssessment.

Module FraudDetector.
Section Detector.
Context {R : Runtime} {W : World}.

(** [min(x, y)] on floats: the first argument unless the second is
    strictly smaller *)
Definition py_min (x y : Q) : Q := if Qgtb x y then y else x.

Definition _suspicious_date_pattern (date_str : value) : result bool :=
  if negb (truthy date_str) then Ok true
  else
    lowered <- py_lower date_str ;;
    if existsb (String.eqb lowered) ["unknown"; "n/a"; ""] then Ok true
    else
      match date_str with
      | VStr s =>
          match days_since s with
          | Some days_diff => Ok (days_diff <? 7)%Z
          | None => Ok false
          end
      | _ => Ok false
      end.

Definition _suspicious_email_pattern (email : string) : bool :=
  let suspicious_domains := ["temp-mail"; "throwaway"; "guerrillamail"] in
  if existsb (fun domain => Str.contains domain email) suspicious_domains
  then true
  else if Str.six_digits_at email 0 then true
  else false.

Definition _rule_based_fraud_detection (claim_analysis : value)
           (email_data : EmailData.t) : result Q :=
  let score := 0.0%Q in
  claim_amount <- py_get claim_analysis "claim_amount" (VInt 0) ;;
  high <- py_gt claim_amount (VInt 1000000) ;;
  let score := if high then (score + 0.3)%Q else score in
  loss_date <- py_get claim_analysis "loss_date" (VStr "") ;;
  suspicious_date <- _suspicious_date_pattern loss_date ;;
  let score := if suspicious_date then (score + 0.2)%Q else score in
  loss_location <- py_get claim_analysis "loss_location" (VStr "") ;;
  location <- py_lower loss_location ;;
  let score :=
    if existsb (fun pattern => Str.contains pattern location)
               ["unknown"; "tbd"; "n/a"]
    then (score + 0.1)%Q else score in
  let sender_email := Str.lower (EmailData.sender_email email_data) in
  let score :=
    if _suspicious_email_pattern sender_email then (score + 0.2)%Q else score in
  let subject := Str.lower (EmailData.subject email_data) in
  let urgency_words := ["urgent"; "immediate"; "asap"; "emergency"] in
  let score :=
    if existsb (fun word => Str.contains word subject) urgency_words
    then (score + 0.1)%Q else score in
  Ok (py_min score 1.0).

Definition _parse_fraud_analysis (analysis_text : string) : value :=
  try_except
    (if Str.contains "```json" analysis_text
     then json_str <- fenced_json analysis_text ;; json_loads json_str
     else
       Ok (VDict
             [(VStr "fraud_indicators",
               VList [VStr "Analysis completed but parsing failed"]);
              (VStr "confidence", VFloat 0.5);
              (VStr "recommendations", VList [VStr "Manual review recommended"]);
              (VStr "raw_analysis", VStr analysis_text)]))
    (fun _ =>
       VDict
         [(VStr "fraud_indicators", VList [VStr "Analysis parsing error"]);
          (VStr "confidence", VFloat 0.5);
          (VStr "recommendations",
           VList [VStr "System error - manual review required"]);
          (VStr "raw_analysis", VStr analysis_text)]).

Definition fraud_prompt (claim_analysis : value) (email_data : EmailData.t)
  : string :=
  ("
            " ++ FRAUD_DETECTION_PROMPT ++ "
            
            CLAIM ANALYSIS DATA:
            " ++ json_dumps claim_analysis ++ "
            
            EMAIL CONTEXT:
            - Subject: " ++ EmailData.subject email_data ++ "
            - Sender: " ++ EmailData.sender_email email_data ++ "
            - Date: " ++ EmailData.date email_data ++ "
            
            Analyze this marine insurance claim for potential fraud indicators and provide a detailed assessment.
            ")%string.

Definition _ai_based_fraud_detection (claim_analysis : value)
           (email_data : EmailData.t) : value :=
  try_except
    (let prompt := fraud_prompt claim_analysis email_data in
     let analysis_result := analyze_content prompt in
     Ok (_parse_fraud_analysis analysis_result))
    (fun _ => VDict [(VStr "error", VStr "error"); (VStr "score", VFloat 0.5)]).

Definition _combine_fraud_scores (rule_score : Q) (ai_analysis : value)
  : result Q :=
  let ai_score :=
    match ai_analysis with
    | VDict d => dict_get d "confidence" (VFloat 0.5)
    | _ => VFloat 0.5
    end in
  weighted <- py_mul_float ai_score 0.6 ;;
  let combined_score := (weighted + rule_score * 0.4)%Q in
  Ok (py_min combined_score 1.0).

Definition _get_risk_level (score : Q) : string :=
  if Qgeb score 0.8 then "HIGH"
  else if Qgeb score 0.6 then "MEDIUM"
  else if Qgeb score 0.4 then "LOW"
  else "VERY LOW".

Definition _extract_red_flags (claim_analysis ai_analysis : value)
  : result (list value) :=
  claim_amount <- py_get claim_analysis "claim_amount" (VInt 0) ;;
  high <- py_gt claim_amount (VInt 1000000) ;;
  let red_flags :=
    if high then [VStr "Exceptionally high claim amount"] else [] in
  red_flags <-
    match ai_analysis with
    | VDict d =>
        indicators <- py_iter (dict_get d "fraud_indicators" (VList [])) ;;
        Ok (red_flags ++ indicators)
    | _ => Ok red_flags
    end ;;
  Ok (firstn 10 red_flags).

(** [list(set(l))] *)
Definition py_list_set (l : list value) : result (list value) :=
  if forallb hashable l then Ok (set_order l) else Raise TypeError.

Definition _generate_fraud_recommendations (score : Q) (ai_analysis : value)
  : result (list value) :=
  let recommendations :=
    if Qgtb score FRAUD_THRESHOLD then
      [VStr "Immediate investigation required";
       VStr "Contact insured party for verification";
       VStr "Review supporting documentation carefully";
       VStr "Consider involving special investigations unit"]
    else if Qgtb score 0.5 then
      [VStr "Enhanced documentation review recommended";
       VStr "Verify loss details with independent sources";
       VStr "Check claim history of insured party"]
    else [VStr "Standard processing procedures applicable"] in
  recommendations <-
    match ai_analysis with
    | VDict d =>
        ai_recommendations <- py_iter (dict_get d "recommendations" (VList [])) ;;
        Ok (recommendations ++ ai_recommendations)
    | _ => Ok recommendations
    end ;;
  unique <- py_list_set recommendations ;;
  Ok (firstn 5 unique).

Definition _get_default_fraud_analysis : FraudAssessment.t :=
  FraudAssessment.make 0.5 "UNKNOWN" 0.0
    (VDict [(VStr "error", VStr "Analysis failed")])
    [VStr "System error in fraud detection"]
    [VStr "Manual fraud assessment required"]
    ["failed"].

(** the body of the [try] block of [detect_fraud] *)
Definition detect_fraud_body (claim_analysis : value) (email_data : EmailData.t)
  : result FraudAssessment.t :=
  rule_based_score <- _rule_based_fraud_detection claim_analysis email_data ;;
  let ai_based_analysis := _ai_based_fraud_detection claim_analysis email_data in
  final_score <- _combine_fraud_scores rule_based_score ai_based_analysis ;;
  let risk_level := _get_risk_level final_score in
  red_flags <- _extract_red_flags claim_analysis ai_based_analysis ;;
  recommendations <- _generate_fraud_recommendations final_score ai_based_analysis ;;
  Ok (FraudAssessment.make final_score risk_level rule_based_score
        ai_based_analysis red_flags recommendations
        ["rule_based"; "ai_analysis"]).

Definition detect_fraud (claim_analysis : value) (email_data : EmailData.t)
  : FraudAssessment.t :=
  try_except (detect_fraud_body claim_analysis email_data)
             (fun _ => _get_default_fraud_analysis).

End Detector.
End FraudDetector.

(* ================================================================= *)
(** ** [processing/pipeline.py] *)

(** The dict [report_data] built by [process_single_claim]. *)
Module ReportData.
Record t : Type := make {
  email_data : EmailData.t;
  claim_analysis : dict;
  duplicate_check : DuplicateVerdict.t;
  fraud_analysis : FraudAssessment.t;
  processing_timestamp : string
}.
End ReportData.

Module ProcessingResult.
Record t : Type := make {
  email_id : string;
  claim_number : value;
  subject : string;
  sender_email : string;
  processing_status : string;
  fraud_score : Q;
  is_duplicate : bool;
  duplicate_of : option value;
  (** [None] is the empty dict of the error path *)
  analysis_results : option ReportData.t;
  report_path : string;
  processed_at : string
}.
End ProcessingResult.

(** The collaborators of the pipeline that lie outside the core:
    [DocumentReader.extract_text_from_pdf], [ClaimsAnalyzer.analyze_claim]
    (which catches every exception itself and always returns a dict),
    [ReportGenerator.generate_claim_report] (which re-raises its failures)
    and the write of [processed_claims.json]. *)
Class Collaborators : Type := {
  extract_text_from_pdf : string -> result string;
  analyze_claim : string -> EmailData.t -> dict;
  generate_claim_report : ReportData.t -> result string;
  write_claims_file : dict -> result unit
}.

Module Pipeline.

(** The pipeline object: the in-memory registry, the record of the writes
    of [processed_claims.json] that were attempted (content and outcome,
    most recent first), and the number of clock readings so far. *)
Record state : Type := mkState {
  processed_claims : dict;
  file_writes : list (dict * bool);
  clock : nat
}.

Definition M (A : Type) : Type := state -> result A * state.

Definition ret {A : Type} (a : A) : M A := fun st => (Ok a, st).

Definition bindM {A B : Type} (m : M A) (f : A -> M B) : M B :=
  fun st =>
    match m st with
    | (Ok a, st') => f a st'
    | (Raise e, st') => (Raise e, st')
    end.

Definition lift {A : Type} (r : result A) : M A := fun st => (r, st).

Notation "x <~ m ;; k" := (bindM m (fun x => k))
  (at level 61, m at next level, right associativity).

Section Claims.
Context {R : Runtime} {W : World} {C : Collaborators}.

(** [datetime.now().isoformat()] *)
Definition now : M string :=
  fun st =>
    (Ok (now_isoformat (clock st)),
     mkState (processed_claims st) (file_writes st) (S (clock st))).

Definition get_processed_claims : M dict :=
  fun st => (Ok (processed_claims st), st).

(** [self.processed_claims[key] = entry] *)
Definition upsert (key entry : value) : M unit :=
  fun st =>
    match py_setitem (processed_claims st) key entry with
    | Ok d => (Ok tt, mkState d (file_writes st) (clock st))
    | Raise e => (Raise e, st)
    end.

(** The [try] block writes the file; the [except] block logs the error
    and lets the caller go on. *)
Definition _save_processed_claims : M unit :=
  fun st =>
    let ok := negb (raises (write_claims_file (processed_claims st))) in
    (Ok tt,
     mkState (processed_claims st)
             ((processed_claims st, ok) :: file_writes st)
             (clock st)).

Definition _extract_pdf_content (pdf_path : string) : string :=
  try_except (extract_text_from_pdf pdf_path) (fun _ => "").

(** the value stored under the claim number *)
Definition registry_entry (result : ProcessingResult.t) (claim_analysis : dict)
  : value :=
  VDict
    [(VStr "email_id", VStr (ProcessingResult.email_id result));
     (VStr "subject", VStr (ProcessingResult.subject result));
     (VStr "sender_email", VStr (ProcessingResult.sender_email result));
     (VStr "processed_at", VStr (ProcessingResult.processed_at result));
     (VStr "fraud_score", VFloat (ProcessingResult.fraud_score result));
     (VStr "analysis_summary", dict_get claim_analysis "summary" (VDict []))].

(** [claim_analysis], as [analyze_claim] returns it for this e-mail *)
Definition analysis_of (email_data : EmailData.t) : dict :=
  analyze_claim (_extract_pdf_content (EmailData.pdf_path email_data)) email_data.

(** [duplicate_check], the verdict for this e-mail against the registry
    of the pipeline *)
Definition verdict_of (email_data : EmailData.t) (st : state)
  : DuplicateVerdict.t :=
  DuplicateDetector.check_duplicate (VDict (analysis_of email_data))
                                    (processed_claims st).

(** the body of the [try] block of [process_single_claim] *)
Definition process_body (email_data : EmailData.t) : M ProcessingResult.t :=
  let pdf_text := _extract_pdf_content (EmailData.pdf_path email_data) in
  let claim_analysis := analyze_claim pdf_text email_data in
  registry <~ get_processed_claims ;;
  let duplicate_check :=
    DuplicateDetector.check_duplicate (VDict claim_analysis) registry in
  let fraud_analysis :=
    FraudDetector.detect_fraud (VDict claim_analysis) email_data in
  processing_timestamp <~ now ;;
  let report_data :=
    ReportData.make email_data claim_analysis duplicate_check fraud_analysis
                    processing_timestamp in
  report_path <~ lift (generate_claim_report report_data) ;;
  processed_at <~ now ;;
  let result :=
    ProcessingResult.make
      (EmailData.id email_data)
      (dict_get claim_analysis "claim_number" (VStr "Unknown"))
      (EmailData.subject email_data)
      (EmailData.sender_email email_data)
      "completed"
      (FraudAssessment.fraud_score fraud_analysis)
      (DuplicateVerdict.is_duplicate duplicate_check)
      (DuplicateVerdict.duplicate_of duplicate_check)
      (Some report_data)
      report_path
      processed_at in
  _ <~ (if negb (DuplicateVerdict.is_duplicate duplicate_check) then
          _ <~ upsert (ProcessingResult.claim_number result)
                 (registry_entry result claim_analysis) ;;
          _save_processed_claims
        else ret tt) ;;
  ret result.

(** the report data and the result that [process_single_claim] builds on
    its successful path, given the path of the report *)
Definition report_of (email_data : EmailData.t) (st : state) : ReportData.t :=
  ReportData.make email_data (analysis_of email_data) (verdict_of email_data st)
    (FraudDetector.detect_fraud (VDict (analysis_of email_data)) email_data)
    (now_isoformat (clock st)).

Definition result_of (email_data : EmailData.t) (st : state) (report_path : string)
  : ProcessingResult.t :=
  ProcessingResult.make
    (EmailData.id email_data)
    (dict_get (analysis_of email_data) "claim_number" (VStr "Unknown"))
    (EmailData.subject email_data)
    (EmailData.sender_email email_data)
    "completed"
    (FraudAssessment.fraud_score
       (FraudDetector.detect_fraud (VDict (analysis_of email_data)) email_data))
    (DuplicateVerdict.is_duplicate (verdict_of email_data st))
    (DuplicateVerdict.duplicate_of (verdict_of email_data st))
    (Some (report_of email_data st))
    report_path
    (now_isoformat (S (clock st))).

(** the [ProcessingResult] of the [except] block *)
Definition failed_result (email_data : EmailData.t) (processed_at : string)
  : ProcessingResult.t :=
  ProcessingResult.make
    (EmailData.id email_data)
    (VStr "Error")
    (EmailData.subject email_data)
    (EmailData.sender_email email_data)
    "failed"
    0.0
    false
    None
    None
    ""
    processed_at.

Definition process_single_claim (email_data : EmailData.t) (st : state)
  : ProcessingResult.t * state :=
  match process_body email_data st with
  | (Ok result, st') => (result, st')
  | (Raise _, st') =>
      (failed_result email_data (now_isoformat (clock st')),
       mkState (processed_claims st') (file_writes st') (S (clock st')))
  end.

End Claims.
End Pipeline.

(* ================================================================= *)
(** ** The statements of the specification, and concrete scenarios *)

Module Spec.

(** The risk levels of the specification and the labels the code uses for
    them. *)
Inductive RiskLevel : Type := HIGH | MEDIUM | LOW | VERY_LOW.

Definition risk_label (r : RiskLevel) : string :=
  match r with
  | HIGH => "HIGH"
  | MEDIUM => "MEDIUM"
  | LOW => "LOW"
  | VERY_LOW => "VERY LOW"
  end.

(** "HIGH if fraud_score >= 0.8, MEDIUM if >= 0.6, LOW if >= 0.4, else
      VERY_LOW" *)
Definition risk_step (score : Q) : RiskLevel :=
  if Qle_bool 0.8 score then HIGH
  else if Qle_bool 0.6 score then MEDIUM
  else if Qle_bool 0.4 score then LOW
  else VERY_LOW.

(** "that pass contributes zero candidates" *)
Definition pass_or_empty (pass : result (list MatchCandidate.t))
  : list MatchCandidate.t :=
  try_except pass (fun _ => []).

(** The failure policy in the words of the specification: every detection
    pass is guarded on its own, the other passes still contribute, and only
    a failure of the whole check yields the error verdict. *)
Definition check_duplicate_isolated {R : Runtime} {W : World}
           (current_claim : value) (processed_claims : dict) : DuplicateVerdict.t :=
  try_except
    (if negb (truthy (VDict processed_claims)) then
       Ok (DuplicateVerdict.make false (VFloat 0.0) None None None None None None)
     else
       DuplicateDetector._combine_duplicate_results
         (pass_or_empty
            (DuplicateDetector._check_exact_matches current_claim processed_claims))
         (pass_or_empty
            (DuplicateDetector._check_similar_matches current_claim processed_claims))
         (DuplicateDetector._ai_duplicate_check current_claim processed_claims))
    DuplicateDetector.error_verdict.

(** "any exception inside one detection pass is caught and that pass
    contributes zero candidates while the other passes still contribute
    theirs" *)
Definition passes_isolated {R : Runtime} {W : World}
           (current_claim : value) (processed_claims : dict) : Prop :=
  DuplicateDetector.check_duplicate current_claim processed_claims
  = check_duplicate_isolated current_claim processed_claims.

(** the confidence of a candidate as a number *)
Definition conf (c : MatchCandidate.t) : Q :=
  match as_number (MatchCandidate.confidence c) with
  | Some q => q
  | None => 0
  end.

(** the confidence of the candidate is a finite number: a [bool], an [int]
    or a float other than NaN and the infinities *)
Definition numeric (c : MatchCandidate.t) : Prop :=
  as_number (MatchCandidate.confidence c) <> None.




(** the registry upsert took place between two states of the pipeline: the
    entry was stored under [key] and the registry file was written (the
    write of this call succeeded) *)
Definition upsert_performed (st st' : Pipeline.state) (key : value) : Prop :=
  exists entry,
    Pipeline.processed_claims st'
    = dict_set (Pipeline.processed_claims st) key entry
    /\ Pipeline.file_writes st'
       = (Pipeline.processed_claims st', true) :: Pipeline.file_writes st.

(** the registration step was reached: the entry was stored under [key] in
    the registry in memory and a write of the registry file was attempted,
    whatever its outcome *)
Definition upsert_attempted (st st' : Pipeline.state) (key : value) : Prop :=
  exists entry ok,
    Pipeline.processed_claims st'
    = dict_set (Pipeline.processed_claims st) key entry
    /\ Pipeline.file_writes st'
       = (Pipeline.processed_claims st', ok) :: Pipeline.file_writes st.

(** the registry write of this call failed *)
Definition write_failed (st st' : Pipeline.state) : Prop :=
  exists content,
    Pipeline.file_writes st' = (content, false) :: Pipeline.file_writes st.

(** "the registry upsert is performed if and only if the duplicate verdict
      for that claim has is_duplicate=false" *)
Definition upsert_iff_not_duplicate {R : Runtime} {W : World} {C : Collaborators}
           (email_data : EmailData.t) (st : Pipeline.state) : Prop :=
  upsert_performed st (snd (Pipeline.process_single_claim email_data st))
    (dict_get (Pipeline.analysis_of email_data) "claim_number" (VStr "Unknown"))
  <-> DuplicateVerdict.is_duplicate (Pipeline.verdict_of email_data st) = false.

(** "for every claim whose registry write fails, process_single_claim
      aborts that claim with processing_status='failed' and does not mark it
      registered" *)
Definition write_failure_aborts {R : Runtime} {W : World} {C : Collaborators}
           (email_data : EmailData.t) (st : Pipeline.state) : Prop :=
  let '(result, st') := Pipeline.process_single_claim email_data st in
  write_failed st st' ->
  ProcessingResult.processing_status result = "failed"
  /\ Pipeline.processed_claims st' = Pipeline.processed_claims st.

End Spec.

Module Scenario.

(** A runtime and a world for the concrete runs below: the hosted model is
    unreachable, so [analyze_content] returns the text that
    [GeminiClient] produces in its [except] branch, and the thresholds have
    their default values.  The clock reads 2025-01-06 and the only date the
    runs hand to [strptime] is 2024-01-15.  None of the runs calls
    [float_repr] or [json_loads], and the text of the prompts does not
    influence them. *)
Definition runtime : Runtime :=
  {| float_repr := fun _ => "0.0";
     json_loads := fun _ => Raise JSONDecodeError;
     json_dumps := fun _ => "{}";
     set_order := fun l => l |}.

Definition world : World :=
  {| DUPLICATE_THRESHOLD := 0.8;
     FRAUD_THRESHOLD := 0.7;
     DUPLICATE_DETECTION_PROMPT := "determine if the current claim is a duplicate";
     FRAUD_DETECTION_PROMPT := "analyze this claim for fraud";
     analyze_content := fun _ => "Analysis failed: service unavailable";
     days_since := fun s => if String.eqb s "2024-01-15" then Some 357%Z else None;
     now_isoformat :=
       fun n => ("2025-01-06T10:00:0" ++ string_of_Z (Z.of_nat n))%string |}.

(** the input of the rule-based scoring example *)
Definition five_rules_claim : value :=
  VDict [(VStr "claim_amount", VInt 2000000);
         (VStr "loss_date", VStr "unknown");
         (VStr "loss_location", VStr "TBD")].

Definition five_rules_email : EmailData.t :=
  EmailData.make "1" "URGENT claim" "999999@mail.com" "claim.pdf" "Unknown".

(** an analysis whose amount came back as text *)
Definition text_amount_claim : value :=
  VDict [(VStr "claim_number", VStr "CLM-7");
         (VStr "claim_amount", VStr "2,000,000 USD")].

Definition plain_email : EmailData.t :=
  EmailData.make "42" "Cargo damage claim" "agent@insurer.example"
                 "claim_42.pdf" "Mon, 06 Jan 2025 10:00:00 +0000".

(** the analysis of a claim numbered CLM-100 *)
Definition clm100_analysis : dict :=
  [(VStr "claim_number", VStr "CLM-100");
   (VStr "insured_party", VStr "Acme Shipping Ltd");
   (VStr "loss_date", VStr "2024-01-15");
   (VStr "loss_location", VStr "Port of Mombasa");
   (VStr "claim_amount", VInt 5000);
   (VStr "currency", VStr "USD");
   (VStr "loss_description", VStr "Container damaged during unloading")].

(** every collaborator does its work *)
Definition collaborators : Collaborators :=
  {| extract_text_from_pdf := fun _ => Ok "Claim CLM-100: container damaged";
     analyze_claim := fun _ _ => clm100_analysis;
     generate_claim_report := fun _ => Ok "reports/claim_report_CLM-100.pdf";
     write_claims_file := fun _ => Ok tt |}.

(** the report generator fails (and re-raises, as its [except] block does) *)
Definition failing_report : Collaborators :=
  {| extract_text_from_pdf := fun _ => Ok "Claim CLM-100: container damaged";
     analyze_claim := fun _ _ => clm100_analysis;
     generate_claim_report := fun _ => Raise OSError;
     write_claims_file := fun _ => Ok tt |}.

(** the registry file cannot be written *)
Definition failing_disk : Collaborators :=
  {| extract_text_from_pdf := fun _ => Ok "Claim CLM-100: container damaged";
     analyze_claim := fun _ _ => clm100_analysis;
     generate_claim_report := fun _ => Ok "reports/claim_report_CLM-100.pdf";
     write_claims_file := fun _ => Raise OSError |}.

(** the same analysis with a loss date that came back as JSON [null] *)
Definition null_date_analysis : dict :=
  [(VStr "claim_number", VStr "CLM-100");
   (VStr "insured_party", VStr "Acme Shipping Ltd");
   (VStr "loss_date", VNone);
   (VStr "loss_location", VStr "Port of Mombasa");
   (VStr "claim_amount", VInt 5000);
   (VStr "currency", VStr "USD");
   (VStr "loss_description", VStr "Container damaged during unloading")].

(** a registry file whose entry carries the fields of the claim *)
Definition registry_with_claim : dict :=
  [(VStr "CLM-100", VDict clm100_analysis)].

(** a registry of eleven claims, CLM-1 to CLM-11 *)
Definition eleven_claims : dict :=
  map (fun n => (VStr ("CLM-" ++ string_of_Z n)%string, VDict clm100_analysis))
      [1; 2; 3; 4; 5; 6; 7; 8; 9; 10; 11]%Z.

(** a pipeline started with no [processed_claims.json] *)
Definition fresh : Pipeline.state := Pipeline.mkState [] [] 0.

Definition first_email : EmailData.t :=
  EmailData.make "101" "Marine claim CLM-100" "agent@insurer.example"
                 "claim_101.pdf" "Mon, 06 Jan 2025 10:00:00 +0000".

Definition second_email : EmailData.t :=
  EmailData.make "102" "Marine claim CLM-100 (resent)" "agent@insurer.example"
                 "claim_102.pdf" "Tue, 07 Jan 2025 09:30:00 +0000".

End Scenario.

(** A run in which the hosted model answers the duplicate prompt with a
    fenced JSON object whose only match has a confidence given in words. *)
Module WordyScenario.

Definition quoted (s : string) : string :=
  (String (ascii_of_nat 34) s ++ String (ascii_of_nat 34) "")%string.

Definition json_text : string :=
  ("{" ++ quoted "matches" ++ ": [{" ++ quoted "claim_id" ++ ": "
       ++ quoted "CLM-100" ++ ", " ++ quoted "confidence" ++ ": "
       ++ quoted "high" ++ "}]}")%string.

Definition reply : string :=
  ("Here is my assessment.
```json
" ++ json_text ++ "
```")%string.

Definition runtime : Runtime :=
  {| float_repr := fun _ => "0.0";
     json_loads :=
       fun s =>
         if String.eqb s json_text
         then Ok (VDict [(VStr "matches",
                          VList [VDict [(VStr "claim_id", VStr "CLM-100");
                                        (VStr "confidence", VStr "high")]])])
         else Raise JSONDecodeError;
     json_dumps := fun _ => "{}";
     set_order := fun l => l |}.

Definition world : World :=
  {| DUPLICATE_THRESHOLD := 0.8;
     FRAUD_THRESHOLD := 0.7;
     DUPLICATE_DETECTION_PROMPT := "determine if the current claim is a duplicate";
     FRAUD_DETECTION_PROMPT := "analyze this claim for fraud";
     analyze_content := fun _ => reply;
     days_since := fun _ => None;
     now_isoformat := fun _ => "2025-01-06T10:00:00" |}.

End WordyScenario.

(* ================================================================= *)
(** ** [gemini_integration/claims_analyzer.py] *)

(** The four patterns of [_extract_claim_number], searched with
    [re.IGNORECASE].  In each of them a repetition is followed by a class
    disjoint from the repeated one, so the greedy choice is the only one that
    can succeed and no backtracking has to be modelled. *)
Module Re.

Definition is_alpha (c : ascii) : bool :=
  let n := nat_of_ascii (Str.lower_char c) in (97 <=? n)%nat && (n <=? 122)%nat.

(** [[A-Z0-9-]] under [IGNORECASE] *)
Definition claim_class (c : ascii) : bool :=
  is_alpha c || Str.is_digit c || Ascii.eqb c "-"%char.

(** [[:\s]] *)
Definition colon_or_space (c : ascii) : bool :=
  Ascii.eqb c ":"%char || Str.is_space c.

Definition eq_ci (c p : ascii) : bool :=
  Ascii.eqb (Str.lower_char c) (Str.lower_char p).

(** the rest of [s] after the literal [lit], matched ignoring case *)
Fixpoint prefix_ci (lit s : string) : option string :=
  match lit with
  | EmptyString => Some s
  | String p lit' =>
      match s with
      | EmptyString => None
      | String c s' => if eq_ci c p then prefix_ci lit' s' else None
      end
  end.

Fixpoint skip_while (p : ascii -> bool) (s : string) : string :=
  match s with
  | EmptyString => EmptyString
  | String c s' => if p c then skip_while p s' else s
  end.

Fixpoint take_while (p : ascii -> bool) (s : string) : string :=
  match s with
  | EmptyString => EmptyString
  | String c s' => if p c then String c (take_while p s') else EmptyString
  end.

(** a group [(class+)] *)
Definition group_plus (p : ascii -> bool) (s : string) : option string :=
  match take_while p s with
  | EmptyString => None
  | g => Some g
  end.

Definition opt_bind {A B : Type} (m : option A) (f : A -> option B) : option B :=
  match m with
  | Some a => f a
  | None => None
  end.

(** [Claim[:\s]*([A-Z0-9-]+)] at the start of [s] *)
Definition claim_at (s : string) : option string :=
  opt_bind (prefix_ci "Claim" s)
           (fun r => group_plus claim_class (skip_while colon_or_space r)).

(** [Claim\s*Number[:\s]*([A-Z0-9-]+)] at the start of [s] *)
Definition claim_number_at (s : string) : option string :=
  opt_bind (prefix_ci "Claim" s)
    (fun r =>
       opt_bind (prefix_ci "Number" (skip_while Str.is_space r))
         (fun r' => group_plus claim_class (skip_while colon_or_space r'))).

(** [CLM[:\s]*([A-Z0-9-]+)] at the start of [s] *)
Definition clm_at (s : string) : option string :=
  opt_bind (prefix_ci "CLM" s)
           (fun r => group_plus claim_class (skip_while colon_or_space r)).

(** [#([A-Z]{2,3}\d{5,})] at the start of [s] *)
Definition hash_at (s : string) : option string :=
  match s with
  | String c r =>
      if Ascii.eqb c "#"%char then
        let letters := take_while is_alpha r in
        let n := String.length letters in
        if ((n =? 2) || (n =? 3))%nat then
          let digits := take_while Str.is_digit (skip_while is_alpha r) in
          if (5 <=? String.length digits)%nat
          then Some (letters ++ digits)%string else None
        else None
      else None
  | EmptyString => None
  end.

(** [re.search(pattern, s).group(1)]: the group of the leftmost match *)
Fixpoint search (at_start : string -> option string) (s : string) : option string :=
  match at_start s with
  | Some g => Some g
  | None =>
      match s with
      | EmptyString => None
      | String _ s' => search at_start s'
      end
  end.

End Re.

(** [prompts.CLAIM_ANALYSIS_PROMPT] and the builtin [hash] on [str], whose
    values change from one process to the next. *)
Class AnalyzerEnv : Type := {
  CLAIM_ANALYSIS_PROMPT : string;
  py_hash : string -> Z
}.

(** The dict [context] built by [analyze_claim]. *)
Module AnalysisContext.
Record t : Type := make {
  email_subject : string;
  sender_email : string;
  email_date : string;
  attachment_count : nat;
  claim_content : string
}.
End AnalysisContext.

Module ClaimsAnalyzer.
Section Analyzer.
Context {R : Runtime} {W : World} {A : AnalyzerEnv}.

(** [s[:n]] *)
Fixpoint take (n : nat) (s : string) : string :=
  match n, s with
  | S n', String c s' => String c (take n' s')
  | _, _ => EmptyString
  end.

(** [f"{n:05d}"] for [n >= 0] *)
Definition format_05d (n : Z) : string :=
  let digits := string_of_Z n in
  (Str.join "" (repeat "0" (5 - String.length digits)) ++ digits)%string.

Definition _extract_claim_number (text : string) : string :=
  match Re.search Re.claim_at text with
  | Some g => g
  | None =>
      match Re.search Re.claim_number_at text with
      | Some g => g
      | None =>
          match Re.search Re.clm_at text with
          | Some g => g
          | None =>
              match Re.search Re.hash_at text with
              | Some g => g
              | None => ("CLM-" ++ format_05d (py_hash text mod 100000))%string
              end
          end
      end
  end.

Definition _get_default_analysis : dict :=
  [(VStr "claim_number", VStr "UNKNOWN");
   (VStr "insured_party", VStr "Unknown");
   (VStr "loss_date", VStr "Unknown");
   (VStr "loss_location", VStr "Unknown");
   (VStr "claim_amount", VFloat 0.0);
   (VStr "currency", VStr "USD");
   (VStr "loss_description", VStr "Analysis failed");
   (VStr "analysis_summary", VStr "AI analysis could not be completed");
   (VStr "key_findings", VList [VStr "Analysis system error"]);
   (VStr "recommendations", VList [VStr "Manual review required"]);
   (VStr "confidence_score", VFloat 0.0);
   (VStr "analysis_timestamp", VStr "");
   (VStr "source_email", VStr "");
   (VStr "raw_analysis", VStr "")].

Definition _structure_text_analysis (analysis_text : string)
           (context : AnalysisContext.t) : dict :=
  [(VStr "claim_number", VStr (_extract_claim_number analysis_text));
   (VStr "insured_party", VStr "Unknown");
   (VStr "loss_date", VStr "Unknown");
   (VStr "loss_location", VStr "Unknown");
   (VStr "claim_amount", VFloat 0.0);
   (VStr "currency", VStr "USD");
   (VStr "loss_description", VStr (take 500 analysis_text));
   (VStr "analysis_summary", VStr analysis_text);
   (VStr "key_findings",
    VList [VStr "Analysis completed but structured parsing failed"]);
   (VStr "recommendations",
    VList [VStr "Review claim manually for detailed assessment"]);
   (VStr "confidence_score", VFloat 0.5);
   (VStr "analysis_timestamp", VStr (AnalysisContext.email_date context));
   (VStr "source_email", VStr (AnalysisContext.sender_email context));
   (VStr "raw_analysis", VStr analysis_text)].

(** the text handed to [json.loads] *)
Definition json_text (analysis_text : string) : result string :=
  if Str.contains "```json" analysis_text then fenced_json analysis_text
  else if Str.contains "```" analysis_text then
    inner <- py_index (Str.split "```" analysis_text) 1 ;; Ok (Str.strip inner)
  else Ok analysis_text.

(** [analysis_data[key] = v]: only a dict can be assigned to by a text key *)
Definition set_key (analysis_data : value) (key : string) (v : value)
  : result value :=
  match analysis_data with
  | VDict d => Ok (VDict (dict_set d (VStr key) v))
  | _ => Raise TypeError
  end.

(** [_parse_analysis_result]: a [JSONDecodeError] leads to the text
    analysis, any other exception goes to the caller *)
Definition _parse_analysis_result (analysis_text : string)
           (context : AnalysisContext.t) : result value :=
  match json_text analysis_text with
  | Raise e => Raise e
  | Ok json_str =>
      match json_loads json_str with
      | Raise JSONDecodeError =>
          Ok (VDict (_structure_text_analysis analysis_text context))
      | Raise e => Raise e
      | Ok analysis_data =>
          d1 <- set_key analysis_data "analysis_timestamp"
                  (VStr (AnalysisContext.email_date context)) ;;
          d2 <- set_key d1 "source_email"
                  (VStr (AnalysisContext.sender_email context)) ;;
          set_key d2 "content_length"
            (VInt (Z.of_nat (String.length (AnalysisContext.claim_content context))))
      end
  end.

Definition _build_analysis_prompt (context : AnalysisContext.t) : string :=
  ("
        " ++ CLAIM_ANALYSIS_PROMPT ++ "
        
        EMAIL CONTEXT:
        - Subject: " ++ AnalysisContext.email_subject context ++ "
        - Sender: " ++ AnalysisContext.sender_email context ++ "
        - Date: " ++ AnalysisContext.email_date context ++ "
        - Attachments: "
     ++ string_of_Z (Z.of_nat (AnalysisContext.attachment_count context)) ++ "
        
        CLAIM DOCUMENT CONTENT:
        " ++ AnalysisContext.claim_content context ++ "
        
        Please analyze this marine insurance claim thoroughly and provide a structured JSON response.
        ")%string.

(** [analyze_claim]; [attachments] is [len(email_data.get('attachments', []))] *)
Definition analyze_claim (claim_text : string) (email_data : EmailData.t)
           (attachments : nat) : value :=
  try_except
    (let context :=
       AnalysisContext.make (EmailData.subject email_data)
         (EmailData.sender_email email_data) (EmailData.date email_data)
         attachments (take 10000 claim_text) in
     let prompt := _build_analysis_prompt context in
     let analysis_result := analyze_content prompt in
     _parse_analysis_result analysis_result context)
    (fun _ => VDict _get_default_analysis).

End Analyzer.
End ClaimsAnalyzer.

(** The analyzer in the run of [Scenario], where the hosted model is
    unreachable. *)
Module AnalyzerScenario.

Definition env : AnalyzerEnv :=
  {| CLAIM_ANALYSIS_PROMPT := "analyze this marine insurance claim";
     py_hash := fun _ => 8731940215%Z |}.

(** what [analyze_claim] returns for the first e-mail *)
Definition analysis : value :=
  @ClaimsAnalyzer.analyze_claim Scenario.runtime Scenario.world env
    "Claim CLM-100: container damaged" Scenario.first_email 1.

End AnalyzerScenario.

(* ================================================================= *)
(** ** [emails/email_processor.py]: relevance and the record of processed
       e-mails *)

(** The entries of an e-mail that the processor reads. *)
Module Email.
Record t : Type := make {
  id : string;
  subject : string;
  sender_email : string;
  body : string;
  body_preview : string;
  attachment_count : nat
}.
End Email.

(** [email_config.FILTER_CRITERIA], and [json.dumps(_, sort_keys=True)]. *)
Class EmailEnv : Type := {
  senders : list string;
  keywords : list string;
  json_dumps_sorted : value -> string
}.

Module EmailProcessor.
Section Processor.
Context {E : EmailEnv}.

Definition sender_match (email_data : Email.t) : bool :=
  let sender_email := Str.lower (Email.sender_email email_data) in
  let target_senders := map (fun s => Str.lower (Str.strip s)) senders in
  existsb (fun target_sender => Str.contains target_sender sender_email)
          target_senders.

Definition _is_relevant_email (email_data : Email.t) : bool :=
  let subject := Str.lower (Email.subject email_data) in
  let body := Str.lower (Email.body email_data) in
  if negb (sender_match email_data) then false
  else
    let keywords := map Str.lower keywords in
    let subject_contains_keyword :=
      existsb (fun keyword => Str.contains keyword subject) keywords in
    let body_contains_keyword :=
      existsb (fun keyword => Str.contains keyword body) keywords in
    subject_contains_keyword || body_contains_keyword.

Definition _get_email_fingerprint (email_data : Email.t) : string :=
  let fingerprint_data :=
    VDict [(VStr "subject", VStr (Email.subject email_data));
           (VStr "sender_email", VStr (Email.sender_email email_data));
           (VStr "body_preview",
            VStr (ClaimsAnalyzer.take 200 (Email.body_preview email_data)));
           (VStr "attachment_count",
            VInt (Z.of_nat (Email.attachment_count email_data)))] in
  MD5.hexdigest (json_dumps_sorted fingerprint_data).

Definition _is_email_processed (processed_emails : dict) (email_data : Email.t)
  : bool :=
  dict_mem processed_emails (VStr (_get_email_fingerprint email_data)).

(** the update of [self.processed_emails] by [_mark_email_processed];
    the write of the file that follows only logs its failures *)
Definition _mark_email_processed (processed_emails : dict) (email_data : Email.t)
           (result : dict) (processed_at : string) : dict :=
  dict_set processed_emails (VStr (_get_email_fingerprint email_data))
    (VDict [(VStr "email_id", VStr (Email.id email_data));
            (VStr "subject", VStr (Email.subject email_data));
            (VStr "sender_email", VStr (Email.sender_email email_data));
            (VStr "processed_at", VStr processed_at);
            (VStr "claim_number", dict_get result "claim_number" (VStr "Unknown"));
            (VStr "pdf_path", dict_get result "pdf_path" (VStr ""))]).

End Processor.
End EmailProcessor.

(** [emails/email_client.py]: the dict that [_parse_email] returns when
    parsing succeeds, with the entries the processor reads. *)
Module EmailClient.

(** [body[:200] + "..." if len(body) > 200 else body] *)
Definition body_preview (body : string) : string :=
  if (200 <? String.length body)%nat
  then (ClaimsAnalyzer.take 200 body ++ "...")%string
  else body.

Definition _parse_email (id subject sender_email body : string)
           (attachments : nat) : Email.t :=
  Email.make id subject sender_email body (body_preview body) attachments.

End EmailClient.

(** A configuration in which the list of senders was read from a text
    ending in a comma. *)
Module MailScenario.

Definition env : EmailEnv :=
  {| senders := Str.split "," "claims@insurer.example,";
     keywords := Str.split "," "claim,marine,insurance,reinsurance,loss,damage";
     json_dumps_sorted := fun _ => "{}" |}.

Definition stranger : Email.t :=
  Email.make "7" "Marine claim" "someone@elsewhere.example" "see attachment"
             "see attachment" 1.

End MailScenario.

(* ================================================================= *)
(** ** The loop over the e-mails of one run *)

Module Batch.
Section Loop.
Context {R : Runtime} {W : World} {C : Collaborators}.

(** [for email_data in processed_emails: result =
    self.process_single_claim(email_data); self._log_processing_result(result)]
    of [run_continuous_processing]; the results are returned in the order
    in which they are logged *)
Fixpoint process_all (emails : list EmailData.t) (st : Pipeline.state)
  : list ProcessingResult.t * Pipeline.state :=
  match emails with
  | [] => ([], st)
  | email_data :: rest =>
      let '(result, st1) := Pipeline.process_single_claim email_data st in
      let '(results, st2) := process_all rest st1 in
      (result :: results, st2)
  end.

End Loop.
End Batch.

(** Notions used to state the properties of the detectors and the pipeline. *)
Module Notions.

Definition is_str (v : value) : bool :=
  match v with
  | VStr _ => true
  | _ => false
  end.

Definition is_dict (v : value) : bool :=
  match v with
  | VDict _ => true
  | _ => false
  end.

(** [cid] is, as a dict key, one of the keys of [reg] *)
Definition names_key (reg : dict) (cid : value) : Prop :=
  exists k v, In (k, v) reg /\ (k = cid \/ atom_eqb k cid = true).

(** the two texts have a character in common *)
Definition shares_char (x y : string) : Prop :=
  exists c, In c (list_ascii_of_string x) /\ In c (list_ascii_of_string y).

(** the last write of the registry file that was attempted had the content
    of the registry in memory *)
Definition mirrors (st : Pipeline.state) : Prop :=
  match Pipeline.file_writes st with
  | [] => True
  | (content, _) :: _ => content = Pipeline.processed_claims st
  end.

(** the text has at least six digits right before an [@] *)
Definition six_digits_before_at (s : string) : Prop :=
  exists before digits after,
    s = (before ++ digits ++ String "@"%char after)%string
    /\ (6 <= String.length digits)%nat
    /\ Forall (fun c => Str.is_digit c = true) (list_ascii_of_string digits).

(** [sub] occurs in [s] *)
Definition occurs (sub s : string) : Prop :=
  exists before after, s = (before ++ sub ++ after)%string.

(** the value is a number ([bool], [int] or [float]) *)
Definition is_number (v : value) : bool :=
  match as_number v with
  | Some _ => true
  | None => false
  end.

(** the three fields of an analysis read by the fraud rules have the types
    the rules can work on: the amount is a number, the loss date is a text
    or a falsy value, the loss location is a text *)
Definition rule_inputs_ok (claim_analysis : dict) : bool :=
  is_number (dict_get claim_analysis "claim_amount" (VInt 0))
  && (negb (truthy (dict_get claim_analysis "loss_date" (VStr "")))
      || is_str (dict_get claim_analysis "loss_date" (VStr "")))
  && is_str (dict_get claim_analysis "loss_location" (VStr "")).

(** the reply of the hosted model gives [_parse_fraud_analysis] no JSON to
    return: it has no [```json] fence, or what the fence holds cannot be
    extracted or decoded *)
Definition ai_reply_unparsed {R : Runtime} (reply : string) : Prop :=
  Str.contains "```json" reply = false
  \/ exists e, (json_str <- fenced_json reply ;; json_loads json_str) = Raise e.

(** a candidate of the fuzzy pass over [items]: it names one of their keys
    and carries a similarity above the threshold and at most 1 *)
Definition fuzzy_candidate {W : World} (items : dict) (m : MatchCandidate.t)
  : Prop :=
  MatchCandidate.match_type m = similar
  /\ (exists v, In (MatchCandidate.claim_id m, v) items)
  /\ exists q, MatchCandidate.confidence m = VFloat q
               /\ DUPLICATE_THRESHOLD < q /\ q <= 1.

(** a candidate of the exact pass over [items] *)
Definition exact_candidate (items : dict) (m : MatchCandidate.t) : Prop :=
  MatchCandidate.match_type m = exact
  /\ (exists v, In (MatchCandidate.claim_id m, v) items)
  /\ MatchCandidate.confidence m = VFloat 1.0.

(** the four fields that the fingerprint joins as they are hold text *)
Definition key_fields_text (claim : dict) : bool :=
  is_str (dict_get claim "claim_number" (VStr ""))
  && is_str (dict_get claim "insured_party" (VStr ""))
  && is_str (dict_get claim "loss_date" (VStr ""))
  && is_str (dict_get claim "loss_location" (VStr "")).

(** every entry of the registry was written by the pipeline *)
Definition pipeline_written (reg : dict) : Prop :=
  Forall (fun kv => exists result analysis,
                      snd kv = Pipeline.registry_entry result analysis) reg.

(** the text is not empty and is made of letters, digits and hyphens *)
Definition claim_number_shape (g : string) : Prop :=
  g <> ""%string
  /\ Forall (fun c => Re.claim_class c = true) (list_ascii_of_string g).

End Notions.

(* ================================================================= *)
(** * Properties *)

(** ** The library routines agree with their reference values *)

Example md5_empty : MD5.hexdigest "" = "d41d8cd98f00b204e9800998ecf8427e".
Proof. vm_compute. reflexivity. Qed.

Example md5_abc : MD5.hexdigest "abc" = "900150983cd24fb0d6963f7d28e17f72".
Proof. vm_compute. reflexivity. Qed.

Example md5_defaults : MD5.hexdigest "||0||" = "387398c15005baf6b16a0ad053b38eca".
Proof. vm_compute. reflexivity. Qed.

Example split_fences :
  Str.split "```" "ab```json{}```cd" = ["ab"; "json{}"; "cd"].
Proof. vm_compute. reflexivity. Qed.

Example str_of_int :
  (Py.string_of_Z 0, Py.string_of_Z (-51), Py.string_of_Z 2000000)
  = ("0", "-51", "2000000").
Proof. vm_compute. reflexivity. Qed.

Example strip_whitespace : Str.strip "  a b
 " = "a b".
Proof. vm_compute. reflexivity. Qed.

Example ratio_tide_diet :
  Difflib.ratio "tide" "diet" = (2 # 8)%Q /\ Difflib.ratio "diet" "tide" = (4 # 8)%Q.
Proof. vm_compute. split; reflexivity. Qed.

Example blocks_abxcd_abcd :
  Difflib.get_matching_blocks (list_ascii_of_string "abxcd")
                              (list_ascii_of_string "abcd")
  = Some [(0, 0, 2); (3, 2, 2); (5, 4, 0)]%nat.
Proof. vm_compute. reflexivity. Qed.

(* ================================================================= *)
(** ** Fraud scoring *)

Section FraudScoring.
Context {R : Runtime} {W : World}.

Lemma risk_level_step (score : Q) :
  FraudDetector._get_risk_level score = Spec.risk_label (Spec.risk_step score).
Proof.
  unfold FraudDetector._get_risk_level, Spec.risk_step, Qgeb.
  destruct (Qle_bool 0.8 score); [reflexivity|].
  destruct (Qle_bool 0.6 score); [reflexivity|].
  destruct (Qle_bool 0.4 score); reflexivity.
Qed.

Lemma default_fraud_analysis_level :
  FraudAssessment.risk_level FraudDetector._get_default_fraud_analysis = "UNKNOWN"
  /\ FraudAssessment.fraud_score FraudDetector._get_default_fraud_analysis = 0.5.
Proof. split; reflexivity. Qed.

End FraudScoring.

(** C5, as stated: on the five-rule input the rule-based score is 1.0.
    It is not: the score is 0.9. *)
Lemma C5_score_is_not_one :
  ~ (exists q,
        @FraudDetector._rule_based_fraud_detection Scenario.world
          Scenario.five_rules_claim Scenario.five_rules_email = Ok q
        /\ q == 1.0).
Proof.
  intros [q [H Hq]]. vm_compute in H. inversion H; subst q.
  vm_compute in Hq. discriminate Hq.
Qed.

(** C5, amended: on the input with claim_amount=2,000,000,
    loss_date="unknown", loss_location="TBD", sender "999999@mail.com" and
    subject "URGENT claim" (whatever other fields the analysis carries after
    them, and whatever the clock and the settings are), the rule-based fraud
    score is the sum of all five weights, 0.3 + 0.2 + 0.1 + 0.2 + 0.1 = 0.9,
    which lies below the cap of 1.0. *)
Theorem C5_rule_score_five_rules :
  forall (W : World) (rest : dict) (id pdf date : string),
    (* the five triggers *)
    py_gt (VInt 2000000) (VInt 1000000) = Ok true
    /\ FraudDetector._suspicious_date_pattern (VStr "unknown") = Ok true
    /\ Str.contains "tbd" (Str.lower "TBD") = true
    /\ FraudDetector._suspicious_email_pattern (Str.lower "999999@mail.com") = true
    /\ Str.contains "urgent" (Str.lower "URGENT claim") = true
    (* the score *)
    /\ exists q,
         FraudDetector._rule_based_fraud_detection
           (VDict ([(VStr "claim_amount", VInt 2000000);
                    (VStr "loss_date", VStr "unknown");
                    (VStr "loss_location", VStr "TBD")] ++ rest))
           (EmailData.make id "URGENT claim" "999999@mail.com" pdf date) = Ok q
         /\ q == 0.3 + 0.2 + 0.1 + 0.2 + 0.1
         /\ q == 0.9
         /\ q < 1.0.
Proof.
  intros W rest id pdf date.
  do 5 (split; [vm_compute; reflexivity|]).
  eexists. split; [vm_compute; reflexivity|].
  repeat split; vm_compute; reflexivity.
Qed.

(* ================================================================= *)
(** ** The error monad *)

Lemma bind_Ok_inv {A B : Type} (m : result A) (f : A -> result B) (b : B) :
  bind m f = Ok b -> exists a, m = Ok a /\ f a = Ok b.
Proof.
  destruct m as [a|e]; simpl; intros H; [exists a; auto | discriminate].
Qed.

Lemma bind_Raise_inv {A B : Type} (m : result A) (f : A -> result B) (e : exn) :
  bind m f = Raise e -> m = Raise e \/ exists a, m = Ok a /\ f a = Raise e.
Proof.
  destruct m as [a|e']; simpl; intros H.
  - right. exists a. auto.
  - left. inversion H. reflexivity.
Qed.

Ltac bind_inv H :=
  let a := fresh "a" in
  let Ha := fresh "Ha" in
  apply bind_Ok_inv in H; destruct H as [a [Ha H]].

Section FraudLevels.
Context {R : Runtime} {W : World}.

Lemma detect_fraud_body_level (c : value) (e : EmailData.t) (a : FraudAssessment.t) :
  FraudDetector.detect_fraud_body c e = Ok a ->
  FraudAssessment.risk_level a
  = FraudDetector._get_risk_level (FraudAssessment.fraud_score a).
Proof.
  unfold FraudDetector.detect_fraud_body. intros H.
  repeat bind_inv H. inversion H; subst a. reflexivity.
Qed.

End FraudLevels.

(** C6, as stated: every assessment returned by [detect_fraud] has the risk
    level given by the step function of its score.  It fails when the
    analysis carries a claim amount that is text: the comparison with
    1000000 raises, and the default assessment pairs the score 0.5 with the
    level UNKNOWN. *)
Lemma C6_default_assessment_breaks_step :
  let a := @FraudDetector.detect_fraud Scenario.runtime Scenario.world
             Scenario.text_amount_claim Scenario.plain_email in
  FraudAssessment.risk_level a
  <> Spec.risk_label (Spec.risk_step (FraudAssessment.fraud_score a)).
Proof. vm_compute. discriminate. Qed.

(** C6, amended: when the computation inside [detect_fraud] completes, the
    returned risk level is the step function of the returned score (HIGH from
    0.8, MEDIUM from 0.6, LOW from 0.4, VERY LOW below); when it raises,
    [detect_fraud] returns the default assessment, whose score is 0.5 and
    whose level is UNKNOWN. *)
Theorem C6_risk_level_step_or_default :
  forall (R : Runtime) (W : World) (c : value) (e : EmailData.t),
    match FraudDetector.detect_fraud_body c e with
    | Ok a =>
        FraudDetector.detect_fraud c e = a
        /\ FraudAssessment.risk_level a
           = Spec.risk_label (Spec.risk_step (FraudAssessment.fraud_score a))
    | Raise _ =>
        FraudDetector.detect_fraud c e = FraudDetector._get_default_fraud_analysis
        /\ FraudAssessment.fraud_score (FraudDetector.detect_fraud c e) = 0.5
        /\ FraudAssessment.risk_level (FraudDetector.detect_fraud c e) = "UNKNOWN"
    end.
Proof.
  intros R W c e. unfold FraudDetector.detect_fraud.
  destruct (FraudDetector.detect_fraud_body c e) as [a|x] eqn:Hb; simpl.
  - split; [reflexivity|].
    rewrite (detect_fraud_body_level c e a Hb). apply risk_level_step.
  - repeat split.
Qed.

(* ================================================================= *)
(** ** The pipeline *)

Section PipelineFacts.
Context {R : Runtime} {W : World} {C : Collaborators}.

Import Pipeline.

(** [process_body], path by path *)
Lemma process_body_cases (email_data : EmailData.t) (st : state) :
  process_body email_data st =
  match generate_claim_report (report_of email_data st) with
  | Raise e =>
      (Raise e, mkState (processed_claims st) (file_writes st) (S (clock st)))
  | Ok report_path =>
      let result := result_of email_data st report_path in
      if DuplicateVerdict.is_duplicate (verdict_of email_data st) then
        (Ok result,
         mkState (processed_claims st) (file_writes st) (S (S (clock st))))
      else
        match py_setitem (processed_claims st)
                         (ProcessingResult.claim_number result)
                         (registry_entry result (analysis_of email_data)) with
        | Raise e =>
            (Raise e,
             mkState (processed_claims st) (file_writes st) (S (S (clock st))))
        | Ok d =>
            (Ok result,
             mkState d
               ((d, negb (raises (write_claims_file d))) :: file_writes st)
               (S (S (clock st))))
        end
  end.
Proof.
  unfold process_body, bindM, get_processed_claims, now, lift, upsert,
    _save_processed_claims, ret, report_of, result_of, verdict_of, analysis_of.
  simpl.
  destruct (generate_claim_report _) as [path|e]; [|reflexivity].
  simpl.
  destruct (DuplicateVerdict.is_duplicate _); simpl; [reflexivity|].
  destruct (py_setitem _ _ _) as [d|e]; reflexivity.
Qed.

End PipelineFacts.

Section PipelineTheorems.
Context {R : Runtime} {W : World} {C : Collaborators}.

Import Pipeline.

Lemma atom_eqb_refl (k : value) : hashable k = true -> atom_eqb k k = true.
Proof.
  destruct k as [|b|z|q|s|l|d]; simpl; intros H; try discriminate; try reflexivity.
  - destruct b; reflexivity.
  - apply Qeq_bool_iff. reflexivity.
  - apply Qeq_bool_iff. reflexivity.
  - apply String.eqb_refl.
Qed.

Lemma dict_mem_set (d : dict) (k v : value) :
  hashable k = true -> dict_mem (dict_set d k v) k = true.
Proof.
  intros Hk. unfold dict_mem. induction d as [|[k' v'] d IH]; simpl.
  - rewrite (atom_eqb_refl k Hk). reflexivity.
  - destruct (atom_eqb k' k) eqn:E; simpl; rewrite ?E; auto.
Qed.

Lemma py_setitem_Ok (d : dict) (k v : value) (d' : dict) :
  py_setitem d k v = Ok d' -> hashable k = true /\ d' = dict_set d k v.
Proof.
  unfold py_setitem. destruct (hashable k); intros H; inversion H; auto.
Qed.

Lemma cons_neq_self {A : Type} (x : A) (l : list A) : x :: l <> l.
Proof.
  intros H. apply (f_equal (@List.length A)) in H. simpl in H. lia.
Qed.

End PipelineTheorems.

(** C10: [process_single_claim] always returns a [ProcessingResult].  When
    the body of its [try] block completes, that result is returned with
    status 'completed'; when the body raises, the result has
    processing_status='failed', claim_number='Error', fraud_score=0.0,
    is_duplicate=false, duplicate_of=None, empty analysis_results and empty
    report_path, it carries the id, subject and sender of the e-mail, and the
    registry and its file are left as they were. *)
Theorem C10_process_single_claim_total :
  forall (R : Runtime) (W : World) (C : Collaborators)
         (email_data : EmailData.t) (st : Pipeline.state),
  exists result st',
    Pipeline.process_single_claim email_data st = (result, st')
    /\ match fst (Pipeline.process_body email_data st) with
       | Ok r =>
           result = r
           /\ ProcessingResult.processing_status result = "completed"
       | Raise _ =>
           ProcessingResult.processing_status result = "failed"
           /\ ProcessingResult.claim_number result = VStr "Error"
           /\ ProcessingResult.fraud_score result = 0.0
           /\ ProcessingResult.is_duplicate result = false
           /\ ProcessingResult.duplicate_of result = None
           /\ ProcessingResult.analysis_results result = None
           /\ ProcessingResult.report_path result = ""
           /\ ProcessingResult.email_id result = EmailData.id email_data
           /\ ProcessingResult.subject result = EmailData.subject email_data
           /\ ProcessingResult.sender_email result = EmailData.sender_email email_data
           /\ Pipeline.processed_claims st' = Pipeline.processed_claims st
           /\ Pipeline.file_writes st' = Pipeline.file_writes st
       end.
Proof.
  intros R W C email_data st.
  unfold Pipeline.process_single_claim.
  rewrite process_body_cases.
  destruct (generate_claim_report _) as [path|e].
  - cbv zeta.
    destruct (DuplicateVerdict.is_duplicate _).
    + eexists; eexists; split; [reflexivity|]. simpl. auto.
    + destruct (py_setitem _ _ _) as [d|e].
      * eexists; eexists; split; [reflexivity|]. simpl. auto.
      * eexists; eexists; split; [reflexivity|]. simpl. repeat split.
  - eexists; eexists; split; [reflexivity|]. simpl. repeat split.
Qed.

(** C2, as stated: the upsert is performed if and only if the verdict has
    is_duplicate=false.  It fails when the claim is not a duplicate but the
    report generator raises: the claim is aborted before the registry is
    touched. *)
Lemma C2_no_upsert_when_report_fails :
  ~ @Spec.upsert_iff_not_duplicate Scenario.runtime Scenario.world
      Scenario.failing_report Scenario.first_email Scenario.fresh.
Proof.
  unfold Spec.upsert_iff_not_duplicate. intros [_ H].
  assert (E : DuplicateVerdict.is_duplicate
                (@Pipeline.verdict_of Scenario.runtime Scenario.world
                   Scenario.failing_report Scenario.first_email Scenario.fresh)
              = false) by (vm_compute; reflexivity).
  destruct (H E) as [entry [_ Hw]].
  vm_compute in Hw. discriminate Hw.
Qed.

(** C2, amended: the entry is stored under the claim number in the registry
    in memory, and a write of the registry file is attempted, if and only if
    the claim is processed to completion and its duplicate verdict has
    is_duplicate=false.  The upsert as the claim describes it, with the
    registry file written, is performed if and only if, in addition, that
    write does not fail (a failed write is swallowed and leaves the claim
    completed).  For a claim whose verdict has is_duplicate=true the registry
    and its file are left as they were. *)
Theorem C2_upsert_iff_completed_and_not_duplicate :
  forall (R : Runtime) (W : World) (C : Collaborators)
         (email_data : EmailData.t) (st : Pipeline.state),
    let '(result, st') := Pipeline.process_single_claim email_data st in
    let key :=
      dict_get (Pipeline.analysis_of email_data) "claim_number" (VStr "Unknown") in
    (Spec.upsert_attempted st st' key
     <-> ProcessingResult.processing_status result = "completed"
         /\ DuplicateVerdict.is_duplicate (Pipeline.verdict_of email_data st) = false)
    /\ (Spec.upsert_performed st st' key
        <-> ProcessingResult.processing_status result = "completed"
            /\ DuplicateVerdict.is_duplicate (Pipeline.verdict_of email_data st) = false
            /\ raises (write_claims_file (Pipeline.processed_claims st')) = false)
    /\ (DuplicateVerdict.is_duplicate (Pipeline.verdict_of email_data st) = true ->
        Pipeline.processed_claims st' = Pipeline.processed_claims st
        /\ Pipeline.file_writes st' = Pipeline.file_writes st).
Proof.
  intros R W C email_data st.
  unfold Pipeline.process_single_claim. rewrite process_body_cases.
  unfold Spec.upsert_attempted, Spec.upsert_performed.
  destruct (generate_claim_report _) as [path|e].
  - cbv zeta.
    destruct (DuplicateVerdict.is_duplicate (Pipeline.verdict_of email_data st)) eqn:Hd.
    + split; [|split; [|simpl; auto]]; split.
      * intros [entry [ok [_ Hw]]]. simpl in Hw.
        symmetry in Hw. apply cons_neq_self in Hw. contradiction.
      * intros [_ Hf]. discriminate Hf.
      * intros [entry [_ Hw]]. simpl in Hw.
        symmetry in Hw. apply cons_neq_self in Hw. contradiction.
      * intros [_ [Hf _]]. discriminate Hf.
    + destruct (py_setitem _ _ _) as [d|e] eqn:Hs.
      * apply py_setitem_Ok in Hs. destruct Hs as [_ Hs].
        split; [|split; [|intros Hf; discriminate Hf]]; split.
        -- intros _. split; reflexivity.
        -- intros _. eexists; eexists. simpl. split; [exact Hs|reflexivity].
        -- intros [entry [_ Hw]]. cbn [Pipeline.file_writes Pipeline.processed_claims] in Hw |- *.
           injection Hw as Hw. apply negb_true_iff in Hw.
           repeat split; try reflexivity. exact Hw.
        -- intros [_ [_ Hw]]. cbn [Pipeline.file_writes Pipeline.processed_claims] in Hw |- *.
           eexists. split; [exact Hs|]. rewrite Hw. reflexivity.
      * split; [|split; [|intros Hf; discriminate Hf]]; split.
        -- intros [entry [ok [_ Hw]]]. simpl in Hw.
           symmetry in Hw. apply cons_neq_self in Hw. contradiction.
        -- intros [Hf _]. discriminate Hf.
        -- intros [entry [_ Hw]]. simpl in Hw.
           symmetry in Hw. apply cons_neq_self in Hw. contradiction.
        -- intros [Hf _]. discriminate Hf.
  - split; [|split; [|simpl; auto]]; split.
    + intros [entry [ok [_ Hw]]]. simpl in Hw.
      symmetry in Hw. apply cons_neq_self in Hw. contradiction.
    + intros [Hf _]. discriminate Hf.
    + intros [entry [_ Hw]]. simpl in Hw.
      symmetry in Hw. apply cons_neq_self in Hw. contradiction.
    + intros [Hf _]. discriminate Hf.
Qed.

(** C3, as stated: a failed registry write aborts the claim as 'failed' and
    leaves it unregistered.  It does not: with a registry file that cannot be
    written, the claim is returned as 'completed' and stays in the registry. *)
Lemma C3_failed_write_still_completed :
  ~ @Spec.write_failure_aborts Scenario.runtime Scenario.world
      Scenario.failing_disk Scenario.first_email Scenario.fresh.
Proof.
  unfold Spec.write_failure_aborts, Spec.write_failed.
  vm_compute. intros H.
  destruct H as [H _]; [eexists; reflexivity|]. discriminate H.
Qed.

(** C3, amended: when the registry write of a claim fails, the failure is
    caught inside [_save_processed_claims]; [process_single_claim] still
    returns the claim with processing_status='completed', and the claim is in
    the in-memory registry under its claim number although the registry file
    was not written. *)
Theorem C3_write_failure_is_swallowed :
  forall (R : Runtime) (W : World) (C : Collaborators)
         (email_data : EmailData.t) (st : Pipeline.state),
    Spec.write_failed st (snd (Pipeline.process_single_claim email_data st)) ->
    let '(result, st') := Pipeline.process_single_claim email_data st in
    ProcessingResult.processing_status result = "completed"
    /\ ProcessingResult.is_duplicate result = false
    /\ dict_mem (Pipeline.processed_claims st')
                (ProcessingResult.claim_number result) = true
    /\ raises (write_claims_file (Pipeline.processed_claims st')) = true.
Proof.
  intros R W C email_data st.
  unfold Pipeline.process_single_claim. rewrite process_body_cases.
  unfold Spec.write_failed.
  destruct (generate_claim_report _) as [path|e].
  - cbv zeta.
    destruct (DuplicateVerdict.is_duplicate (Pipeline.verdict_of email_data st)) eqn:Hd.
    + simpl. intros [content Hw].
      symmetry in Hw. apply cons_neq_self in Hw. contradiction.
    + destruct (py_setitem _ _ _) as [d|e] eqn:Hs.
      * simpl. intros [content Hw]. injection Hw as Hc Hok.
        apply py_setitem_Ok in Hs. destruct Hs as [Hk Hs].
        split; [reflexivity|]. split; [simpl; exact Hd|]. split.
        -- simpl. rewrite Hs. apply dict_mem_set. exact Hk.
        -- simpl. subst content.
           destruct (raises (write_claims_file d)); [reflexivity|discriminate Hok].
      * simpl. intros [content Hw].
        symmetry in Hw. apply cons_neq_self in Hw. contradiction.
  - simpl. intros [content Hw].
    symmetry in Hw. apply cons_neq_self in Hw. contradiction.
Qed.

(** C3 at the run with a registry file that cannot be written *)
Lemma C3_write_failure_is_swallowed_witness :
  Spec.write_failed Scenario.fresh
    (snd (@Pipeline.process_single_claim Scenario.runtime Scenario.world
            Scenario.failing_disk Scenario.first_email Scenario.fresh))
  /\ ProcessingResult.processing_status
       (fst (@Pipeline.process_single_claim Scenario.runtime Scenario.world
               Scenario.failing_disk Scenario.first_email Scenario.fresh))
     = "completed".
Proof.
  assert (H : Spec.write_failed Scenario.fresh
    (snd (@Pipeline.process_single_claim Scenario.runtime Scenario.world
            Scenario.failing_disk Scenario.first_email Scenario.fresh))).
  { unfold Spec.write_failed. vm_compute. eexists. reflexivity. }
  split; [exact H|].
  pose proof (@C3_write_failure_is_swallowed Scenario.runtime Scenario.world
                Scenario.failing_disk Scenario.first_email Scenario.fresh H) as T.
  destruct (@Pipeline.process_single_claim Scenario.runtime Scenario.world
              Scenario.failing_disk Scenario.first_email Scenario.fresh)
    as [result st'].
  destruct T as [T _]. exact T.
Defined.

(* ================================================================= *)
(** ** Duplicate detection: the three passes and their failures *)

Section DetectorFacts.
Context {R : Runtime} {W : World}.

Import DuplicateDetector.

Lemma py_contains_true (d : dict) (k : value) :
  py_contains d k = Ok true -> dict_mem d k = true.
Proof.
  unfold py_contains. destruct (hashable k); intros H; inversion H; reflexivity.
Qed.

(** every candidate that [parse_loop] adds names a key of the registry *)
Lemma parse_loop_known (items : list value) (reg : dict) :
  forall (acc out : list MatchCandidate.t),
    Forall (fun c => dict_mem reg (MatchCandidate.claim_id c) = true) acc ->
    parse_loop items reg acc = Ok out ->
    Forall (fun c => dict_mem reg (MatchCandidate.claim_id c) = true) out.
Proof.
  induction items as [|m items IH]; simpl; intros acc out Hacc H.
  - inversion H; subst; exact Hacc.
  - bind_inv H. bind_inv H.
    destruct a0.
    + bind_inv H. bind_inv H.
      eapply IH; [|exact H].
      apply Forall_app. split; [exact Hacc|].
      constructor; [|constructor]. simpl.
      apply py_contains_true. exact Ha0.
    + eapply IH; [exact Hacc|exact H].
Qed.

Lemma parse_ai_known (ai_text : string) (reg : dict) :
  Forall (fun c => dict_mem reg (MatchCandidate.claim_id c) = true)
         (_parse_ai_duplicate_result ai_text reg).
Proof.
  unfold _parse_ai_duplicate_result.
  destruct (parse_ai_body ai_text reg) as [out|e] eqn:H; simpl; [|constructor].
  unfold parse_ai_body in H.
  bind_inv H. bind_inv H. bind_inv H.
  eapply parse_loop_known; [constructor|exact H].
Qed.

Lemma ai_check_unfold (cur : value) (reg : dict) :
  _ai_duplicate_check cur reg
  = _parse_ai_duplicate_result
      (analyze_content (_build_duplicate_prompt cur (sample_claims reg))) reg.
Proof. reflexivity. Qed.

End DetectorFacts.

(** C9: for a registry of more than ten entries the prompt sent to the
    analysis service is built from the first ten entries only; every
    candidate the AI pass returns names a claim of the registry (answers
    naming other claims are dropped); and whenever the answer cannot be
    parsed (in particular when [json.loads] fails on the fenced text) the
    pass returns the empty list. *)
Theorem C9_ai_pass_capped_validated_fail_open :
  forall (R : Runtime) (W : World) (current_claim : value) (processed_claims : dict),
    (10 < List.length processed_claims)%nat ->
    DuplicateDetector._ai_duplicate_check current_claim processed_claims
    = DuplicateDetector._parse_ai_duplicate_result
        (analyze_content
           (DuplicateDetector._build_duplicate_prompt current_claim
              (firstn 10 processed_claims)))
        processed_claims
    /\ (forall c,
           In c (DuplicateDetector._ai_duplicate_check current_claim processed_claims) ->
           dict_mem processed_claims (MatchCandidate.claim_id c) = true)
    /\ (forall ai_text,
           raises (DuplicateDetector.parse_ai_body ai_text processed_claims) = true ->
           DuplicateDetector._parse_ai_duplicate_result ai_text processed_claims = [])
    /\ (forall ai_text,
           Str.contains "```json" ai_text = true ->
           raises (json_str <- fenced_json ai_text ;; json_loads json_str) = true ->
           DuplicateDetector._parse_ai_duplicate_result ai_text processed_claims = []).
Proof.
  intros R W cur reg Hlen. split; [|split; [|split]].
  - rewrite ai_check_unfold. unfold DuplicateDetector.sample_claims.
    apply Nat.ltb_lt in Hlen. rewrite Hlen. reflexivity.
  - intros c Hc. rewrite ai_check_unfold in Hc.
    pose proof (parse_ai_known
                  (analyze_content
                     (DuplicateDetector._build_duplicate_prompt cur
                        (DuplicateDetector.sample_claims reg))) reg) as HF.
    rewrite Forall_forall in HF. apply HF. exact Hc.
  - intros ai_text Hr. unfold DuplicateDetector._parse_ai_duplicate_result.
    destruct (DuplicateDetector.parse_ai_body ai_text reg); [discriminate Hr|reflexivity].
  - intros ai_text Hf Hr. unfold DuplicateDetector._parse_ai_duplicate_result,
      DuplicateDetector.parse_ai_body.
    rewrite Hf.
    destruct (json_str <- fenced_json ai_text ;; json_loads json_str);
      [discriminate Hr|reflexivity].
Qed.

(** C9 at a registry of eleven claims *)
Lemma C9_ai_pass_capped_validated_fail_open_witness :
  (10 < List.length Scenario.eleven_claims)%nat
  /\ @DuplicateDetector._ai_duplicate_check Scenario.runtime Scenario.world
       (VDict Scenario.clm100_analysis) Scenario.eleven_claims
     = @DuplicateDetector._parse_ai_duplicate_result Scenario.runtime
         (@analyze_content Scenario.world
            (@DuplicateDetector._build_duplicate_prompt Scenario.runtime Scenario.world
               (VDict Scenario.clm100_analysis)
               (firstn 10 Scenario.eleven_claims)))
         Scenario.eleven_claims.
Proof.
  assert (H : (10 < List.length Scenario.eleven_claims)%nat) by (simpl; lia).
  split; [exact H|].
  exact (proj1 (C9_ai_pass_capped_validated_fail_open Scenario.runtime Scenario.world
                  (VDict Scenario.clm100_analysis) Scenario.eleven_claims H)).
Defined.

Section FailurePolicy.
Context {R : Runtime} {W : World}.

Import DuplicateDetector.

(** [check_duplicate], path by path *)
Lemma check_duplicate_cases (cur : value) (reg : dict) :
  check_duplicate cur reg =
  match reg with
  | [] => DuplicateVerdict.make false (VFloat 0.0) None None None None None None
  | _ :: _ =>
      match _check_exact_matches cur reg with
      | Raise e => error_verdict e
      | Ok exact_matches =>
          match _check_similar_matches cur reg with
          | Raise e => error_verdict e
          | Ok similar_matches =>
              try_except
                (_combine_duplicate_results exact_matches similar_matches
                   (_ai_duplicate_check cur reg))
                error_verdict
          end
      end
  end.
Proof.
  unfold check_duplicate. destruct reg as [|kv reg]; [reflexivity|].
  cbn [truthy negb].
  destruct (_check_exact_matches cur (kv :: reg)) as [ex|e]; [|reflexivity].
  cbn [bind].
  destruct (_check_similar_matches cur (kv :: reg)) as [sim|e]; reflexivity.
Qed.

End FailurePolicy.

(** C8, as stated: an exception inside one pass only empties that pass.  It
    does not for the exact pass: with a loss date that is JSON null the
    fingerprint of the incoming claim cannot be joined, the whole check ends
    in the error verdict, and the candidate of the fuzzy pass is lost. *)
Lemma C8_exact_pass_failure_discards_fuzzy_match :
  ~ @Spec.passes_isolated Scenario.runtime Scenario.world
      (VDict Scenario.null_date_analysis) Scenario.registry_with_claim.
Proof.
  unfold Spec.passes_isolated. intros H.
  apply (f_equal DuplicateVerdict.is_duplicate) in H.
  vm_compute in H. discriminate H.
Qed.

(** C8, amended: [check_duplicate] never raises.  An exception inside the AI
    pass is caught there: that pass contributes no candidate and the exact
    and fuzzy passes still contribute theirs.  An exception inside the exact
    or the fuzzy pass, or while the candidates are combined, ends the whole
    check: the result is the error verdict, with is_duplicate=false,
    confidence=0.0 and the error. *)
Theorem C8_failure_policy :
  forall (R : Runtime) (W : World) (current_claim : value) (processed_claims : dict),
    let verdict := DuplicateDetector.check_duplicate current_claim processed_claims in
    let ai_text :=
      analyze_content
        (DuplicateDetector._build_duplicate_prompt current_claim
           (DuplicateDetector.sample_claims processed_claims)) in
    match processed_claims with
    | [] => DuplicateVerdict.is_duplicate verdict = false
            /\ DuplicateVerdict.error verdict = None
    | _ :: _ =>
        match DuplicateDetector._check_exact_matches current_claim processed_claims,
              DuplicateDetector._check_similar_matches current_claim processed_claims
        with
        | Ok exact_matches, Ok similar_matches =>
            verdict
            = try_except
                (DuplicateDetector._combine_duplicate_results
                   exact_matches similar_matches
                   (match DuplicateDetector.parse_ai_body ai_text processed_claims with
                    | Ok ai_matches => ai_matches
                    | Raise _ => []
                    end))
                DuplicateDetector.error_verdict
        | Raise e, _ => verdict = DuplicateDetector.error_verdict e
        | Ok _, Raise e => verdict = DuplicateDetector.error_verdict e
        end
    end
    /\ (forall e, DuplicateVerdict.is_duplicate (DuplicateDetector.error_verdict e) = false
                  /\ DuplicateVerdict.confidence (DuplicateDetector.error_verdict e)
                     = VFloat 0.0
                  /\ DuplicateVerdict.error (DuplicateDetector.error_verdict e) = Some e).
Proof.
  intros R W cur reg verdict ai_text. subst verdict.
  split; [|intros e; repeat split].
  rewrite check_duplicate_cases.
  destruct reg as [|kv reg]; [split; reflexivity|].
  destruct (DuplicateDetector._check_exact_matches cur (kv :: reg)) as [ex|e];
    [|reflexivity].
  destruct (DuplicateDetector._check_similar_matches cur (kv :: reg)) as [sim|e];
    [|reflexivity].
  rewrite ai_check_unfold. fold ai_text.
  unfold DuplicateDetector._parse_ai_duplicate_result, try_except at 2.
  reflexivity.
Qed.

(* ================================================================= *)
(** ** Duplicate detection: the verdict *)

Section Verdict.
Context {R : Runtime} {W : World}.

Import DuplicateDetector.

Lemma py_gt_numbers (x y : value) (p q : Q) :
  as_number x = Some p -> as_number y = Some q -> py_gt x y = Ok (Qgtb p q).
Proof.
  destruct x; simpl; intros Hx; try discriminate Hx;
    destruct y; simpl; intros Hy; try discriminate Hy;
    inversion Hx; inversion Hy; reflexivity.
Qed.

Lemma Qgtb_true (p q : Q) : Qgtb p q = true -> q < p.
Proof.
  unfold Qgtb. intros H. apply negb_true_iff in H.
  apply Qnot_le_lt. intros Hle. apply Qle_bool_iff in Hle. congruence.
Qed.


Lemma numeric_conf (c : MatchCandidate.t) :
  Spec.numeric c -> as_number (MatchCandidate.confidence c) = Some (Spec.conf c).
Proof.
  unfold Spec.numeric, Spec.conf.
  destruct (as_number (MatchCandidate.confidence c)); [reflexivity|congruence].
Qed.



Lemma exact_loop_numeric (fp : string) (items : dict) :
  forall acc out,
    Forall Spec.numeric acc -> exact_loop fp items acc = Ok out -> Forall Spec.numeric out.
Proof.
  induction items as [|[k v] items IH]; simpl; intros acc out Hacc H.
  - inversion H; subst; exact Hacc.
  - bind_inv H. eapply IH; [|exact H].
    destruct (String.eqb fp a); [|exact Hacc].
    apply Forall_app. split; [exact Hacc|].
    constructor; [|constructor]. unfold Spec.numeric. simpl. discriminate.
Qed.

Lemma similar_loop_numeric (text : string) (items : dict) :
  forall acc out,
    Forall Spec.numeric acc -> similar_loop text items acc = Ok out -> Forall Spec.numeric out.
Proof.
  induction items as [|[k v] items IH]; simpl; intros acc out Hacc H.
  - inversion H; subst; exact Hacc.
  - bind_inv H. eapply IH; [|exact H].
    destruct (Qgtb _ _); [|exact Hacc].
    apply Forall_app. split; [exact Hacc|].
    constructor; [|constructor]. unfold Spec.numeric. simpl. discriminate.
Qed.

Lemma exact_matches_numeric (cur : value) (reg : dict) (out : list MatchCandidate.t) :
  _check_exact_matches cur reg = Ok out -> Forall Spec.numeric out.
Proof.
  unfold _check_exact_matches. intros H. bind_inv H.
  eapply exact_loop_numeric; [constructor|exact H].
Qed.

Lemma similar_matches_numeric (cur : value) (reg : dict) (out : list MatchCandidate.t) :
  _check_similar_matches cur reg = Ok out -> Forall Spec.numeric out.
Proof.
  unfold _check_similar_matches. intros H. bind_inv H.
  eapply similar_loop_numeric; [constructor|exact H].
Qed.


End Verdict.

Section VerdictInvariant.
Context {R : Runtime} {W : World}.

Import DuplicateDetector.



End VerdictInvariant.


(** C1, at the failing input: two claims numbered CLM-100 with the same
    amount are processed in sequence, starting from an empty registry.  The
    first is written into the registry; the verdict of the second has
    is_duplicate=false and confidence=0.0, and the second claim is written
    over the first. *)
Theorem C1_second_identical_claim_not_flagged :
  let '(first, st1) :=
    @Pipeline.process_single_claim Scenario.runtime Scenario.world
      Scenario.collaborators Scenario.first_email Scenario.fresh in
  let verdict :=
    @Pipeline.verdict_of Scenario.runtime Scenario.world Scenario.collaborators
      Scenario.second_email st1 in
  let '(second, st2) :=
    @Pipeline.process_single_claim Scenario.runtime Scenario.world
      Scenario.collaborators Scenario.second_email st1 in
  ProcessingResult.claim_number first = VStr "CLM-100"
  /\ ProcessingResult.claim_number second = VStr "CLM-100"
  /\ ProcessingResult.processing_status first = "completed"
  /\ ProcessingResult.is_duplicate first = false
  /\ dict_mem (Pipeline.processed_claims st1) (VStr "CLM-100") = true
  /\ @DuplicateDetector._check_exact_matches Scenario.runtime
       (VDict Scenario.clm100_analysis) (Pipeline.processed_claims st1) = Ok []
  /\ @DuplicateDetector._check_similar_matches Scenario.runtime Scenario.world
       (VDict Scenario.clm100_analysis) (Pipeline.processed_claims st1) = Ok []
  /\ DuplicateVerdict.is_duplicate verdict = false
  /\ DuplicateVerdict.confidence verdict = VFloat 0.0
  /\ ProcessingResult.is_duplicate second = false
  /\ dict_lookup (Pipeline.processed_claims st2) (VStr "CLM-100")
     <> dict_lookup (Pipeline.processed_claims st1) (VStr "CLM-100").
Proof.
  vm_compute. repeat split. discriminate.
Qed.

Section RegistryEntries.
Context {R : Runtime} {W : World}.

(** What the two text passes see of an entry the pipeline has written: none
    of the compared fields is stored, so its fingerprint is that of the text
    of the defaults and its claim text is "0". *)
Lemma registry_entry_fingerprint (result : ProcessingResult.t) (analysis : dict) :
  DuplicateDetector._create_claim_fingerprint (Pipeline.registry_entry result analysis)
  = Ok (MD5.hexdigest "||0||")
  /\ DuplicateDetector._get_claim_text (Pipeline.registry_entry result analysis)
     = Ok "0".
Proof. split; reflexivity. Qed.

Lemma exact_loop_blind (fp : string) (reg : dict) :
  Forall (fun kv => exists result analysis,
                      snd kv = Pipeline.registry_entry result analysis) reg ->
  fp <> MD5.hexdigest "||0||" ->
  forall acc, DuplicateDetector.exact_loop fp reg acc = Ok acc.
Proof.
  intros Hreg Hfp. induction Hreg as [|[k v] reg [result [analysis Hv]] _ IH];
    intros acc; [reflexivity|].
  simpl in Hv. subst v. cbn [DuplicateDetector.exact_loop].
  rewrite (proj1 (registry_entry_fingerprint result analysis)). cbn [bind].
  destruct (String.eqb fp (MD5.hexdigest "||0||")) eqn:E; [|apply IH].
  apply String.eqb_eq in E. contradiction.
Qed.

(** The exact pass finds nothing in a registry that holds only entries
    written by the pipeline, unless the fingerprint of the incoming claim is
    the fingerprint of the defaults. *)
Lemma exact_pass_blind_to_pipeline_entries (current_claim : value) (reg : dict)
      (fp : string) :
  Forall (fun kv => exists result analysis,
                      snd kv = Pipeline.registry_entry result analysis) reg ->
  DuplicateDetector._create_claim_fingerprint current_claim = Ok fp ->
  fp <> MD5.hexdigest "||0||" ->
  DuplicateDetector._check_exact_matches current_claim reg = Ok [].
Proof.
  intros Hreg Hcur Hfp. unfold DuplicateDetector._check_exact_matches.
  rewrite Hcur. cbn [bind]. apply exact_loop_blind; assumption.
Qed.

End RegistryEntries.



(* ================================================================= *)
(** ** The similarity ratio *)

Section MatchingBlocks.

Import Difflib.
Local Open Scope nat_scope.

Lemma sum_sizes_app (l1 l2 : list block) :
  sum_sizes (l1 ++ l2) = sum_sizes l1 + sum_sizes l2.
Proof.
  induction l1 as [|x l1 IH]; simpl; [reflexivity|]. rewrite IH. lia.
Qed.

Lemma sum_sizes_insert (x : block) (l : list block) :
  sum_sizes (insert_block x l) = snd x + sum_sizes l.
Proof.
  induction l as [|y l IH]; simpl; [reflexivity|].
  destruct (block_leb x y); simpl; [reflexivity|]. rewrite IH. lia.
Qed.

Lemma sum_sizes_sort (l : list block) : sum_sizes (sort_blocks l) = sum_sizes l.
Proof.
  induction l as [|x l IH]; simpl; [reflexivity|].
  rewrite sum_sizes_insert, IH. reflexivity.
Qed.

Lemma sum_sizes_collapse (l : list block) :
  forall i j k, sum_sizes (collapse (i, j, k) l) = k + sum_sizes l.
Proof.
  induction l as [|[[i2 j2] k2] l IH]; intros i j k; simpl.
  - destruct (k =? 0) eqn:E; simpl; [apply Nat.eqb_eq in E|]; lia.
  - destruct ((i + k =? i2) && (j + k =? j2)).
    + rewrite IH. lia.
    + rewrite sum_sizes_app, IH.
      destruct (k =? 0) eqn:E; simpl; [apply Nat.eqb_eq in E|]; lia.
Qed.

(** *** [find_longest_match] stays inside its window *)

Section Window.
Variables (a b : list ascii) (alo ahi blo bhi : nat).

Local Abbreviation in_window := (Matching.in_window alo ahi blo bhi).
Local Abbreviation row_ok := (Matching.row_ok alo blo).

Lemma j2len_get_ok (i : nat) (j2len : list (nat * nat)) (j : nat) :
  row_ok i j2len ->
  j2len_get j2len j <= i - alo /\ j2len_get j2len j <= j + 1 - blo.
Proof.
  unfold row_ok. induction j2len as [|[j' k] m IH]; simpl; intros H; [lia|].
  inversion H as [|? ? Hhd Htl]; subst. simpl in Hhd.
  destruct (j' =? j) eqn:E; [apply Nat.eqb_eq in E; subst; lia|].
  apply IH. exact Htl.
Qed.

Lemma j2len_get_pred_ok (i : nat) (j2len : list (nat * nat)) (j : nat) :
  row_ok i j2len -> blo <= j ->
  j2len_get_pred j2len j <= i - alo /\ j2len_get_pred j2len j <= j - blo.
Proof.
  intros H Hj. destruct j as [|j']; cbn [j2len_get_pred]; [lia|].
  destruct (j2len_get_ok i j2len j' H). lia.
Qed.

Lemma flm_inner_window (j2len : list (nat * nat)) (i : nat) (js : list nat) :
  alo <= i -> i < ahi -> row_ok i j2len ->
  forall newj2len best,
    row_ok (S i) newj2len -> in_window best ->
    row_ok (S i) (fst (flm_inner j2len i blo bhi js newj2len best))
    /\ in_window (snd (flm_inner j2len i blo bhi js newj2len best)).
Proof.
  intros Hlo Hhi Hrow.
  induction js as [|j js IH]; intros newj best Hnew Hbest; simpl; [auto|].
  destruct (j <? blo) eqn:E1; [apply IH; assumption|].
  destruct (bhi <=? j) eqn:E2; [simpl; auto|].
  apply Nat.ltb_ge in E1. apply Nat.leb_gt in E2.
  destruct (j2len_get_pred_ok i j2len j Hrow E1) as [Hk1 Hk2].
  destruct best as [[bi bj] bk].
  apply IH.
  - constructor; [cbn [fst snd]; lia|exact Hnew].
  - destruct (bk <? j2len_get_pred j2len j + 1); [|exact Hbest].
    unfold in_window. lia.
Qed.

Lemma flm_rows_window (n : nat) :
  forall i j2len best,
    alo <= i -> i + n <= ahi -> row_ok i j2len -> in_window best ->
    in_window (flm_rows a b blo bhi (seq i n) j2len best).
Proof.
  induction n as [|n IH]; intros i j2len best Hlo Hhi Hrow Hbest; simpl;
    [exact Hbest|].
  destruct (flm_inner j2len i blo bhi (b2j_get b (item a i)) [] best)
    as [newj best'] eqn:E.
  assert (Hi : i < ahi) by lia.
  pose proof (flm_inner_window j2len i (b2j_get b (item a i)) Hlo Hi Hrow
                [] best (Forall_nil _) Hbest) as H.
  rewrite E in H. simpl in H. destruct H as [Hnew Hbest'].
  apply IH; [lia|lia|exact Hnew|exact Hbest'].
Qed.

Lemma extend_back_window (junk : bool) (bi : nat) :
  forall bj bk,
    in_window (bi, bj, bk) -> in_window (extend_back a b alo blo junk bi bj bk).
Proof.
  induction bi as [|bi IH]; intros bj bk H; cbn [extend_back]; [exact H|].
  destruct ((alo <? S bi) && (blo <? bj)
            && Bool.eqb (isbjunk (item b (bj - 1))) junk
            && Ascii.eqb (item a bi) (item b (bj - 1))) eqn:E; [|exact H].
  repeat (apply andb_prop in E; destruct E as [E ?]).
  apply Nat.ltb_lt in E. match goal with X : (blo <? bj) = true |- _ =>
    apply Nat.ltb_lt in X end.
  apply IH. unfold in_window in *. lia.
Qed.

Lemma extend_fwd_window (junk : bool) (gap : nat) :
  forall bi bj bk,
    in_window (bi, bj, bk) ->
    in_window (bi, bj, extend_fwd a b ahi bhi junk gap bi bj bk).
Proof.
  induction gap as [|gap IH]; intros bi bj bk H; cbn [extend_fwd]; [exact H|].
  destruct ((bi + bk <? ahi) && (bj + bk <? bhi)
            && Bool.eqb (isbjunk (item b (bj + bk))) junk
            && Ascii.eqb (item a (bi + bk)) (item b (bj + bk))) eqn:E; [|exact H].
  repeat (apply andb_prop in E; destruct E as [E ?]).
  apply Nat.ltb_lt in E. match goal with X : (bj + bk <? bhi) = true |- _ =>
    apply Nat.ltb_lt in X end.
  apply IH. unfold in_window in *. lia.
Qed.

Lemma find_longest_match_window :
  alo <= ahi -> blo <= bhi ->
  in_window (find_longest_match a b alo ahi blo bhi).
Proof.
  intros Ha Hb. unfold find_longest_match.
  pose proof (flm_rows_window (ahi - alo) alo [] (alo, blo, 0)) as H1.
  destruct (flm_rows a b blo bhi (seq alo (ahi - alo)) [] (alo, blo, 0))
    as [[i1 j1] k1].
  assert (W1 : in_window (i1, j1, k1)).
  { apply H1; [lia|lia|constructor|unfold in_window; lia]. }
  pose proof (extend_back_window false i1 j1 k1 W1) as W2.
  destruct (extend_back a b alo blo false i1 j1 k1) as [[i2 j2] k2].
  pose proof (extend_fwd_window false (ahi - (i2 + k2)) i2 j2 k2 W2) as W3.
  pose proof (extend_back_window true i2 j2 _ W3) as W4.
  destruct (extend_back a b alo blo true i2 j2
              (extend_fwd a b ahi bhi false (ahi - (i2 + k2)) i2 j2 k2))
    as [[i4 j4] k4].
  exact (extend_fwd_window true (ahi - (i4 + k4)) i4 j4 k4 W4).
Qed.

End Window.

(** *** The loop of [get_matching_blocks] ends, and its blocks fit *)

Import Matching.

Lemma blocks_loop_total (a b : list ascii) (fuel : nat) :
  forall queue acc,
    Forall valid_window queue -> steps_needed queue <= fuel ->
    exists blocks,
      blocks_loop a b fuel queue acc = Some blocks
      /\ sum_sizes blocks <= sum_sizes acc + room queue.
Proof.
  induction fuel as [|fuel IH]; intros queue acc Hv Hf.
  - destruct queue as [|[[[alo ahi] blo] bhi] queue]; simpl in *.
    + exists acc. split; [reflexivity|lia].
    + lia.
  - destruct queue as [|[[[alo ahi] blo] bhi] queue].
    + exists acc. simpl. split; [reflexivity|lia].
    + inversion Hv as [|? ? Hw Hq]; subst. destruct Hw as [Ha Hb].
      simpl in Hf. cbn [blocks_loop].
      pose proof (find_longest_match_window a b alo ahi blo bhi Ha Hb) as HW.
      destruct (find_longest_match a b alo ahi blo bhi) as [[i j] k].
      unfold in_window in HW.
      destruct (k =? 0) eqn:Ek.
      * destruct (IH queue acc Hq ltac:(lia)) as [bl [Hbl Hs]].
        exists bl. split; [exact Hbl|]. simpl. lia.
      * apply Nat.eqb_neq in Ek.
        destruct ((alo <? i) && (blo <? j)) eqn:E1;
          destruct ((i + k <? ahi) && (j + k <? bhi)) eqn:E2;
          repeat match goal with
                 | X : (_ && _) = true |- _ => apply andb_prop in X; destruct X
                 | X : (_ <? _) = true |- _ => apply Nat.ltb_lt in X
                 end.
        -- destruct (IH ((i + k, ahi, j + k, bhi) :: (alo, i, blo, j) :: queue)
                       (acc ++ [(i, j, k)])) as [bl [Hbl Hs]].
           ++ repeat constructor; simpl; try lia. exact Hq.
           ++ simpl. lia.
           ++ exists bl. split; [exact Hbl|].
              rewrite sum_sizes_app in Hs. simpl in Hs. simpl. lia.
        -- destruct (IH ((alo, i, blo, j) :: queue) (acc ++ [(i, j, k)]))
             as [bl [Hbl Hs]].
           ++ repeat constructor; simpl; try lia. exact Hq.
           ++ simpl. lia.
           ++ exists bl. split; [exact Hbl|].
              rewrite sum_sizes_app in Hs. simpl in Hs. simpl. lia.
        -- destruct (IH ((i + k, ahi, j + k, bhi) :: queue) (acc ++ [(i, j, k)]))
             as [bl [Hbl Hs]].
           ++ repeat constructor; simpl; try lia. exact Hq.
           ++ simpl. lia.
           ++ exists bl. split; [exact Hbl|].
              rewrite sum_sizes_app in Hs. simpl in Hs. simpl. lia.
        -- destruct (IH queue (acc ++ [(i, j, k)]) Hq ltac:(lia)) as [bl [Hbl Hs]].
           exists bl. split; [exact Hbl|].
           rewrite sum_sizes_app in Hs. simpl in Hs. simpl. lia.
Qed.

(** [get_matching_blocks] always returns, and the sizes of its blocks add up
    to no more than the length of either sequence. *)
Lemma get_matching_blocks_total (a b : list ascii) :
  exists blocks,
    get_matching_blocks a b = Some blocks
    /\ sum_sizes blocks <= List.length a
    /\ sum_sizes blocks <= List.length b.
Proof.
  unfold get_matching_blocks.
  destruct (blocks_loop_total a b (2 * List.length a + 1)
              [(0, List.length a, 0, List.length b)] [])
    as [bl [Hbl Hs]].
  - repeat constructor; lia.
  - simpl. lia.
  - rewrite Hbl. eexists. split; [reflexivity|].
    rewrite sum_sizes_app, sum_sizes_collapse, sum_sizes_sort.
    simpl in *. lia.
Qed.

End MatchingBlocks.

Section Ratio.

Import Difflib.

Lemma Zpos_of_nat (n : nat) : (n <> 0)%nat -> Z.pos (Pos.of_nat n) = Z.of_nat n.
Proof.
  intros H. rewrite <- positive_nat_Z. rewrite Nat2Pos.id; [reflexivity|exact H].
Qed.

Lemma calculate_ratio_range (matches length : nat) :
  (2 * matches <= length)%nat ->
  0 <= calculate_ratio matches length /\ calculate_ratio matches length <= 1.
Proof.
  intros H. unfold calculate_ratio.
  destruct (length =? 0)%nat eqn:E.
  - split; [discriminate|apply Qle_refl].
  - apply Nat.eqb_neq in E.
    unfold Qle. cbn [Qnum Qden]. rewrite (Zpos_of_nat length E). lia.
Qed.

Lemma calculate_ratio_full (n : nat) : calculate_ratio n (n + n) == 1.
Proof.
  unfold calculate_ratio.
  destruct (n + n =? 0)%nat eqn:E; [reflexivity|].
  apply Nat.eqb_neq in E.
  unfold Qeq. cbn [Qnum Qden]. rewrite (Zpos_of_nat (n + n) E). lia.
Qed.

Lemma ratio_range (x y : string) : 0 <= ratio x y /\ ratio x y <= 1.
Proof.
  unfold ratio.
  destruct (get_matching_blocks_total (list_ascii_of_string x) (list_ascii_of_string y))
    as [bl [Hbl [Ha Hb]]].
  rewrite Hbl. apply calculate_ratio_range. lia.
Qed.

End Ratio.

(** *** A sequence matched against itself *)

Section SelfMatch.

Import Difflib Matching.
Local Open Scope nat_scope.

Variable s : list ascii.

Lemma indices_from (x : ascii) (l : list ascii) :
  forall k,
    StronglySorted lt
      (map fst (filter (fun p => Ascii.eqb (snd p) x)
                       (combine (seq k (List.length l)) l)))
    /\ (forall j,
           In j (map fst (filter (fun p => Ascii.eqb (snd p) x)
                                 (combine (seq k (List.length l)) l)))
           <-> k <= j < k + List.length l /\ nth (j - k) l Ascii.zero = x).
Proof.
  induction l as [|c l IH]; intros k.
  - simpl. split; [constructor|]. intros j. split; [intros []|lia].
  - destruct (IH (S k)) as [Hs Hm]. cbn [List.length seq combine filter snd].
    assert (Hnth : forall j, S k <= j ->
                     nth (j - k) (c :: l) Ascii.zero = nth (j - S k) l Ascii.zero).
    { intros j Hj. replace (j - k) with (S (j - S k)) by lia. reflexivity. }
    destruct (Ascii.eqb c x) eqn:E.
    + apply Ascii.eqb_eq in E. cbn [map fst]. split.
      * constructor; [exact Hs|]. apply Forall_forall. intros j Hj.
        apply Hm in Hj. lia.
      * intros j. split.
        -- intros [Hj|Hj].
           ++ subst j. rewrite Nat.sub_diag. simpl. split; [lia|exact E].
           ++ apply Hm in Hj. destruct Hj as [Hr Hx].
              rewrite Hnth by lia. split; [lia|exact Hx].
        -- intros [Hr Hx]. destruct (Nat.eq_dec j k) as [->|Hne]; [left; reflexivity|].
           right. apply Hm. rewrite Hnth in Hx by lia. split; [lia|exact Hx].
    + split; [exact Hs|]. intros j. split.
      * intros Hj. apply Hm in Hj. destruct Hj as [Hr Hx].
        rewrite Hnth by lia. split; [lia|exact Hx].
      * intros [Hr Hx]. destruct (Nat.eq_dec j k) as [->|Hne].
        -- rewrite Nat.sub_diag in Hx. simpl in Hx. subst c.
           rewrite Ascii.eqb_refl in E. discriminate E.
        -- apply Hm. rewrite Hnth in Hx by lia. split; [lia|exact Hx].
Qed.

Lemma indices_of_sorted (x : ascii) : StronglySorted lt (indices_of s x).
Proof. exact (proj1 (indices_from x s 0)). Qed.

Lemma indices_of_In (x : ascii) (j : nat) :
  In j (indices_of s x) <-> j < List.length s /\ item s j = x.
Proof.
  unfold indices_of, item.
  rewrite (proj2 (indices_from x s 0) j). rewrite Nat.sub_0_r. simpl.
  split; intros [H1 H2]; split; auto; lia.
Qed.

Lemma run_popular (m : nat) : popular s (item s m) = true -> run s m = 0.
Proof. intros H. destruct m; simpl; rewrite H; reflexivity. Qed.

Lemma run_indexed (m : nat) :
  popular s (item s m) = false -> run s m = S (run_before s m).
Proof. intros H. destruct m; simpl; rewrite H; reflexivity. Qed.

Lemma j2len_get_cons (j k : nat) (m : list (nat * nat)) (j' : nat) :
  j2len_get ((j, k) :: m) j' = if j =? j' then k else j2len_get m j'.
Proof. reflexivity. Qed.

Section Row.
Variables (i : nat) (j2len : list (nat * nat)).
Hypothesis Hi : i < List.length s.
Hypothesis Hindexed : popular s (item s i) = false.
Hypothesis Hprev :
  forall j, j2len_get j2len j <= run s j /\ j2len_get j2len j <= run_before s i.
Hypothesis Hdiag : j2len_get_pred j2len i = run_before s i.

Lemma j2len_get_pred_run (j : nat) :
  j2len_get_pred j2len j <= run_before s j
  /\ j2len_get_pred j2len j <= run_before s i.
Proof.
  destruct j as [|j']; cbn [j2len_get_pred run_before]; [lia|].
  destruct (Hprev j'). lia.
Qed.

Lemma flm_inner_diagonal (js : list nat) :
  StronglySorted lt js ->
  (forall j, In j js -> j < List.length s /\ item s j = item s i) ->
  forall newj2len bi bk,
    (forall m, m < i -> run s m <= bk) ->
    (forall j, j2len_get newj2len j <= run s j /\ j2len_get newj2len j <= run s i) ->
    (In i js
     \/ (Forall (lt i) js /\ run s i <= bk /\ j2len_get newj2len i = run s i)) ->
    diagonal s (S i)
      (fst (flm_inner j2len i 0 (List.length s) js newj2len (bi, bi, bk)))
      (snd (flm_inner j2len i 0 (List.length s) js newj2len (bi, bi, bk))).
Proof.
  intros Hsorted. induction Hsorted as [|j js Hs IH Hall];
    intros Hjs newj bi bk Hbk Hnew Hcase.
  - cbn [flm_inner fst snd diagonal].
    destruct Hcase as [[]|[_ [Hr Hg]]].
    split; [reflexivity|]. split; [|split].
    + intros m Hm. destruct (Nat.eq_dec m i) as [->|Hne]; [exact Hr|].
      apply Hbk. lia.
    + exact Hnew.
    + exact Hg.
  - destruct (Hjs j (or_introl eq_refl)) as [Hjn Hjx].
    assert (Hjs' : forall j0, In j0 js -> j0 < List.length s /\ item s j0 = item s i)
      by (intros j0 Hj0; apply Hjs; right; exact Hj0).
    assert (Hpj : popular s (item s j) = false) by (rewrite Hjx; exact Hindexed).
    pose proof (run_indexed j Hpj) as Hrj.
    pose proof (run_indexed i Hindexed) as Hri.
    destruct (j2len_get_pred_run j) as [Hk1 Hk2].
    cbn [flm_inner].
    replace (j <? 0) with false by (symmetry; apply Nat.ltb_ge; lia).
    replace (List.length s <=? j) with false by (symmetry; apply Nat.leb_gt; exact Hjn).
    set (k := j2len_get_pred j2len j + 1) in *.
    assert (Hnew' : forall j0, j2len_get ((j, k) :: newj) j0 <= run s j0
                               /\ j2len_get ((j, k) :: newj) j0 <= run s i).
    { intros j0. rewrite j2len_get_cons. destruct (j =? j0) eqn:E; [|apply Hnew].
      apply Nat.eqb_eq in E. subst j0. unfold k. lia. }
    rewrite Forall_forall in Hall.
    destruct Hcase as [[Heq|Hin]|[Hgt [Hr Hg]]].
    + (* the diagonal entry *)
      subst j.
      assert (Hk : k = run s i) by (unfold k; rewrite Hdiag; lia).
      assert (Hright : forall bk', run s i <= bk' ->
                Forall (lt i) js /\ run s i <= bk'
                /\ j2len_get ((i, k) :: newj) i = run s i).
      { intros bk' Hb. split; [apply Forall_forall; exact Hall|]. split; [exact Hb|].
        rewrite j2len_get_cons, Nat.eqb_refl. exact Hk. }
      destruct (bk <? k) eqn:E.
      * apply Nat.ltb_lt in E.
        replace (i + 1 - k) with (i + 1 - k) by reflexivity.
        apply IH; [exact Hjs'| |exact Hnew'|right; apply Hright; lia].
        intros m Hm. specialize (Hbk m Hm). lia.
      * apply Nat.ltb_ge in E.
        apply IH; [exact Hjs'|exact Hbk|exact Hnew'|right; apply Hright; lia].
    + (* before the diagonal *)
      assert (Hlt : j < i) by (apply Hall; exact Hin).
      specialize (Hbk j Hlt) as Hb.
      replace (bk <? k) with false by (symmetry; apply Nat.ltb_ge; unfold k; lia).
      apply IH; [exact Hjs'|exact Hbk|exact Hnew'|left; exact Hin].
    + (* after the diagonal *)
      inversion Hgt as [|? ? Hij Hgt']; subst.
      replace (bk <? k) with false by (symmetry; apply Nat.ltb_ge; unfold k; lia).
      apply IH; [exact Hjs'|exact Hbk|exact Hnew'|].
      right. split; [exact Hgt'|]. split; [exact Hr|].
      rewrite j2len_get_cons.
      replace (j =? i) with false by (symmetry; apply Nat.eqb_neq; lia).
      exact Hg.
Qed.

End Row.

Lemma flm_rows_diagonal (count : nat) :
  forall i j2len best,
    i + count = List.length s ->
    diagonal s i j2len best ->
    fst (fst (flm_rows s s 0 (List.length s) (seq i count) j2len best))
    = snd (fst (flm_rows s s 0 (List.length s) (seq i count) j2len best)).
Proof.
  induction count as [|count IH]; intros i j2len [[bi bj] bk] Hlen Hd.
  - simpl. destruct Hd as [Hd _]. exact Hd.
  - cbn [seq flm_rows].
    destruct Hd as [Hij [Hbk [Hprev Hdiag]]]. subst bj.
    assert (Hi : i < List.length s) by lia.
    assert (Hnext : diagonal s (S i)
              (fst (flm_inner j2len i 0 (List.length s) (b2j_get s (item s i)) []
                      (bi, bi, bk)))
              (snd (flm_inner j2len i 0 (List.length s) (b2j_get s (item s i)) []
                      (bi, bi, bk)))).
    { unfold b2j_get. destruct (popular s (item s i)) eqn:Hp.
      - cbn [flm_inner fst snd diagonal].
        pose proof (run_popular i Hp) as Hr.
        split; [reflexivity|]. split; [|split].
        + intros m Hm. destruct (Nat.eq_dec m i) as [->|Hne]; [lia|].
          apply Hbk. lia.
        + intros j. simpl. lia.
        + simpl. lia.
      - apply (flm_inner_diagonal i j2len Hi Hp Hprev Hdiag).
        + apply indices_of_sorted.
        + intros j Hj. apply indices_of_In in Hj. exact Hj.
        + exact Hbk.
        + intros j. simpl. lia.
        + left. apply indices_of_In. split; [exact Hi|reflexivity]. }
    destruct (flm_inner j2len i 0 (List.length s) (b2j_get s (item s i)) []
                (bi, bi, bk)) as [newj best'].
    apply IH; [lia|exact Hnext].
Qed.

Lemma extend_back_self (d : nat) :
  forall k, extend_back s s 0 0 false d d k = (0, 0, k + d).
Proof.
  induction d as [|d IH]; intros k; cbn [extend_back].
  - f_equal. lia.
  - replace (S d - 1) with d by lia.
    unfold isbjunk. rewrite Ascii.eqb_refl. simpl.
    rewrite IH. f_equal. lia.
Qed.

Lemma extend_fwd_self (gap : nat) :
  forall k, k + gap <= List.length s ->
    extend_fwd s s (List.length s) (List.length s) false gap 0 0 k = k + gap.
Proof.
  induction gap as [|gap IH]; intros k Hk; cbn [extend_fwd]; [lia|].
  unfold isbjunk. rewrite Ascii.eqb_refl.
  replace (0 + k <? List.length s) with true by (symmetry; apply Nat.ltb_lt; lia).
  simpl. rewrite IH by lia. lia.
Qed.

(** The longest match of a sequence with itself is the whole sequence. *)
Lemma find_longest_match_self :
  find_longest_match s s 0 (List.length s) 0 (List.length s)
  = (0, 0, List.length s).
Proof.
  unfold find_longest_match.
  pose proof (flm_rows_diagonal (List.length s) 0 [] (0, 0, 0) eq_refl) as Hd.
  pose proof (flm_rows_window s s 0 (List.length s) 0 (List.length s)
                (List.length s) 0 [] (0, 0, 0)) as Hw.
  rewrite Nat.sub_0_r.
  destruct (flm_rows s s 0 (List.length s) (seq 0 (List.length s)) [] (0, 0, 0))
    as [[i1 j1] k1].
  simpl in Hd.
  assert (Hd' : i1 = j1).
  { apply Hd. split; [reflexivity|]. split; [intros m Hm; lia|].
    split; [intros j; simpl; lia|reflexivity]. }
  subst j1.
  assert (Hw' : in_window 0 (List.length s) 0 (List.length s) (i1, i1, k1)).
  { apply Hw; [lia|lia|constructor|unfold in_window; lia]. }
  unfold in_window in Hw'.
  rewrite extend_back_self.
  rewrite extend_fwd_self by lia.
  cbn [extend_back].
  replace (List.length s - (0 + (k1 + i1 + (List.length s - (0 + (k1 + i1))))))
    with 0 by lia.
  cbn [extend_fwd]. f_equal. lia.
Qed.

Lemma get_matching_blocks_self :
  exists blocks,
    get_matching_blocks s s = Some blocks
    /\ sum_sizes blocks = List.length s.
Proof.
  unfold get_matching_blocks.
  replace (2 * List.length s + 1) with (S (2 * List.length s)) by lia.
  cbn [blocks_loop]. rewrite find_longest_match_self.
  destruct (List.length s =? 0) eqn:E.
  - apply Nat.eqb_eq in E.
    destruct (2 * List.length s); simpl; eexists; (split; [reflexivity|]);
      simpl; lia.
  - rewrite Nat.ltb_irrefl. cbn [andb].
    replace (0 + List.length s <? List.length s) with false
      by (symmetry; apply Nat.ltb_ge; lia).
    cbn [andb].
    destruct (2 * List.length s) eqn:E2; [apply Nat.eqb_neq in E; lia|].
    cbn [blocks_loop]. eexists. split; [reflexivity|].
    rewrite sum_sizes_app, sum_sizes_collapse, sum_sizes_sort. simpl. lia.
Qed.

End SelfMatch.

Lemma ratio_self (x : string) : Difflib.ratio x x == 1.
Proof.
  unfold Difflib.ratio.
  destruct (get_matching_blocks_self (list_ascii_of_string x)) as [bl [Hbl Hs]].
  rewrite Hbl, Hs. apply calculate_ratio_full.
Qed.

(** C7, as stated: similarity is symmetric.  It is not: comparing "tide" with
    "diet" gives 0.25, comparing "diet" with "tide" gives 0.5. *)
Lemma C7_similarity_not_symmetric :
  ~ (DuplicateDetector._calculate_similarity "tide" "diet"
     == DuplicateDetector._calculate_similarity "diet" "tide").
Proof. vm_compute. discriminate. Qed.

(** C7, amended: for all texts x and y, similarity(x, x) = 1.0 and
    similarity(x, y) lies in [0, 1]; the similarity of x with y and that of
    y with x can differ. *)
Theorem C7_similarity_reflexive_bounded :
  forall x y : string,
    DuplicateDetector._calculate_similarity x x == 1
    /\ 0 <= DuplicateDetector._calculate_similarity x y
    /\ DuplicateDetector._calculate_similarity x y <= 1.
Proof.
  intros x y. unfold DuplicateDetector._calculate_similarity.
  split; [apply ratio_self|exact (ratio_range (Str.lower x) (Str.lower y))].
Qed.

(* ================================================================= *)
(** * Further properties of the code *)

(** ** The registry as a dict *)

Section Dicts.

Lemma atom_eqb_euclid (a b c : value) :
  atom_eqb a b = true -> atom_eqb a c = true -> atom_eqb b c = true.
Proof.
  destruct a as [|x|x|x|x|x|x]; destruct b as [|y|y|y|y|y|y];
    simpl; intros Hab; try discriminate Hab;
    destruct c as [|z|z|z|z|z|z]; simpl; intros Hac; try discriminate Hac;
    try reflexivity;
    try (apply String.eqb_eq in Hab; apply String.eqb_eq in Hac;
         subst; apply String.eqb_refl);
    apply Qeq_bool_iff in Hab; apply Qeq_bool_iff in Hac; apply Qeq_bool_iff;
    rewrite <- Hab, <- Hac; reflexivity.
Qed.

Lemma dict_mem_set_mono (d : dict) (k v k2 : value) :
  dict_mem d k2 = true -> dict_mem (dict_set d k v) k2 = true.
Proof.
  unfold dict_mem. induction d as [|[k' v'] d IH]; simpl; [discriminate|].
  destruct (atom_eqb k' k) eqn:E; simpl; destruct (atom_eqb k' k2); auto.
Qed.

Lemma dict_lookup_set_other (d : dict) (k v k2 : value) :
  atom_eqb k k2 = false ->
  dict_lookup (dict_set d k v) k2 = dict_lookup d k2.
Proof.
  intros Hk. induction d as [|[k' v'] d IH]; simpl.
  - rewrite Hk. reflexivity.
  - destruct (atom_eqb k' k) eqn:E; simpl.
    + destruct (atom_eqb k' k2) eqn:E2; [|reflexivity].
      rewrite (atom_eqb_euclid k' k k2 E E2) in Hk. discriminate Hk.
    + destruct (atom_eqb k' k2); [reflexivity|exact IH].
Qed.

Lemma dict_lookup_set_same (d : dict) (k v : value) :
  hashable k = true -> dict_lookup (dict_set d k v) k = Some v.
Proof.
  intros Hk. induction d as [|[k' v'] d IH]; simpl.
  - rewrite (atom_eqb_refl k Hk). reflexivity.
  - destruct (atom_eqb k' k) eqn:E; simpl; rewrite E; [reflexivity|exact IH].
Qed.

Lemma dict_set_length (d : dict) (k v : value) :
  List.length (dict_set d k v)
  = if dict_mem d k then List.length d else S (List.length d).
Proof.
  unfold dict_mem. induction d as [|[k' v'] d IH]; simpl; [reflexivity|].
  destruct (atom_eqb k' k) eqn:E; simpl; [reflexivity|].
  rewrite IH. destruct (dict_lookup d k); reflexivity.
Qed.

End Dicts.

(** ** The registry across calls of the pipeline *)

(** X1: processing a claim never removes a claim number from the
    registry, and it leaves the entry of every other claim number as it was. *)
Theorem registry_keeps_other_entries :
  forall (R : Runtime) (W : World) (C : Collaborators)
         (email_data : EmailData.t) (st : Pipeline.state) (k : value),
    let st' := snd (Pipeline.process_single_claim email_data st) in
    (dict_mem (Pipeline.processed_claims st) k = true ->
     dict_mem (Pipeline.processed_claims st') k = true)
    /\ (atom_eqb (dict_get (Pipeline.analysis_of email_data) "claim_number"
                           (VStr "Unknown")) k = false ->
        dict_lookup (Pipeline.processed_claims st') k
        = dict_lookup (Pipeline.processed_claims st) k).
Proof.
  intros R W C email_data st k.
  unfold Pipeline.process_single_claim. rewrite process_body_cases.
  destruct (generate_claim_report _) as [path|e]; [|simpl; auto].
  cbv zeta.
  destruct (DuplicateVerdict.is_duplicate (Pipeline.verdict_of email_data st));
    [simpl; auto|].
  destruct (py_setitem _ _ _) as [d|e] eqn:Hs; [|simpl; auto].
  apply py_setitem_Ok in Hs. destruct Hs as [_ Hs]. subst d. simpl. split.
  - apply dict_mem_set_mono.
  - apply dict_lookup_set_other.
Qed.

(** X2: after a claim is completed and is not
    a duplicate, looking up its claim number in the registry gives the entry
    built from this very result; the registry grows by one entry when the
    claim number was not in it, and keeps its size (the old entry is
    overwritten) when it was. *)
Theorem registered_claim_round_trip :
  forall (R : Runtime) (W : World) (C : Collaborators)
         (email_data : EmailData.t) (st : Pipeline.state),
    ProcessingResult.processing_status
      (fst (Pipeline.process_single_claim email_data st)) = "completed" ->
    ProcessingResult.is_duplicate
      (fst (Pipeline.process_single_claim email_data st)) = false ->
    let '(result, st') := Pipeline.process_single_claim email_data st in
    dict_lookup (Pipeline.processed_claims st')
                (ProcessingResult.claim_number result)
    = Some (Pipeline.registry_entry result (Pipeline.analysis_of email_data))
    /\ List.length (Pipeline.processed_claims st')
       = if dict_mem (Pipeline.processed_claims st)
                     (ProcessingResult.claim_number result)
         then List.length (Pipeline.processed_claims st)
         else S (List.length (Pipeline.processed_claims st)).
Proof.
  intros R W C email_data st.
  unfold Pipeline.process_single_claim. rewrite process_body_cases.
  destruct (generate_claim_report _) as [path|e];
    [|simpl; intros H; discriminate H].
  cbv zeta.
  destruct (DuplicateVerdict.is_duplicate (Pipeline.verdict_of email_data st)) eqn:Hd.
  - simpl. rewrite Hd. intros _ H. discriminate H.
  - destruct (py_setitem _ _ _) as [d|e] eqn:Hs;
      [|simpl; intros H; discriminate H].
    apply py_setitem_Ok in Hs. destruct Hs as [Hk Hs]. subst d.
    intros _ _. cbn [fst snd Pipeline.processed_claims]. split.
    + apply dict_lookup_set_same. exact Hk.
    + apply dict_set_length.
Qed.

(** [registered_claim_round_trip] at the first claim of an empty registry *)
Lemma registered_claim_round_trip_witness :
  ProcessingResult.processing_status
    (fst (@Pipeline.process_single_claim Scenario.runtime Scenario.world
            Scenario.collaborators Scenario.first_email Scenario.fresh))
  = "completed"
  /\ dict_lookup
       (Pipeline.processed_claims
          (snd (@Pipeline.process_single_claim Scenario.runtime Scenario.world
                  Scenario.collaborators Scenario.first_email Scenario.fresh)))
       (VStr "CLM-100")
     <> None.
Proof.
  assert (H1 : ProcessingResult.processing_status
    (fst (@Pipeline.process_single_claim Scenario.runtime Scenario.world
            Scenario.collaborators Scenario.first_email Scenario.fresh))
    = "completed") by (vm_compute; reflexivity).
  assert (H2 : ProcessingResult.is_duplicate
    (fst (@Pipeline.process_single_claim Scenario.runtime Scenario.world
            Scenario.collaborators Scenario.first_email Scenario.fresh))
    = false) by (vm_compute; reflexivity).
  split; [exact H1|].
  pose proof (@registered_claim_round_trip Scenario.runtime Scenario.world
                Scenario.collaborators Scenario.first_email Scenario.fresh H1 H2)
    as T.
  assert (Hn : ProcessingResult.claim_number
    (fst (@Pipeline.process_single_claim Scenario.runtime Scenario.world
            Scenario.collaborators Scenario.first_email Scenario.fresh))
    = VStr "CLM-100") by (vm_compute; reflexivity).
  destruct (@Pipeline.process_single_claim Scenario.runtime Scenario.world
              Scenario.collaborators Scenario.first_email Scenario.fresh)
    as [result st'].
  simpl in Hn. subst. destruct T as [T _]. simpl. rewrite <- Hn, T. discriminate.
Defined.

Section BatchFacts.
Context {R : Runtime} {W : World} {C : Collaborators}.

Lemma process_single_claim_mirrors (email_data : EmailData.t) (st : Pipeline.state) :
  Notions.mirrors st ->
  Notions.mirrors (snd (Pipeline.process_single_claim email_data st)).
Proof.
  unfold Pipeline.process_single_claim. rewrite process_body_cases.
  unfold Notions.mirrors.
  destruct (generate_claim_report _) as [path|e]; [|simpl; auto].
  cbv zeta.
  destruct (DuplicateVerdict.is_duplicate (Pipeline.verdict_of email_data st));
    [simpl; auto|].
  destruct (py_setitem _ _ _) as [d|e]; simpl; auto.
Qed.

Lemma process_single_claim_mem (email_data : EmailData.t) (st : Pipeline.state)
      (k : value) :
  dict_mem (Pipeline.processed_claims st) k = true ->
  dict_mem (Pipeline.processed_claims
              (snd (Pipeline.process_single_claim email_data st))) k = true.
Proof.
  unfold Pipeline.process_single_claim. rewrite process_body_cases.
  destruct (generate_claim_report _) as [path|e]; [|simpl; auto].
  cbv zeta.
  destruct (DuplicateVerdict.is_duplicate (Pipeline.verdict_of email_data st));
    [simpl; auto|].
  destruct (py_setitem _ _ _) as [d|e] eqn:Hs; [|simpl; auto].
  apply py_setitem_Ok in Hs. destruct Hs as [_ Hs]. subst d. simpl.
  apply dict_mem_set_mono.
Qed.

Lemma process_single_claim_writes (email_data : EmailData.t) (st : Pipeline.state) :
  (List.length (Pipeline.file_writes (snd (Pipeline.process_single_claim email_data st)))
   <= S (List.length (Pipeline.file_writes st)))%nat.
Proof.
  unfold Pipeline.process_single_claim. rewrite process_body_cases.
  destruct (generate_claim_report _) as [path|e]; [|simpl; lia].
  cbv zeta.
  destruct (DuplicateVerdict.is_duplicate (Pipeline.verdict_of email_data st));
    [simpl; lia|].
  destruct (py_setitem _ _ _) as [d|e]; simpl; lia.
Qed.

Lemma process_single_claim_status (email_data : EmailData.t) (st : Pipeline.state) :
  let result := fst (Pipeline.process_single_claim email_data st) in
  ProcessingResult.email_id result = EmailData.id email_data
  /\ (ProcessingResult.processing_status result = "completed"
      \/ ProcessingResult.processing_status result = "failed").
Proof.
  unfold Pipeline.process_single_claim. rewrite process_body_cases.
  destruct (generate_claim_report _) as [path|e]; [|simpl; auto].
  cbv zeta.
  destruct (DuplicateVerdict.is_duplicate (Pipeline.verdict_of email_data st));
    [simpl; auto|].
  destruct (py_setitem _ _ _) as [d|e]; simpl; auto.
Qed.

End BatchFacts.

(** X3: the loop over the e-mails of a run yields one
    result per e-mail, in order and each either completed or failed; it never
    removes a claim number from the registry; it writes the registry file at
    most once per e-mail; and the content of the last write attempted is
    always the registry in memory. *)
Theorem batch_keeps_registry :
  forall (R : Runtime) (W : World) (C : Collaborators)
         (emails : list EmailData.t) (st : Pipeline.state),
    let '(results, st') := Batch.process_all emails st in
    map ProcessingResult.email_id results = map EmailData.id emails
    /\ Forall (fun r => ProcessingResult.processing_status r = "completed"
                        \/ ProcessingResult.processing_status r = "failed") results
    /\ (forall k, dict_mem (Pipeline.processed_claims st) k = true ->
                  dict_mem (Pipeline.processed_claims st') k = true)
    /\ (List.length (Pipeline.file_writes st')
        <= List.length (Pipeline.file_writes st) + List.length emails)%nat
    /\ (Notions.mirrors st -> Notions.mirrors st').
Proof.
  intros R W C emails. induction emails as [|e emails IH]; intros st.
  - simpl. repeat split; auto. lia.
  - cbn [Batch.process_all].
    pose proof (process_single_claim_status e st) as Hst.
    pose proof (process_single_claim_writes e st) as Hw.
    pose proof (process_single_claim_mirrors e st) as Hm.
    pose proof (process_single_claim_mem e st) as Hk.
    destruct (Pipeline.process_single_claim e st) as [r st1].
    cbn [fst snd] in *.
    specialize (IH st1).
    destruct (Batch.process_all emails st1) as [rs st2].
    destruct IH as [I1 [I2 [I3 [I4 I5]]]]. destruct Hst as [Hid Hstatus].
    split; [simpl; rewrite Hid, I1; reflexivity|].
    split; [constructor; assumption|].
    split; [intros k Hin; apply I3, Hk, Hin|].
    split; [simpl; lia|].
    intros H. apply I5, Hm, H.
Qed.

(** ** The fraud detector *)

Section FraudBounds.
Context {R : Runtime} {W : World}.

Lemma py_gt_number_inv (v : value) (n : Z) (b : bool) :
  py_gt v (VInt n) = Ok b -> Notions.is_number v = true.
Proof.
  destruct v; simpl; intros H; try discriminate H; reflexivity.
Qed.

Lemma py_gt_number_Ok (v : value) (n : Z) :
  Notions.is_number v = true -> exists b, py_gt v (VInt n) = Ok b.
Proof.
  destruct v; simpl; intros H; try discriminate H; eexists; reflexivity.
Qed.

Lemma suspicious_date_inv (v : value) (b : bool) :
  FraudDetector._suspicious_date_pattern v = Ok b ->
  negb (truthy v) || Notions.is_str v = true.
Proof.
  unfold FraudDetector._suspicious_date_pattern.
  destruct (truthy v); simpl; [|reflexivity].
  destruct v; simpl; intros H; try discriminate H; reflexivity.
Qed.

Lemma suspicious_date_Ok (v : value) :
  negb (truthy v) || Notions.is_str v = true ->
  exists b, FraudDetector._suspicious_date_pattern v = Ok b.
Proof.
  unfold FraudDetector._suspicious_date_pattern.
  destruct (truthy v); simpl; [|eexists; reflexivity].
  destruct v; cbn [negb truthy Notions.is_str orb py_lower bind];
    intros H; try discriminate H.
  repeat match goal with
         | |- context [if ?c then _ else _] => destruct c
         | |- context [match days_since ?x with _ => _ end] =>
             destruct (days_since x)
         end; eexists; reflexivity.
Qed.

Lemma py_lower_inv (v : value) (s : string) :
  py_lower v = Ok s -> Notions.is_str v = true.
Proof. destruct v; simpl; intros H; try discriminate H; reflexivity. Qed.

Lemma rule_score_Ok_inv (d : dict) (e : EmailData.t) (s : Q) :
  FraudDetector._rule_based_fraud_detection (VDict d) e = Ok s ->
  Notions.rule_inputs_ok d = true /\ 0 <= s /\ s <= 0.9.
Proof.
  unfold FraudDetector._rule_based_fraud_detection, Notions.rule_inputs_ok.
  cbn [py_get]. intros H. repeat bind_inv H.
  injection Ha as <-. injection Ha1 as <-. injection Ha3 as <-.
  apply py_gt_number_inv in Ha0. apply suspicious_date_inv in Ha2.
  apply py_lower_inv in Ha4. rewrite Ha0, Ha2, Ha4.
  split; [reflexivity|].
  injection H as <-.
  repeat match goal with
         | |- context [if ?c then _ else _] => destruct c
         end; vm_compute; split; discriminate.
Qed.

Lemma rule_score_defined (d : dict) (e : EmailData.t) :
  Notions.rule_inputs_ok d = true ->
  exists s, FraudDetector._rule_based_fraud_detection (VDict d) e = Ok s.
Proof.
  unfold FraudDetector._rule_based_fraud_detection, Notions.rule_inputs_ok.
  cbn [py_get]. intros H.
  apply andb_true_iff in H. destruct H as [H H3].
  apply andb_true_iff in H. destruct H as [H1 H2].
  destruct (py_gt_number_Ok _ 1000000 H1) as [b1 E1].
  destruct (suspicious_date_Ok _ H2) as [b2 E2].
  cbn [bind]. rewrite E1. cbn [bind]. rewrite E2. cbn [bind].
  destruct (dict_get d "loss_location" (VStr "")); try discriminate H3.
  cbn [py_lower bind]. eexists. reflexivity.
Qed.

End FraudBounds.

(** X4: on an analysis that is a dict, the
    rule-based scoring returns a score exactly when the claim amount is a
    number, the loss date is a text or a falsy value and the loss location
    is a text; the score then lies between 0 and 0.9, so the cap of 1.0 is
    never reached.  In every other case the scoring raises and
    [detect_fraud] returns its default assessment. *)
Theorem rule_score_defined_and_bounded :
  forall (R : Runtime) (W : World) (claim_analysis : dict) (email_data : EmailData.t),
    match FraudDetector._rule_based_fraud_detection (VDict claim_analysis) email_data with
    | Ok score =>
        Notions.rule_inputs_ok claim_analysis = true
        /\ 0 <= score /\ score <= 0.9
        /\ FraudDetector.py_min score 1.0 = score
    | Raise _ =>
        Notions.rule_inputs_ok claim_analysis = false
        /\ FraudDetector.detect_fraud (VDict claim_analysis) email_data
           = FraudDetector._get_default_fraud_analysis
    end.
Proof.
  intros R W d e.
  destruct (FraudDetector._rule_based_fraud_detection (VDict d) e) as [s|ex] eqn:E.
  - destruct (rule_score_Ok_inv d e s E) as [H1 [H2 H3]].
    repeat (split; [assumption|]).
    unfold FraudDetector.py_min.
    destruct (Qgtb s 1.0) eqn:G; [|reflexivity].
    apply Qgtb_true in G. exfalso.
    apply (Qlt_irrefl s). eapply Qle_lt_trans; [exact H3|].
    eapply Qlt_trans; [|exact G]. reflexivity.
  - split.
    + destruct (Notions.rule_inputs_ok d) eqn:Hok; [|reflexivity].
      destruct (rule_score_defined d e Hok) as [s Hs]. congruence.
    + unfold FraudDetector.detect_fraud, FraudDetector.detect_fraud_body.
      rewrite E. reflexivity.
Qed.

Section FraudAssessments.
Context {R : Runtime} {W : World}.

Lemma rule_score_range (c : value) (e : EmailData.t) (s : Q) :
  FraudDetector._rule_based_fraud_detection c e = Ok s -> 0 <= s /\ s <= 0.9.
Proof.
  destruct c as [| | | | | |d];
    try (unfold FraudDetector._rule_based_fraud_detection; simpl;
         intros H; discriminate H).
  intros H. apply rule_score_Ok_inv in H. tauto.
Qed.

Lemma extract_red_flags_length (c ai : value) (l : list value) :
  FraudDetector._extract_red_flags c ai = Ok l -> (List.length l <= 10)%nat.
Proof.
  unfold FraudDetector._extract_red_flags. intros H. repeat bind_inv H.
  injection H as <-. exact (firstn_le_length 10 _).
Qed.

Lemma recommendations_length (s : Q) (ai : value) (l : list value) :
  FraudDetector._generate_fraud_recommendations s ai = Ok l ->
  (List.length l <= 5)%nat.
Proof.
  unfold FraudDetector._generate_fraud_recommendations. intros H.
  repeat bind_inv H. injection H as <-. exact (firstn_le_length 5 _).
Qed.

Lemma unparsed_reply_analysis (reply : string) :
  Notions.ai_reply_unparsed reply ->
  exists indicator advice,
    FraudDetector._parse_fraud_analysis reply
    = VDict [(VStr "fraud_indicators", VList [VStr indicator]);
             (VStr "confidence", VFloat 0.5);
             (VStr "recommendations", VList [VStr advice]);
             (VStr "raw_analysis", VStr reply)].
Proof.
  unfold Notions.ai_reply_unparsed, FraudDetector._parse_fraud_analysis.
  intros [H|[e H]].
  - rewrite H. simpl. eexists. eexists. reflexivity.
  - destruct (Str.contains "```json" reply).
    + rewrite H. simpl. eexists. eexists. reflexivity.
    + simpl. eexists. eexists. reflexivity.
Qed.

End FraudAssessments.

(** X5: whatever the analysis, the e-mail and the reply of the hosted model
    are, the assessment returned by [detect_fraud] has a rule-based score
    between 0 and 0.9, at most ten red flags, at most five recommendations,
    and a risk level that is one of HIGH, MEDIUM, LOW, VERY LOW and
    UNKNOWN. *)
Theorem fraud_assessment_bounds :
  forall (R : Runtime) (W : World) (claim_analysis : value) (email_data : EmailData.t),
    let a := FraudDetector.detect_fraud claim_analysis email_data in
    0 <= FraudAssessment.rule_based_score a
    /\ FraudAssessment.rule_based_score a <= 0.9
    /\ (List.length (FraudAssessment.red_flags a) <= 10)%nat
    /\ (List.length (FraudAssessment.recommendations a) <= 5)%nat
    /\ In (FraudAssessment.risk_level a)
          ["HIGH"; "MEDIUM"; "LOW"; "VERY LOW"; "UNKNOWN"]%string.
Proof.
  intros R W c e. unfold FraudDetector.detect_fraud.
  destruct (FraudDetector.detect_fraud_body c e) as [a|ex] eqn:E; cbn [try_except].
  - pose proof (detect_fraud_body_level c e a E) as Hl.
    unfold FraudDetector.detect_fraud_body in E. repeat bind_inv E.
    injection E as <-.
    cbn [FraudAssessment.rule_based_score FraudAssessment.red_flags
         FraudAssessment.recommendations FraudAssessment.risk_level
         FraudAssessment.fraud_score] in Hl |- *.
    apply rule_score_range in Ha. destruct Ha as [L U].
    apply extract_red_flags_length in Ha1. apply recommendations_length in Ha2.
    repeat (split; [assumption|]).
    unfold FraudDetector._get_risk_level.
    destruct (Qgeb a1 0.8); [left; reflexivity|].
    destruct (Qgeb a1 0.6); [right; left; reflexivity|].
    destruct (Qgeb a1 0.4); [right; right; left; reflexivity|].
    right; right; right; left; reflexivity.
  - split; [discriminate|]. split; [discriminate|].
    split; [simpl; lia|]. split; [simpl; lia|].
    simpl. auto 6.
Qed.

(** X6: when the reply of the hosted model has no
    json fence, or the fenced text cannot be decoded, the assessment is either
    the default one or has the fraud score 0.3 + 0.4 * (rule-based score);
    in both cases the score is at most 0.66 and the risk level is never
    HIGH. *)
Theorem unparsed_reply_caps_risk :
  forall (R : Runtime) (W : World) (claim_analysis : value) (email_data : EmailData.t),
    Notions.ai_reply_unparsed
      (analyze_content (FraudDetector.fraud_prompt claim_analysis email_data)) ->
    let a := FraudDetector.detect_fraud claim_analysis email_data in
    (a = FraudDetector._get_default_fraud_analysis
     \/ FraudAssessment.fraud_score a
        == 0.3 + 0.4 * FraudAssessment.rule_based_score a)
    /\ FraudAssessment.fraud_score a <= 0.66
    /\ FraudAssessment.risk_level a <> "HIGH".
Proof.
  intros R W c e Hu. unfold FraudDetector.detect_fraud.
  destruct (FraudDetector.detect_fraud_body c e) as [a|ex] eqn:E; simpl.
  - pose proof (detect_fraud_body_level c e a E) as Hl.
    unfold FraudDetector.detect_fraud_body in E. bind_inv E.
    apply rule_score_range in Ha. destruct Ha as [L U].
    unfold FraudDetector._ai_based_fraud_detection in E. cbn [try_except] in E.
    destruct (unparsed_reply_analysis _ Hu) as [i [r Hp]].
    rewrite Hp in E. bind_inv E.
    unfold FraudDetector._combine_fraud_scores in Ha.
    cbn in Ha. injection Ha as <-.
    repeat bind_inv E. injection E as <-. cbn in Hl |- *.
    set (x := 0.5 * 0.6 + a0 * 0.4) in *.
    assert (Hx : x <= 0.66).
    { apply Qle_trans with (0.5 * 0.6 + 0.9 * 0.4); [|discriminate].
      unfold x. apply Qplus_le_r. apply Qmult_le_compat_r; [exact U|discriminate]. }
    assert (Hm : FraudDetector.py_min x 1.0 = x).
    { unfold FraudDetector.py_min. destruct (Qgtb x 1.0) eqn:G; [|reflexivity].
      apply Qgtb_true in G. exfalso. apply (Qlt_irrefl x).
      eapply Qle_lt_trans; [exact Hx|]. eapply Qlt_trans; [|exact G]. reflexivity. }
    clear Hl.
    cbn [FraudAssessment.fraud_score FraudAssessment.risk_level
         FraudAssessment.rule_based_score].
    rewrite Hm. split; [right; unfold x; ring|]. split; [exact Hx|].
    unfold FraudDetector._get_risk_level, Qgeb.
    destruct (Qle_bool 0.8 x) eqn:G.
    + apply Qle_bool_iff in G. exfalso. apply (Qlt_irrefl x).
      eapply Qle_lt_trans; [exact Hx|]. eapply Qlt_le_trans; [|exact G]. reflexivity.
    + destruct (Qle_bool 0.6 x); [discriminate|].
      destruct (Qle_bool 0.4 x); discriminate.
  - split; [left; reflexivity|]. split; discriminate.
Qed.

(** [unparsed_reply_caps_risk] when the hosted model is unreachable *)
Lemma unparsed_reply_caps_risk_witness :
  FraudAssessment.risk_level
    (@FraudDetector.detect_fraud Scenario.runtime Scenario.world
       Scenario.five_rules_claim Scenario.five_rules_email)
  <> "HIGH".
Proof.
  apply (@unparsed_reply_caps_risk Scenario.runtime Scenario.world
           Scenario.five_rules_claim Scenario.five_rules_email).
  left. vm_compute. reflexivity.
Defined.

(** ** Texts and their occurrences *)

Section Texts.

Lemma prefix_occurs (sub s : string) :
  String.prefix sub s = true <-> exists after, s = (sub ++ after)%string.
Proof.
  revert s. induction sub as [|c sub IH]; intros s.
  - split; [intros _; exists s; reflexivity|intros _; destruct s; reflexivity].
  - destruct s as [|d s]; simpl.
    + split; [discriminate|intros [after H]; discriminate H].
    + destruct (Ascii.ascii_dec c d) as [->|Hne].
      * rewrite IH. split; intros [after H]; exists after.
        -- rewrite H. reflexivity.
        -- injection H as H. exact H.
      * split; [discriminate|].
        intros [after H]. injection H as Hd _. congruence.
Qed.

Lemma contains_occurs (sub s : string) :
  Str.contains sub s = true <-> Notions.occurs sub s.
Proof.
  unfold Notions.occurs. induction s as [|c s IH].
  - cbn [Str.contains]. destruct (String.prefix sub "") eqn:P.
    + split; [intros _|reflexivity].
      apply prefix_occurs in P. destruct P as [after P].
      exists ""%string, after. exact P.
    + split; [discriminate|].
      intros [before [after H]].
      destruct before; [|discriminate H]. simpl in H.
      assert (P' : String.prefix sub "" = true)
        by (apply prefix_occurs; exists after; exact H).
      congruence.
  - cbn [Str.contains]. destruct (String.prefix sub (String c s)) eqn:P.
    + split; [intros _|reflexivity].
      apply prefix_occurs in P. destruct P as [after P].
      exists ""%string, after. exact P.
    + rewrite IH. split.
      * intros [before [after H]]. exists (String c before), after.
        simpl. rewrite H. reflexivity.
      * intros [before [after H]]. destruct before as [|b before].
        -- simpl in H.
           assert (P' : String.prefix sub (String c s) = true)
             by (apply prefix_occurs; exists after; exact H).
           congruence.
        -- injection H as _ H. exists before, after. exact H.
Qed.

Lemma lower_app (x y : string) :
  Str.lower (x ++ y) = (Str.lower x ++ Str.lower y)%string.
Proof.
  induction x as [|c x IH]; simpl; [reflexivity|]. rewrite IH. reflexivity.
Qed.

Lemma occurs_lower (sub s : string) :
  Notions.occurs sub s -> Notions.occurs (Str.lower sub) (Str.lower s).
Proof.
  intros [before [after H]]. exists (Str.lower before), (Str.lower after).
  rewrite H, !lower_app. reflexivity.
Qed.

Lemma occurs_empty (s : string) : Notions.occurs "" s.
Proof. exists ""%string, s. reflexivity. Qed.

Lemma take_take_app (n : nat) (s t : string) :
  (n <= String.length s)%nat ->
  ClaimsAnalyzer.take n (ClaimsAnalyzer.take n s ++ t) = ClaimsAnalyzer.take n s.
Proof.
  revert s. induction n as [|n IH]; intros s H.
  - destruct s; reflexivity.
  - destruct s as [|c s]; simpl in H; [lia|].
    simpl. rewrite IH by lia. reflexivity.
Qed.

Lemma take_body_preview (body : string) :
  ClaimsAnalyzer.take 200 (EmailClient.body_preview body)
  = ClaimsAnalyzer.take 200 body.
Proof.
  unfold EmailClient.body_preview.
  destruct (200 <? String.length body)%nat eqn:L; [|reflexivity].
  apply Nat.ltb_lt in L. apply take_take_app. lia.
Qed.

End Texts.

(** ** The e-mail filter and the record of processed e-mails *)

(** X7: the sender filter is a substring
    test that ignores case: an e-mail passes it as soon as the stripped text
    of some configured sender occurs anywhere in its sender address.  In
    particular a configured sender that is blank lets every e-mail pass. *)
Theorem sender_filter_is_substring_test :
  forall (E : EmailEnv) (email_data : Email.t) (s : string),
    In s senders ->
    (Notions.occurs (Str.strip s) (Email.sender_email email_data) ->
     EmailProcessor.sender_match email_data = true)
    /\ (Str.strip s = ""%string ->
        EmailProcessor.sender_match email_data = true).
Proof.
  intros E email_data s Hin.
  assert (H : Notions.occurs (Str.strip s) (Email.sender_email email_data) ->
              EmailProcessor.sender_match email_data = true).
  { intros Ho. unfold EmailProcessor.sender_match. apply existsb_exists.
    exists (Str.lower (Str.strip s)). split.
    - apply in_map_iff. exists s. split; [reflexivity|exact Hin].
    - apply contains_occurs, occurs_lower, Ho. }
  split; [exact H|].
  intros Hs. apply H. rewrite Hs. apply occurs_empty.
Qed.

(** [sender_filter_is_substring_test] for a list of senders read from a text
    that ends in a comma *)
Lemma sender_filter_is_substring_test_witness :
  @EmailProcessor.sender_match MailScenario.env MailScenario.stranger = true.
Proof.
  apply (@sender_filter_is_substring_test MailScenario.env MailScenario.stranger
           ""%string).
  - vm_compute. right. left. reflexivity.
  - vm_compute. reflexivity.
Defined.

(** X8: an e-mail that was marked as processed
    is recognised as processed, and marking never makes an earlier e-mail
    unrecognised.  Two parsed e-mails with the same subject, sender and number
    of attachments whose bodies agree on their first 200 characters have the
    same fingerprint, so after one is marked the other is taken as processed
    too, whatever their ids and the rest of their bodies are. *)
Theorem processed_email_round_trip :
  forall (E : EmailEnv) (processed_emails : dict) (email_data : Email.t)
         (result : dict) (processed_at : string),
    let processed_emails' :=
      EmailProcessor._mark_email_processed processed_emails email_data result
                                           processed_at in
    EmailProcessor._is_email_processed processed_emails' email_data = true
    /\ (forall other,
          EmailProcessor._is_email_processed processed_emails other = true ->
          EmailProcessor._is_email_processed processed_emails' other = true)
    /\ (forall id id' subject sender_email body body' attachments,
          email_data = EmailClient._parse_email id subject sender_email body
                                                attachments ->
          ClaimsAnalyzer.take 200 body' = ClaimsAnalyzer.take 200 body ->
          EmailProcessor._is_email_processed processed_emails'
            (EmailClient._parse_email id' subject sender_email body' attachments)
          = true).
Proof.
  intros E pe e r t pe'.
  assert (H1 : EmailProcessor._is_email_processed pe' e = true).
  { unfold pe', EmailProcessor._is_email_processed,
      EmailProcessor._mark_email_processed.
    apply dict_mem_set. reflexivity. }
  split; [exact H1|]. split.
  - intros other. unfold pe', EmailProcessor._is_email_processed,
      EmailProcessor._mark_email_processed. apply dict_mem_set_mono.
  - intros id id' subject sender body body' n He Hb.
    unfold EmailProcessor._is_email_processed in *.
    replace (EmailProcessor._get_email_fingerprint
               (EmailClient._parse_email id' subject sender body' n))
      with (EmailProcessor._get_email_fingerprint e); [exact H1|].
    subst e. unfold EmailProcessor._get_email_fingerprint,
      EmailClient._parse_email.
    cbn [Email.subject Email.sender_email Email.body_preview
         Email.attachment_count].
    rewrite !take_body_preview, Hb. reflexivity.
Qed.

(** ** The sender pattern of the fraud rules *)

Section SenderPattern.

Lemma six_digits_run (digits after : string) (run : nat) :
  Forall (fun c => Str.is_digit c = true) (list_ascii_of_string digits) ->
  (6 <= run + String.length digits)%nat ->
  Str.six_digits_at (digits ++ String "@"%char after) run = true.
Proof.
  revert run. induction digits as [|d digits IH]; intros run Hd Hl.
  - simpl in Hl. cbn [append Str.six_digits_at].
    replace (Str.is_digit "@"%char) with false by reflexivity.
    rewrite Ascii.eqb_refl. simpl.
    destruct run as [|[|[|[|[|[|run]]]]]]; try lia; reflexivity.
  - simpl in Hd, Hl. inversion Hd as [|x l Hx Hrest]; subst.
    cbn [append Str.six_digits_at]. rewrite Hx. apply IH; [exact Hrest|lia].
Qed.

Lemma six_digits_found (before digits after : string) (run : nat) :
  Forall (fun c => Str.is_digit c = true) (list_ascii_of_string digits) ->
  (6 <= String.length digits)%nat ->
  Str.six_digits_at (before ++ digits ++ String "@"%char after) run = true.
Proof.
  revert run. induction before as [|c before IH]; intros run Hd Hl.
  - apply six_digits_run; [exact Hd|lia].
  - cbn [append Str.six_digits_at].
    destruct (Str.is_digit c); [apply IH; assumption|].
    destruct (Ascii.eqb c "@"%char && (6 <=? run)%nat); [reflexivity|].
    apply IH; assumption.
Qed.

Lemma six_digits_inv (s : string) (run : nat) :
  Str.six_digits_at s run = true ->
  (exists digits after,
      s = (digits ++ String "@"%char after)%string
      /\ Forall (fun c => Str.is_digit c = true) (list_ascii_of_string digits)
      /\ (6 <= run + String.length digits)%nat)
  \/ Notions.six_digits_before_at s.
Proof.
  revert run. induction s as [|c s IH]; intros run H; [discriminate H|].
  cbn [Str.six_digits_at] in H.
  destruct (Str.is_digit c) eqn:Hc.
  - destruct (IH _ H) as [[digits [after [E [Hd Hl]]]]|[before [digits [after [E [Hl Hd]]]]]].
    + left. exists (String c digits), after. split; [simpl; rewrite E; reflexivity|].
      split; [simpl; constructor; assumption|simpl; lia].
    + right. exists (String c before), digits, after.
      split; [simpl; rewrite E; reflexivity|]. split; assumption.
  - destruct (Ascii.eqb c "@"%char && (6 <=? run)%nat) eqn:Hat.
    + apply andb_true_iff in Hat. destruct Hat as [Hat Hr].
      apply Ascii.eqb_eq in Hat. apply Nat.leb_le in Hr. subst c.
      left. exists ""%string, s. split; [reflexivity|].
      split; [constructor|simpl; lia].
    + right.
      destruct (IH _ H) as [[digits [after [E [Hd Hl]]]]|[before [digits [after [E [Hl Hd]]]]]].
      * exists (String c ""), digits, after.
        split; [simpl; rewrite E; reflexivity|]. split; [lia|assumption].
      * exists (String c before), digits, after.
        split; [simpl; rewrite E; reflexivity|]. split; assumption.
Qed.

Lemma six_digits_spec (s : string) :
  Str.six_digits_at s 0 = true <-> Notions.six_digits_before_at s.
Proof.
  split.
  - intros H. destruct (six_digits_inv s 0 H) as [[digits [after [E [Hd Hl]]]]|H'];
      [|exact H'].
    exists ""%string, digits, after. split; [exact E|]. split; [lia|exact Hd].
  - intros [before [digits [after [E [Hl Hd]]]]]. subst s.
    apply six_digits_found; assumption.
Qed.

End SenderPattern.

(** X9: a sender address is suspicious
    exactly when one of the texts temp-mail, throwaway and guerrillamail
    occurs in it, or it has an at-sign right after six or more digits. *)
Theorem suspicious_email_pattern_spec :
  forall (email : string),
    FraudDetector._suspicious_email_pattern email = true
    <-> (Notions.occurs "temp-mail" email
         \/ Notions.occurs "throwaway" email
         \/ Notions.occurs "guerrillamail" email
         \/ Notions.six_digits_before_at email).
Proof.
  intros email. unfold FraudDetector._suspicious_email_pattern.
  cbn [existsb]. rewrite <- !contains_occurs, <- six_digits_spec.
  destruct (Str.contains "temp-mail" email);
    destruct (Str.contains "throwaway" email);
    destruct (Str.contains "guerrillamail" email);
    destruct (Str.six_digits_at email 0); simpl; intuition congruence.
Qed.

(** ** The candidates of the duplicate check *)

Section Candidates.
Context {R : Runtime} {W : World}.

Import DuplicateDetector.

Lemma max_loop_In {A : Type} (key : A -> value) (rest : list A) :
  forall best r, max_loop key best rest = Ok r -> r = best \/ In r rest.
Proof.
  induction rest as [|x rest IH]; simpl; intros best r H.
  - left. inversion H. reflexivity.
  - bind_inv H. destruct (IH _ _ H) as [E|E]; [|right; right; exact E].
    destruct a; [right; left; symmetry; exact E|left; exact E].
Qed.

Lemma py_max_In {A : Type} (key : A -> value) (items : list A) (r : A) :
  py_max key items = Ok r -> In r items.
Proof.
  destruct items as [|x rest]; simpl; intros H; [discriminate H|].
  destruct (max_loop_In key rest x r H) as [E|E]; [left; symmetry; exact E|right; exact E].
Qed.

Lemma dict_mem_names_key (reg : dict) (cid : value) :
  dict_mem reg cid = true -> Notions.names_key reg cid.
Proof.
  unfold dict_mem, Notions.names_key.
  induction reg as [|[k v] reg IH]; simpl; [discriminate|].
  destruct (atom_eqb k cid) eqn:E.
  - intros _. exists k, v. split; [left; reflexivity|right; exact E].
  - intros H. destruct (IH H) as [k' [v' [Hin Hk]]].
    exists k', v'. split; [right; exact Hin|exact Hk].
Qed.

Lemma exact_candidate_weaken (kv : value * value) (items : dict) (m : MatchCandidate.t) :
  Notions.exact_candidate items m -> Notions.exact_candidate (kv :: items) m.
Proof.
  intros [H1 [[v H2] H3]]. split; [exact H1|]. split; [|exact H3].
  exists v. right. exact H2.
Qed.

Lemma fuzzy_candidate_weaken (kv : value * value) (items : dict) (m : MatchCandidate.t) :
  Notions.fuzzy_candidate items m -> Notions.fuzzy_candidate (kv :: items) m.
Proof.
  intros [H1 [[v H2] H3]]. split; [exact H1|]. split; [|exact H3].
  exists v. right. exact H2.
Qed.

Lemma exact_loop_candidates (fp : string) (items : dict) :
  forall acc out,
    exact_loop fp items acc = Ok out ->
    exists found, out = acc ++ found
                  /\ (List.length found <= List.length items)%nat
                  /\ Forall (Notions.exact_candidate items) found.
Proof.
  induction items as [|[k v] items IH]; simpl; intros acc out H.
  - injection H as <-. exists []. rewrite app_nil_r.
    split; [reflexivity|]. split; [simpl; lia|constructor].
  - bind_inv H. destruct (IH _ _ H) as [found [E [Hl HF]]].
    assert (HF' : Forall (Notions.exact_candidate ((k, v) :: items)) found).
    { eapply Forall_impl; [|exact HF]. intros m. apply exact_candidate_weaken. }
    destruct (String.eqb fp a).
    + exists (MatchCandidate.make k exact (VFloat 1.0)
                (VList [VStr "full_claim_fingerprint"]) :: found).
      split; [rewrite E, <- app_assoc; reflexivity|].
      split; [simpl; lia|]. constructor; [|exact HF'].
      split; [reflexivity|]. split; [|reflexivity].
      exists v. left. reflexivity.
    + exists found. split; [exact E|]. split; [simpl; lia|exact HF'].
Qed.

Lemma similarity_le_1 (x y : string) : _calculate_similarity x y <= 1.
Proof. unfold _calculate_similarity. apply ratio_range. Qed.

Lemma similar_loop_candidates (text : string) (items : dict) :
  forall acc out,
    similar_loop text items acc = Ok out ->
    exists found, out = acc ++ found
                  /\ (List.length found <= List.length items)%nat
                  /\ Forall (Notions.fuzzy_candidate items) found.
Proof.
  induction items as [|[k v] items IH]; simpl; intros acc out H.
  - injection H as <-. exists []. rewrite app_nil_r.
    split; [reflexivity|]. split; [simpl; lia|constructor].
  - bind_inv H. destruct (IH _ _ H) as [found [E [Hl HF]]].
    assert (HF' : Forall (Notions.fuzzy_candidate ((k, v) :: items)) found).
    { eapply Forall_impl; [|exact HF]. intros m. apply fuzzy_candidate_weaken. }
    destruct (Qgtb (_calculate_similarity text a) DUPLICATE_THRESHOLD) eqn:G.
    + exists (MatchCandidate.make k similar (VFloat (_calculate_similarity text a))
                (VList [VStr "claim_content"]) :: found).
      split; [rewrite E, <- app_assoc; reflexivity|].
      split; [simpl; lia|]. constructor; [|exact HF'].
      split; [reflexivity|]. split; [exists v; left; reflexivity|].
      eexists. split; [reflexivity|].
      split; [apply Qgtb_true; exact G|apply similarity_le_1].
    + exists found. split; [exact E|]. split; [simpl; lia|exact HF'].
Qed.

Lemma get_claim_text_total (d : dict) :
  exists t, _get_claim_text (VDict d) = Ok t.
Proof. unfold _get_claim_text. cbn [py_get bind]. eexists. reflexivity. Qed.

Lemma similar_loop_total (text : string) (items : dict) :
  Forall (fun kv => Notions.is_dict (snd kv) = true) items ->
  forall acc, exists out, similar_loop text items acc = Ok out.
Proof.
  induction 1 as [|[k v] items Hd _ IH]; intros acc; simpl.
  - eexists. reflexivity.
  - simpl in Hd. destruct v as [| | | | | |d]; try discriminate Hd.
    destruct (get_claim_text_total d) as [t Ht]. rewrite Ht. cbn [bind].
    apply IH.
Qed.

Lemma candidates_name_keys (reg : dict) (ex sim ai : list MatchCandidate.t) :
  Forall (Notions.exact_candidate reg) ex ->
  Forall (Notions.fuzzy_candidate reg) sim ->
  Forall (fun c => dict_mem reg (MatchCandidate.claim_id c) = true) ai ->
  forall m, In m (ex ++ sim ++ ai) ->
            Notions.names_key reg (MatchCandidate.claim_id m).
Proof.
  intros Hex Hsim Hai m Hin.
  rewrite Forall_forall in Hex, Hsim, Hai.
  apply in_app_or in Hin. destruct Hin as [Hin|Hin].
  - destruct (Hex m Hin) as [_ [[v Hv] _]].
    exists (MatchCandidate.claim_id m), v. split; [exact Hv|left; reflexivity].
  - apply in_app_or in Hin. destruct Hin as [Hin|Hin].
    + destruct (Hsim m Hin) as [_ [[v Hv] _]].
      exists (MatchCandidate.claim_id m), v. split; [exact Hv|left; reflexivity].
    + apply dict_mem_names_key, Hai, Hin.
Qed.

End Candidates.

(** X10: a verdict of [check_duplicate]
    carries a claim under duplicate_of exactly when it is a duplicate, and
    that claim is always one of the keys of the registry that was searched. *)
Theorem duplicate_of_names_registry_key :
  forall (R : Runtime) (W : World) (current_claim : value) (processed_claims : dict),
    let verdict := DuplicateDetector.check_duplicate current_claim processed_claims in
    match DuplicateVerdict.duplicate_of verdict with
    | Some claim_id =>
        DuplicateVerdict.is_duplicate verdict = true
        /\ Notions.names_key processed_claims claim_id
    | None => DuplicateVerdict.is_duplicate verdict = false
    end.
Proof.
  intros R W cur reg. cbv zeta. rewrite check_duplicate_cases.
  destruct reg as [|kv reg]; [reflexivity|].
  destruct (DuplicateDetector._check_exact_matches cur (kv :: reg)) as [ex|e] eqn:Hex;
    [|reflexivity].
  destruct (DuplicateDetector._check_similar_matches cur (kv :: reg)) as [sim|e] eqn:Hsim;
    [|reflexivity].
  unfold DuplicateDetector._check_exact_matches in Hex. bind_inv Hex.
  apply exact_loop_candidates in Hex. destruct Hex as [fex [-> [_ Fex]]].
  unfold DuplicateDetector._check_similar_matches in Hsim. bind_inv Hsim.
  apply similar_loop_candidates in Hsim. destruct Hsim as [fsim [-> [_ Fsim]]].
  cbn [app].
  pose proof (parse_ai_known
                (analyze_content
                   (DuplicateDetector._build_duplicate_prompt cur
                      (DuplicateDetector.sample_claims (kv :: reg)))) (kv :: reg)) as Fai.
  rewrite <- ai_check_unfold in Fai.
  pose proof (candidates_name_keys (kv :: reg) fex fsim _ Fex Fsim Fai) as Hall.
  unfold DuplicateDetector._combine_duplicate_results.
  destruct (fex ++ fsim ++ DuplicateDetector._ai_duplicate_check cur (kv :: reg))
    as [|x rest] eqn:El; [reflexivity|].
  destruct (py_max MatchCandidate.confidence (x :: rest)) as [best|e] eqn:Hm;
    [|reflexivity].
  cbn. split; [reflexivity|]. apply Hall. apply (py_max_In _ _ _ Hm).
Qed.

(** X11: when the incoming claim and every entry
    of the registry are dicts, whatever their fields hold, the fuzzy pass
    returns; it yields at most one candidate per entry, each of type
    similar, naming a key of the registry and carrying a similarity that is
    above the threshold and at most 1. *)
Theorem fuzzy_pass_total_on_dicts :
  forall (R : Runtime) (W : World) (current_claim : dict) (processed_claims : dict),
    Forall (fun kv => Notions.is_dict (snd kv) = true) processed_claims ->
    exists similar_matches,
      DuplicateDetector._check_similar_matches (VDict current_claim) processed_claims
      = Ok similar_matches
      /\ (List.length similar_matches <= List.length processed_claims)%nat
      /\ Forall (Notions.fuzzy_candidate processed_claims) similar_matches.
Proof.
  intros R W cur reg Hd. unfold DuplicateDetector._check_similar_matches.
  destruct (get_claim_text_total cur) as [t Ht]. rewrite Ht. cbn [bind].
  destruct (similar_loop_total t reg Hd []) as [out Hout].
  exists out. split; [exact Hout|].
  apply similar_loop_candidates in Hout. destruct Hout as [found [-> H]].
  exact H.
Qed.

(** [fuzzy_pass_total_on_dicts] on a registry that holds the claim itself *)
Lemma fuzzy_pass_total_on_dicts_witness :
  exists similar_matches,
    @DuplicateDetector._check_similar_matches Scenario.runtime Scenario.world
      (VDict Scenario.clm100_analysis) Scenario.registry_with_claim
    = Ok similar_matches
    /\ (List.length similar_matches <= 1)%nat.
Proof.
  destruct (@fuzzy_pass_total_on_dicts Scenario.runtime Scenario.world
              Scenario.clm100_analysis Scenario.registry_with_claim)
    as [l [H1 [H2 _]]].
  - repeat constructor.
  - exists l. split; [exact H1|exact H2].
Defined.

Section Fingerprints.
Context {R : Runtime}.

Lemma py_join_parts_cases (items : list value) :
  (forallb Notions.is_str items = true /\ exists ps, py_join_parts items = Ok ps)
  \/ (forallb Notions.is_str items = false /\ py_join_parts items = Raise TypeError).
Proof.
  induction items as [|v items IH]; [left; split; [reflexivity|eexists; reflexivity]|].
  destruct v; try (right; split; reflexivity).
  cbn [forallb Notions.is_str andb py_join_parts].
  destruct IH as [[H [ps E]]|[H E]]; rewrite E.
  - left. split; [exact H|]. eexists. reflexivity.
  - right. split; [exact H|reflexivity].
Qed.

Lemma fingerprint_cases (d : dict) :
  (Notions.key_fields_text d = true
   /\ exists fp, DuplicateDetector._create_claim_fingerprint (VDict d) = Ok fp)
  \/ (Notions.key_fields_text d = false
      /\ DuplicateDetector._create_claim_fingerprint (VDict d) = Raise TypeError).
Proof.
  unfold DuplicateDetector._create_claim_fingerprint, Notions.key_fields_text, py_join.
  cbn [py_get bind].
  match goal with
  | |- context [py_join_parts ?l] =>
      destruct (py_join_parts_cases l) as [[H [ps E]]|[H E]]; rewrite E;
      cbn [forallb Notions.is_str] in H
  end.
  - left. split; [|eexists; reflexivity].
    destruct (Notions.is_str (dict_get d "claim_number" (VStr ""))),
      (Notions.is_str (dict_get d "insured_party" (VStr ""))),
      (Notions.is_str (dict_get d "loss_date" (VStr ""))),
      (Notions.is_str (dict_get d "loss_location" (VStr "")));
      simpl in H |- *; congruence.
  - right. split; [|reflexivity].
    destruct (Notions.is_str (dict_get d "claim_number" (VStr ""))),
      (Notions.is_str (dict_get d "insured_party" (VStr ""))),
      (Notions.is_str (dict_get d "loss_date" (VStr ""))),
      (Notions.is_str (dict_get d "loss_location" (VStr "")));
      simpl in H |- *; congruence.
Qed.

End Fingerprints.

(** X12: when the claim number, the insured party, the loss date or the loss
    location of a dict claim (an absent one counting as the empty text) is
    not text, a JSON null or a number for instance, joining the key fields
    raises a TypeError: the claim has no fingerprint, and the duplicate check
    against any non-empty registry ends in the error verdict, which is not a
    duplicate.  A fingerprint is therefore only ever produced for a claim
    whose four fields are text. *)
Theorem fingerprint_needs_text_fields :
  forall (R : Runtime) (claim : dict),
    Notions.key_fields_text claim = false ->
    DuplicateDetector._create_claim_fingerprint (VDict claim) = Raise TypeError
    /\ (forall fingerprint,
          DuplicateDetector._create_claim_fingerprint (VDict claim)
          <> Ok fingerprint)
    /\ forall (W : World) (processed_claims : dict),
         processed_claims <> [] ->
         DuplicateDetector.check_duplicate (VDict claim) processed_claims
         = DuplicateDetector.error_verdict TypeError.
Proof.
  intros R d Hk.
  destruct (fingerprint_cases d) as [[H [fp E]]|[H E]]; [congruence|].
  split; [exact E|]. split; [rewrite E; discriminate|].
  intros W reg Hne. rewrite check_duplicate_cases.
  destruct reg as [|kv reg]; [congruence|].
  unfold DuplicateDetector._check_exact_matches. rewrite E. reflexivity.
Qed.

(** [fingerprint_needs_text_fields] for an analysis whose loss date came back
    as JSON [null], checked against a registry that holds the same claim *)
Lemma fingerprint_needs_text_fields_witness :
  DuplicateVerdict.is_duplicate
    (@DuplicateDetector.check_duplicate Scenario.runtime Scenario.world
       (VDict Scenario.null_date_analysis) Scenario.registry_with_claim)
  = false.
Proof.
  rewrite (proj2 (proj2 (@fingerprint_needs_text_fields Scenario.runtime
                           Scenario.null_date_analysis eq_refl))
             Scenario.world Scenario.registry_with_claim).
  - reflexivity.
  - discriminate.
Defined.

Section Confidences.
Context {R : Runtime} {W : World}.

Import DuplicateDetector.

Lemma py_gt_not_a_number (x y : value) (q : Q) :
  as_number x = None -> as_number y = Some q -> py_gt x y = Raise TypeError.
Proof.
  destruct x; simpl; intros Hx; try discriminate Hx;
    destruct y; simpl; intros Hy; try discriminate Hy; reflexivity.
Qed.

Lemma max_loop_not_a_number (pre : list MatchCandidate.t) :
  forall (best x : MatchCandidate.t) (post : list MatchCandidate.t),
    Spec.numeric best -> Forall Spec.numeric pre ->
    as_number (MatchCandidate.confidence x) = None ->
    max_loop MatchCandidate.confidence best (pre ++ x :: post) = Raise TypeError.
Proof.
  induction pre as [|p pre IH]; intros best x post Hb Hpre Hx; cbn [app max_loop].
  - rewrite (py_gt_not_a_number _ _ _ Hx (numeric_conf best Hb)). reflexivity.
  - inversion Hpre as [|p' pre' Hp Hrest]; subst.
    rewrite (py_gt_numbers _ _ _ _ (numeric_conf p Hp) (numeric_conf best Hb)).
    cbn [bind]. destruct (Qgtb (Spec.conf p) (Spec.conf best)); apply IH; assumption.
Qed.

Lemma first_not_a_number (l : list MatchCandidate.t) :
  Exists (fun m => as_number (MatchCandidate.confidence m) = None) l ->
  exists pre x post,
    l = pre ++ x :: post /\ Forall Spec.numeric pre
    /\ as_number (MatchCandidate.confidence x) = None.
Proof.
  induction l as [|m l IH]; intros H; [inversion H|].
  destruct (as_number (MatchCandidate.confidence m)) as [q|] eqn:E.
  - inversion H as [? ? Hm|? ? Hl]; subst; [congruence|].
    destruct (IH Hl) as [pre [x [post [El [Hpre Hx]]]]].
    exists (m :: pre), x, post. split; [rewrite El; reflexivity|].
    split; [|exact Hx]. constructor; [|exact Hpre].
    unfold Spec.numeric. rewrite E. discriminate.
  - exists [], m, l. split; [reflexivity|]. split; [constructor|exact E].
Qed.

Lemma combine_not_a_number (found ai : list MatchCandidate.t) (ex sim : list MatchCandidate.t) :
  found = ex ++ sim -> found <> [] -> Forall Spec.numeric found ->
  Exists (fun m => as_number (MatchCandidate.confidence m) = None) ai ->
  _combine_duplicate_results ex sim ai = Raise TypeError.
Proof.
  intros E Hne Hnum Hai. unfold _combine_duplicate_results.
  rewrite app_assoc, <- E.
  destruct (first_not_a_number ai Hai) as [pre [x [post [-> [Hpre Hx]]]]].
  destruct found as [|b found]; [congruence|].
  cbn [app py_max]. inversion Hnum as [|b' f' Hb Hf]; subst b' f'.
  rewrite app_assoc.
  rewrite (max_loop_not_a_number (found ++ pre) b x post Hb); [reflexivity| |exact Hx].
  apply Forall_app. split; assumption.
Qed.

End Confidences.

(** X13: when the exact or the fuzzy pass has
    found a candidate and the AI pass returns a candidate whose confidence is
    not a number (a word such as high, for instance), choosing the best
    candidate raises a TypeError and [check_duplicate] returns the error
    verdict: the claim is reported as not a duplicate. *)
Theorem text_confidence_hides_match :
  forall (R : Runtime) (W : World) (current_claim : value) (processed_claims : dict)
         (exact_matches similar_matches : list MatchCandidate.t),
    DuplicateDetector._check_exact_matches current_claim processed_claims
    = Ok exact_matches ->
    DuplicateDetector._check_similar_matches current_claim processed_claims
    = Ok similar_matches ->
    exact_matches ++ similar_matches <> [] ->
    Exists (fun m => as_number (MatchCandidate.confidence m) = None)
           (DuplicateDetector._ai_duplicate_check current_claim processed_claims) ->
    DuplicateDetector.check_duplicate current_claim processed_claims
    = DuplicateDetector.error_verdict TypeError.
Proof.
  intros R W cur reg ex sim Hex Hsim Hne Hai.
  pose proof (exact_matches_numeric _ _ _ Hex) as Nex.
  pose proof (similar_matches_numeric _ _ _ Hsim) as Nsim.
  rewrite check_duplicate_cases.
  destruct reg as [|kv reg].
  - exfalso. apply Hne.
    unfold DuplicateDetector._check_exact_matches in Hex. bind_inv Hex.
    unfold DuplicateDetector._check_similar_matches in Hsim. bind_inv Hsim.
    simpl in Hex, Hsim. injection Hex as <-. injection Hsim as <-. reflexivity.
  - rewrite Hex, Hsim.
    rewrite (combine_not_a_number (ex ++ sim) _ ex sim eq_refl Hne); [reflexivity| |exact Hai].
    apply Forall_app. split; assumption.
Qed.

(** [text_confidence_hides_match] for a claim whose fingerprint is in the
    registry *)
Lemma text_confidence_hides_match_witness :
  (exists m,
      @DuplicateDetector._check_exact_matches WordyScenario.runtime
        (VDict Scenario.clm100_analysis) Scenario.registry_with_claim = Ok [m])
  /\ DuplicateVerdict.is_duplicate
       (@DuplicateDetector.check_duplicate WordyScenario.runtime WordyScenario.world
          (VDict Scenario.clm100_analysis) Scenario.registry_with_claim)
     = false.
Proof.
  split; [eexists; vm_compute; reflexivity|].
  rewrite (@text_confidence_hides_match WordyScenario.runtime WordyScenario.world
             (VDict Scenario.clm100_analysis) Scenario.registry_with_claim
             [MatchCandidate.make (VStr "CLM-100") exact (VFloat 1.0)
                (VList [VStr "full_claim_fingerprint"])]
             [MatchCandidate.make (VStr "CLM-100") similar (VFloat (162 # 162))
                (VList [VStr "claim_content"])]).
  - reflexivity.
  - vm_compute. reflexivity.
  - vm_compute. reflexivity.
  - discriminate.
  - vm_compute. constructor. reflexivity.
Defined.

(** ** The text passes on a registry written by the pipeline *)

Section BlindPasses.
Context {R : Runtime} {W : World}.

Lemma ratio_one_char (c : ascii) :
  c <> "0"%char -> Difflib.ratio (String c "") "0" == 0.
Proof.
  intros H.
  destruct c as [[] [] [] [] [] [] [] []];
    try (exfalso; apply H; reflexivity); vm_compute; reflexivity.
Qed.

Lemma ratio_against_one_char (x y : string) :
  String.length y = 1%nat -> (2 <= String.length x)%nat ->
  Difflib.ratio x y <= 2 # 3.
Proof.
  intros Hy Hx. unfold Difflib.ratio.
  destruct (get_matching_blocks_total (list_ascii_of_string x)
                                      (list_ascii_of_string y))
    as [bl [Hbl [_ Hb]]].
  rewrite Hbl.
  assert (La : List.length (list_ascii_of_string x) = String.length x).
  { clear. induction x as [|c x IH]; simpl; [reflexivity|]. rewrite IH. reflexivity. }
  assert (Lb : List.length (list_ascii_of_string y) = String.length y).
  { clear. induction y as [|c y IH]; simpl; [reflexivity|]. rewrite IH. reflexivity. }
  rewrite La, Lb, Hy in *.
  unfold Difflib.calculate_ratio.
  destruct (String.length x + 1 =? 0)%nat eqn:E;
    [apply Nat.eqb_eq in E; lia|].
  unfold Qle. cbn [Qnum Qden]. rewrite Zpos_of_nat by lia. lia.
Qed.

Lemma similarity_with_zero_text (t : string) :
  Str.lower t <> "0"%string ->
  DuplicateDetector._calculate_similarity t "0" <= 2 # 3.
Proof.
  intros H. unfold DuplicateDetector._calculate_similarity.
  change (Str.lower "0") with "0"%string.
  destruct (Str.lower t) as [|c [|d rest]] eqn:E.
  - vm_compute. discriminate.
  - assert (Hc : c <> "0"%char) by (intros ->; apply H; reflexivity).
    rewrite (ratio_one_char c Hc). discriminate.
  - apply ratio_against_one_char; [reflexivity|simpl; lia].
Qed.

Lemma similar_loop_blind (t : string) (reg : dict) :
  Notions.pipeline_written reg ->
  2 # 3 <= DUPLICATE_THRESHOLD ->
  Str.lower t <> "0"%string ->
  forall acc, DuplicateDetector.similar_loop t reg acc = Ok acc.
Proof.
  intros Hreg Hthr Ht.
  induction Hreg as [|[k v] reg [result [analysis Hv]] _ IH];
    intros acc; [reflexivity|].
  simpl in Hv. subst v. cbn [DuplicateDetector.similar_loop].
  rewrite (proj2 (registry_entry_fingerprint result analysis)). cbn [bind].
  destruct (Qgtb (DuplicateDetector._calculate_similarity t "0")
                 DUPLICATE_THRESHOLD) eqn:G; [|apply IH].
  apply Qgtb_true in G. exfalso.
  apply (Qlt_irrefl DUPLICATE_THRESHOLD).
  eapply Qlt_le_trans; [exact G|].
  eapply Qle_trans; [apply similarity_with_zero_text; exact Ht|exact Hthr].
Qed.

Lemma parse_loop_kind (items : list value) (reg : dict) :
  forall acc out,
    Forall (fun c => MatchCandidate.match_type c = ai_detected) acc ->
    DuplicateDetector.parse_loop items reg acc = Ok out ->
    Forall (fun c => MatchCandidate.match_type c = ai_detected) out.
Proof.
  induction items as [|m items IH]; simpl; intros acc out Hacc H.
  - injection H as <-. exact Hacc.
  - repeat bind_inv H. destruct a0.
    + repeat bind_inv H. eapply IH; [|exact H].
      apply Forall_app. split; [exact Hacc|]. constructor; [reflexivity|constructor].
    + eapply IH; [exact Hacc|exact H].
Qed.

Lemma ai_check_kind (cur : value) (reg : dict) :
  Forall (fun c => MatchCandidate.match_type c = ai_detected)
         (DuplicateDetector._ai_duplicate_check cur reg).
Proof.
  rewrite ai_check_unfold. unfold DuplicateDetector._parse_ai_duplicate_result.
  destruct (DuplicateDetector.parse_ai_body _ reg) as [out|e] eqn:E; [|constructor].
  unfold DuplicateDetector.parse_ai_body in E. repeat bind_inv E.
  eapply parse_loop_kind; [constructor|exact E].
Qed.

End BlindPasses.

Section WrittenRegistry.
Context {R : Runtime} {W : World} {C : Collaborators}.

Lemma dict_set_written (reg : dict) (k : value) (result : ProcessingResult.t)
      (analysis : dict) :
  Notions.pipeline_written reg ->
  Notions.pipeline_written
    (dict_set reg k (Pipeline.registry_entry result analysis)).
Proof.
  unfold Notions.pipeline_written.
  induction 1 as [|[k' v'] reg Hv Htl IH]; simpl.
  - constructor; [|constructor]. exists result, analysis. reflexivity.
  - destruct (atom_eqb k' k).
    + constructor; [|assumption]. exists result, analysis. reflexivity.
    + constructor; assumption.
Qed.

Lemma process_single_claim_written (email_data : EmailData.t) (st : Pipeline.state) :
  Notions.pipeline_written (Pipeline.processed_claims st) ->
  Notions.pipeline_written
    (Pipeline.processed_claims (snd (Pipeline.process_single_claim email_data st))).
Proof.
  unfold Pipeline.process_single_claim. rewrite process_body_cases.
  destruct (generate_claim_report _) as [path|e]; [|simpl; auto].
  cbv zeta.
  destruct (DuplicateVerdict.is_duplicate (Pipeline.verdict_of email_data st));
    [simpl; auto|].
  destruct (py_setitem _ _ _) as [d|e] eqn:Hs; [|simpl; auto].
  apply py_setitem_Ok in Hs. destruct Hs as [_ Hs]. subst d. simpl.
  apply dict_set_written.
Qed.

Lemma process_all_written (emails : list EmailData.t) :
  forall st, Notions.pipeline_written (Pipeline.processed_claims st) ->
             Notions.pipeline_written
               (Pipeline.processed_claims (snd (Batch.process_all emails st))).
Proof.
  induction emails as [|e emails IH]; intros st H; [exact H|].
  cbn [Batch.process_all].
  pose proof (process_single_claim_written e st H) as H1.
  destruct (Pipeline.process_single_claim e st) as [r st1]. cbn [snd] in H1.
  specialize (IH st1 H1).
  destruct (Batch.process_all emails st1) as [rs st2]. exact IH.
Qed.

End WrittenRegistry.

(** X14: take a registry that holds only
    entries written by the pipeline (an empty one, for instance), run the
    pipeline over any list of e-mails, and check a claim against the registry
    that results.  With a threshold of at least 2/3, if the text of the claim
    is not the text "0" of an entry without fields and its fingerprint is not
    the one of the defaults, then the exact pass and the fuzzy pass both
    return no candidate, and a verdict that is a duplicate can only be of
    type ai_detected. *)
Theorem only_ai_pass_sees_pipeline_entries :
  forall (R : Runtime) (W : World) (C : Collaborators)
         (emails : list EmailData.t) (st : Pipeline.state)
         (current_claim : value) (text fingerprint : string),
    Notions.pipeline_written (Pipeline.processed_claims st) ->
    2 # 3 <= DUPLICATE_THRESHOLD ->
    DuplicateDetector._get_claim_text current_claim = Ok text ->
    Str.lower text <> "0"%string ->
    DuplicateDetector._create_claim_fingerprint current_claim = Ok fingerprint ->
    fingerprint <> MD5.hexdigest "||0||" ->
    let registry := Pipeline.processed_claims (snd (Batch.process_all emails st)) in
    let verdict := DuplicateDetector.check_duplicate current_claim registry in
    Notions.pipeline_written registry
    /\ DuplicateDetector._check_exact_matches current_claim registry = Ok []
    /\ DuplicateDetector._check_similar_matches current_claim registry = Ok []
    /\ (DuplicateVerdict.is_duplicate verdict = true ->
        DuplicateVerdict.match_type verdict = Some ai_detected).
Proof.
  intros R W C emails st cur t fp Hst Hthr Ht Ht0 Hfp Hfp0 registry verdict.
  pose proof (process_all_written emails st Hst) as Hreg. fold registry in Hreg.
  assert (Hex : DuplicateDetector._check_exact_matches cur registry = Ok []).
  { apply (exact_pass_blind_to_pipeline_entries cur registry fp); assumption. }
  assert (Hsim : DuplicateDetector._check_similar_matches cur registry = Ok []).
  { unfold DuplicateDetector._check_similar_matches. rewrite Ht. cbn [bind].
    apply similar_loop_blind; assumption. }
  split; [exact Hreg|]. split; [exact Hex|]. split; [exact Hsim|].
  unfold verdict. rewrite check_duplicate_cases.
  destruct registry as [|kv reg]; [intros H; discriminate H|].
  rewrite Hex, Hsim.
  pose proof (ai_check_kind cur (kv :: reg)) as Hk.
  unfold DuplicateDetector._combine_duplicate_results. cbn [app].
  destruct (DuplicateDetector._ai_duplicate_check cur (kv :: reg)) as [|x rest] eqn:E;
    [intros H; discriminate H|].
  destruct (py_max MatchCandidate.confidence (x :: rest)) as [best|e] eqn:Hm;
    [|intros H; discriminate H].
  intros _. cbn. f_equal.
  rewrite Forall_forall in Hk. apply Hk. apply (py_max_In _ _ _ Hm).
Qed.

(** [only_ai_pass_sees_pipeline_entries] for the claim CLM-100 checked again
    after it was processed once *)
Lemma only_ai_pass_sees_pipeline_entries_witness :
  @DuplicateDetector._check_exact_matches Scenario.runtime
    (VDict Scenario.clm100_analysis)
    (Pipeline.processed_claims
       (snd (@Batch.process_all Scenario.runtime Scenario.world
               Scenario.collaborators [Scenario.first_email] Scenario.fresh)))
  = Ok []
  /\ dict_mem
       (Pipeline.processed_claims
          (snd (@Batch.process_all Scenario.runtime Scenario.world
                  Scenario.collaborators [Scenario.first_email] Scenario.fresh)))
       (VStr "CLM-100") = true.
Proof.
  split; [|vm_compute; reflexivity].
  refine (proj1 (proj2 (@only_ai_pass_sees_pipeline_entries
            Scenario.runtime Scenario.world Scenario.collaborators
            [Scenario.first_email] Scenario.fresh
            (VDict Scenario.clm100_analysis)
            "CLM-100 Acme Shipping Ltd Container damaged during unloading Port of Mombasa 5000"
            (MD5.hexdigest "CLM-100|Acme Shipping Ltd|5000|2024-01-15|Port of Mombasa")
            _ _ _ _ _ _))).
  - constructor.
  - vm_compute. discriminate.
  - vm_compute. reflexivity.
  - vm_compute. discriminate.
  - vm_compute. reflexivity.
  - vm_compute. discriminate.
Defined.

(** ** The claim number read from a text reply *)

Section ClaimNumbers.

Lemma chars_app (x y : string) :
  list_ascii_of_string (x ++ y)
  = list_ascii_of_string x ++ list_ascii_of_string y.
Proof. induction x as [|c x IH]; simpl; [reflexivity|]. rewrite IH. reflexivity. Qed.

Lemma take_while_all (p : ascii -> bool) (s : string) :
  Forall (fun c => p c = true) (list_ascii_of_string (Re.take_while p s)).
Proof.
  induction s as [|c s IH]; simpl; [constructor|].
  destruct (p c) eqn:E; simpl; [constructor; assumption|constructor].
Qed.

Lemma group_plus_shape (s g : string) :
  Re.group_plus Re.claim_class s = Some g -> Notions.claim_number_shape g.
Proof.
  unfold Re.group_plus. pose proof (take_while_all Re.claim_class s) as H.
  destruct (Re.take_while Re.claim_class s) as [|c r]; intros E; [discriminate E|].
  injection E as <-. split; [discriminate|exact H].
Qed.

Lemma search_inv (at_start : string -> option string) (s g : string) :
  Re.search at_start s = Some g -> exists s', at_start s' = Some g.
Proof.
  induction s as [|c s IH]; cbn [Re.search].
  - destruct (at_start "") eqn:E; intros H; [|discriminate H].
    injection H as <-. exists ""%string. exact E.
  - destruct (at_start (String c s)) eqn:E; intros H.
    + injection H as <-. exists (String c s). exact E.
    + apply IH. exact H.
Qed.

Lemma opt_bind_inv {A B : Type} (m : option A) (f : A -> option B) (b : B) :
  Re.opt_bind m f = Some b -> exists a, m = Some a /\ f a = Some b.
Proof. destruct m as [a|]; simpl; intros H; [exists a; auto|discriminate H]. Qed.

Lemma alpha_class (c : ascii) : Re.is_alpha c = true -> Re.claim_class c = true.
Proof. unfold Re.claim_class. intros ->. reflexivity. Qed.

Lemma digit_class (c : ascii) : Str.is_digit c = true -> Re.claim_class c = true.
Proof.
  unfold Re.claim_class. intros ->. rewrite orb_true_r. reflexivity.
Qed.

Lemma hash_at_shape (s g : string) :
  Re.hash_at s = Some g -> Notions.claim_number_shape g.
Proof.
  unfold Re.hash_at. destruct s as [|c r]; [discriminate|].
  destruct (Ascii.eqb c "#"); [|discriminate]. cbv zeta.
  pose proof (take_while_all Re.is_alpha r) as Hl.
  pose proof (take_while_all Str.is_digit (Re.skip_while Re.is_alpha r)) as Hd.
  destruct ((String.length (Re.take_while Re.is_alpha r) =? 2)%nat
            || (String.length (Re.take_while Re.is_alpha r) =? 3)%nat) eqn:L;
    [|discriminate].
  destruct (5 <=? String.length
                    (Re.take_while Str.is_digit (Re.skip_while Re.is_alpha r)))%nat;
    [|discriminate].
  intros E. injection E as <-. split.
  - destruct (Re.take_while Re.is_alpha r); [simpl in L; discriminate L|discriminate].
  - rewrite chars_app. apply Forall_app. split.
    + eapply Forall_impl; [|exact Hl]. apply alpha_class.
    + eapply Forall_impl; [|exact Hd]. apply digit_class.
Qed.

Lemma uint_digits (u : Decimal.uint) :
  Forall (fun c => Str.is_digit c = true)
         (list_ascii_of_string (NilEmpty.string_of_uint u)).
Proof. induction u; simpl; constructor; (reflexivity || assumption). Qed.

Lemma string_of_Z_digits (n : Z) :
  (0 <= n)%Z ->
  Forall (fun c => Str.is_digit c = true) (list_ascii_of_string (string_of_Z n)).
Proof.
  intros H. unfold string_of_Z. destruct n as [|p|p]; [| |lia].
  - simpl. constructor; [reflexivity|constructor].
  - cbn [Z.to_int NilZero.string_of_int]. unfold NilZero.string_of_uint.
    destruct (Pos.to_uint p) eqn:E; try rewrite <- E; try apply uint_digits.
    simpl. constructor; [reflexivity|constructor].
Qed.

Lemma zeros_digits (k : nat) :
  Forall (fun c => Str.is_digit c = true)
         (list_ascii_of_string (Str.join "" (repeat "0"%string k))).
Proof.
  induction k as [|k IH]; [constructor|].
  cbn [repeat]. destruct k as [|k].
  - simpl. constructor; [reflexivity|constructor].
  - change (Str.join "" ("0"%string :: repeat "0"%string (S k)))
      with ("0" ++ "" ++ Str.join "" (repeat "0"%string (S k)))%string.
    simpl. constructor; [reflexivity|exact IH].
Qed.

Lemma format_05d_digits (n : Z) :
  (0 <= n)%Z ->
  Forall (fun c => Str.is_digit c = true)
         (list_ascii_of_string (ClaimsAnalyzer.format_05d n)).
Proof.
  intros H. unfold ClaimsAnalyzer.format_05d. cbv zeta.
  rewrite chars_app. apply Forall_app. split.
  - apply zeros_digits.
  - apply string_of_Z_digits. exact H.
Qed.

Lemma prefix_number_head (u r : string) :
  Re.prefix_ci "Number" u = Some r ->
  exists c rest, u = String c rest
                 /\ Re.claim_class c = true /\ Re.colon_or_space c = false
                 /\ Str.is_space c = false.
Proof.
  destruct u as [|c rest]; cbn [Re.prefix_ci]; [discriminate|].
  destruct (Re.eq_ci c "N") eqn:E; [|discriminate].
  intros _. exists c, rest. split; [reflexivity|].
  destruct c as [[] [] [] [] [] [] [] []];
    try discriminate E; repeat split; reflexivity.
Qed.

Lemma skip_spaces_then_letter (r : string) (c : ascii) (rest : string) :
  Re.skip_while Str.is_space r = String c rest ->
  Re.colon_or_space c = false ->
  Re.skip_while Re.colon_or_space r = String c rest.
Proof.
  induction r as [|d r IH]; cbn [Re.skip_while]; [discriminate|].
  intros H Hc. destruct (Str.is_space d) eqn:S.
  - replace (Re.colon_or_space d) with true
      by (unfold Re.colon_or_space; rewrite S; symmetry; apply orb_true_r).
    apply IH; assumption.
  - injection H as -> ->. rewrite Hc. reflexivity.
Qed.

Lemma claim_number_at_implies_claim_at (s g : string) :
  Re.claim_number_at s = Some g -> exists g', Re.claim_at s = Some g'.
Proof.
  unfold Re.claim_number_at, Re.claim_at. intros H.
  apply opt_bind_inv in H. destruct H as [r [Hr H]].
  apply opt_bind_inv in H. destruct H as [r' [Hn _]].
  rewrite Hr. cbn [Re.opt_bind].
  destruct (prefix_number_head _ _ Hn) as [c [rest [Eu [Hc [Hcs _]]]]].
  rewrite (skip_spaces_then_letter r c rest Eu Hcs).
  unfold Re.group_plus. cbn [Re.take_while]. rewrite Hc. eexists. reflexivity.
Qed.

Lemma search_implies (p q : string -> option string) :
  (forall s g, p s = Some g -> exists g', q s = Some g') ->
  forall s, Re.search q s = None -> Re.search p s = None.
Proof.
  intros Hpq s. induction s as [|c s IH]; cbn [Re.search].
  - destruct (q "") eqn:Eq; [discriminate|]. intros _.
    destruct (p "") eqn:Ep; [|reflexivity].
    destruct (Hpq _ _ Ep) as [g' Hg]. congruence.
  - destruct (q (String c s)) eqn:Eq; [discriminate|]. intros H.
    destruct (p (String c s)) eqn:Ep.
    + destruct (Hpq _ _ Ep) as [g' Hg]. congruence.
    + apply IH. exact H.
Qed.

End ClaimNumbers.

(** X15: the second of the four patterns of
    [_extract_claim_number] never yields the result: wherever it matches,
    the first pattern matches too and is tried before it, so the function
    returns what it would return without the second pattern.  A reply that
    reads Claim Number: CLM-100 therefore gives the claim number Number. *)
Theorem second_pattern_never_decides :
  forall (A : AnalyzerEnv) (text : string),
    (Re.search Re.claim_at text = None ->
     Re.search Re.claim_number_at text = None)
    /\ ClaimsAnalyzer._extract_claim_number text
       = match Re.search Re.claim_at text with
         | Some g => g
         | None =>
             match Re.search Re.clm_at text with
             | Some g => g
             | None =>
                 match Re.search Re.hash_at text with
                 | Some g => g
                 | None =>
                     ("CLM-" ++ ClaimsAnalyzer.format_05d (py_hash text mod 100000))%string
                 end
             end
         end
    /\ ClaimsAnalyzer._extract_claim_number "Claim Number: CLM-100" = "Number"%string.
Proof.
  intros A text.
  pose proof (search_implies Re.claim_number_at Re.claim_at
                claim_number_at_implies_claim_at text) as H.
  split; [exact H|]. split; [|vm_compute; reflexivity].
  unfold ClaimsAnalyzer._extract_claim_number.
  destruct (Re.search Re.claim_at text) as [g|]; [reflexivity|].
  rewrite (H eq_refl). reflexivity.
Qed.

(** X16: the claim number that
    [_extract_claim_number] returns is never empty and consists of letters,
    digits and hyphens only, whatever the text and the value of its hash
    are. *)
Theorem extracted_claim_number_shape :
  forall (A : AnalyzerEnv) (text : string),
    Notions.claim_number_shape (ClaimsAnalyzer._extract_claim_number text).
Proof.
  intros A text. unfold ClaimsAnalyzer._extract_claim_number.
  destruct (Re.search Re.claim_at text) as [g|] eqn:E1.
  { apply search_inv in E1. destruct E1 as [s' E1]. unfold Re.claim_at in E1.
    apply opt_bind_inv in E1. destruct E1 as [r [_ E1]].
    exact (group_plus_shape _ _ E1). }
  destruct (Re.search Re.claim_number_at text) as [g|] eqn:E2.
  { apply search_inv in E2. destruct E2 as [s' E2]. unfold Re.claim_number_at in E2.
    apply opt_bind_inv in E2. destruct E2 as [r [_ E2]].
    apply opt_bind_inv in E2. destruct E2 as [r' [_ E2]].
    exact (group_plus_shape _ _ E2). }
  destruct (Re.search Re.clm_at text) as [g|] eqn:E3.
  { apply search_inv in E3. destruct E3 as [s' E3]. unfold Re.clm_at in E3.
    apply opt_bind_inv in E3. destruct E3 as [r [_ E3]].
    exact (group_plus_shape _ _ E3). }
  destruct (Re.search Re.hash_at text) as [g|] eqn:E4.
  { apply search_inv in E4. destruct E4 as [s' E4].
    exact (hash_at_shape _ _ E4). }
  split; [discriminate|].
  rewrite chars_app. apply Forall_app. split.
  - repeat constructor.
  - eapply Forall_impl; [apply digit_class|].
    apply format_05d_digits. apply Z.mod_pos_bound. reflexivity.
Qed.

(** ** The analysis handed to the detectors *)

Section Analyses.
Context {R : Runtime} {W : World} {A : AnalyzerEnv}.

Lemma set_key_inv (x : value) (key : string) (v y : value) :
  ClaimsAnalyzer.set_key x key v = Ok y ->
  exists d, x = VDict d /\ y = VDict (dict_set d (VStr key) v).
Proof.
  destruct x; simpl; intros H; try discriminate H.
  injection H as <-. eexists. split; reflexivity.
Qed.

Lemma dict_get_set_same (d : dict) (key : string) (v default : value) :
  dict_get (dict_set d (VStr key) v) key default = v.
Proof. unfold dict_get. rewrite dict_lookup_set_same; reflexivity. Qed.

Lemma dict_get_set_other (d : dict) (key key' : string) (v default : value) :
  String.eqb key key' = false ->
  dict_get (dict_set d (VStr key) v) key' default = dict_get d key' default.
Proof.
  intros H. unfold dict_get. rewrite dict_lookup_set_other; [reflexivity|exact H].
Qed.

End Analyses.

(** X17: [analyze_claim] never raises and always
    returns a dict, whatever the hosted model replies (a JSON list or number
    included).  The dict is either the default analysis or carries the sender
    of the e-mail under source_email and the date of the e-mail under
    analysis_timestamp, overwriting what the reply may have put there. *)
Theorem analyze_claim_returns_dict :
  forall (R : Runtime) (W : World) (A : AnalyzerEnv)
         (claim_text : string) (email_data : EmailData.t) (attachments : nat),
    exists analysis,
      ClaimsAnalyzer.analyze_claim claim_text email_data attachments
      = VDict analysis
      /\ (analysis = ClaimsAnalyzer._get_default_analysis
          \/ (dict_get analysis "source_email" VNone
              = VStr (EmailData.sender_email email_data)
              /\ dict_get analysis "analysis_timestamp" VNone
                 = VStr (EmailData.date email_data))).
Proof.
  intros R W A claim_text email_data n. unfold ClaimsAnalyzer.analyze_claim.
  cbv zeta.
  match goal with
  | |- context [ClaimsAnalyzer._parse_analysis_result ?t ?c] =>
      destruct (ClaimsAnalyzer._parse_analysis_result t c) as [v|e] eqn:E
  end; cbn [try_except].
  2: { eexists. split; [reflexivity|left; reflexivity]. }
  unfold ClaimsAnalyzer._parse_analysis_result in E.
  destruct (ClaimsAnalyzer.json_text _) as [json_str|e]; [|discriminate E].
  destruct (json_loads json_str) as [data|e].
  - bind_inv E. bind_inv E.
    apply set_key_inv in Ha. destruct Ha as [d0 [-> ->]].
    apply set_key_inv in Ha0. destruct Ha0 as [d1 [Ed ->]].
    injection Ed as <-.
    apply set_key_inv in E. destruct E as [d2 [Ed ->]]. injection Ed as <-.
    eexists. split; [reflexivity|]. right.
    cbn [AnalysisContext.sender_email AnalysisContext.email_date].
    split.
    + rewrite dict_get_set_other by reflexivity. apply dict_get_set_same.
    + rewrite !dict_get_set_other by reflexivity. apply dict_get_set_same.
  - destruct e; try discriminate E. injection E as <-.
    eexists. split; [reflexivity|]. right. split; reflexivity.
Qed.

Section Degraded.
Context {R : Runtime} {W : World}.

Lemma unparsed_body (c : value) (e : EmailData.t) (s : Q) :
  FraudDetector._rule_based_fraud_detection c e = Ok s ->
  Notions.ai_reply_unparsed (analyze_content (FraudDetector.fraud_prompt c e)) ->
  exists a,
    FraudDetector.detect_fraud_body c e = Ok a
    /\ FraudAssessment.fraud_score a = FraudDetector.py_min (0.5 * 0.6 + s * 0.4) 1.0
    /\ FraudAssessment.rule_based_score a = s.
Proof.
  intros Hrule Hu.
  assert (Hflags : exists amount high,
             py_get c "claim_amount" (VInt 0) = Ok amount
             /\ py_gt amount (VInt 1000000) = Ok high).
  { unfold FraudDetector._rule_based_fraud_detection in Hrule.
    bind_inv Hrule. bind_inv Hrule. eauto. }
  destruct Hflags as [amount [high [Hamount Hhigh]]].
  unfold FraudDetector.detect_fraud_body. rewrite Hrule. cbn [bind].
  unfold FraudDetector._ai_based_fraud_detection. cbn [try_except].
  destruct (unparsed_reply_analysis _ Hu) as [i [r Hp]]. rewrite Hp.
  set (reply := analyze_content (FraudDetector.fraud_prompt c e)).
  unfold FraudDetector._combine_fraud_scores.
  change (dict_get _ "confidence" (VFloat 0.5)) with (VFloat 0.5).
  cbn [py_mul_float as_number bind].
  unfold FraudDetector._extract_red_flags. rewrite Hamount. cbn [bind].
  rewrite Hhigh. cbn [bind].
  change (dict_get _ "fraud_indicators" (VList [])) with (VList [VStr i]).
  cbn [py_iter bind].
  unfold FraudDetector._generate_fraud_recommendations.
  change (dict_get _ "recommendations" (VList [])) with (VList [VStr r]).
  cbn [py_iter bind]. unfold FraudDetector.py_list_set.
  destruct (Qgtb _ FRAUD_THRESHOLD); [|destruct (Qgtb _ 0.5)];
    cbn [app forallb hashable andb bind]; eexists; repeat split.
Qed.

Lemma degraded_rule_score (d : dict) (e : EmailData.t) :
  dict_get d "claim_amount" (VInt 0) = VFloat 0.0 ->
  dict_get d "loss_date" (VStr "") = VStr "Unknown" ->
  dict_get d "loss_location" (VStr "") = VStr "Unknown" ->
  exists s, FraudDetector._rule_based_fraud_detection (VDict d) e = Ok s
            /\ 0.3 <= s /\ s <= 0.6.
Proof.
  intros H1 H2 H3. unfold FraudDetector._rule_based_fraud_detection.
  cbn [py_get bind]. rewrite H1, H2, H3.
  change (py_gt (VFloat 0.0) (VInt 1000000)) with (Ok false).
  change (FraudDetector._suspicious_date_pattern (VStr "Unknown")) with (Ok true).
  cbn [bind py_lower].
  change (existsb (fun pattern => Str.contains pattern (Str.lower "Unknown"))
                  ["unknown"; "tbd"; "n/a"]%string) with true.
  cbv iota.
  eexists. split; [reflexivity|].
  destruct (FraudDetector._suspicious_email_pattern _);
    destruct (existsb _ _); vm_compute; split; discriminate.
Qed.

End Degraded.

(** X18: when the analysis is the text
    analysis built from an undecodable reply, or the default analysis, and
    the reply to the fraud prompt cannot be parsed either (both happen when
    the hosted model is unreachable), the loss date and loss location rules
    always fire: the rule-based score lies between 0.3 and 0.6, the fraud
    score between 0.42 and 0.54, and the risk level is LOW for every such
    claim. *)
Theorem degraded_analysis_is_low_risk :
  forall (R : Runtime) (W : World) (A : AnalyzerEnv)
         (analysis_text : string) (context : AnalysisContext.t)
         (email_data : EmailData.t) (analysis : dict),
    analysis = ClaimsAnalyzer._structure_text_analysis analysis_text context
    \/ analysis = ClaimsAnalyzer._get_default_analysis ->
    Notions.ai_reply_unparsed
      (analyze_content (FraudDetector.fraud_prompt (VDict analysis) email_data)) ->
    let a := FraudDetector.detect_fraud (VDict analysis) email_data in
    0.3 <= FraudAssessment.rule_based_score a
    /\ FraudAssessment.rule_based_score a <= 0.6
    /\ 0.42 <= FraudAssessment.fraud_score a
    /\ FraudAssessment.fraud_score a <= 0.54
    /\ FraudAssessment.risk_level a = "LOW"%string.
Proof.
  intros R W A text ctx e d Hd Hu.
  destruct (degraded_rule_score d e) as [s [Hs [L U]]];
    try (destruct Hd as [-> | ->]; reflexivity).
  destruct (unparsed_body (VDict d) e s Hs Hu) as [a [Ha [Hf Hr]]].
  pose proof (detect_fraud_body_level _ _ _ Ha) as Hl.
  unfold FraudDetector.detect_fraud. rewrite Ha. cbn [try_except].
  rewrite Hl, Hf, Hr.
  set (x := 0.5 * 0.6 + s * 0.4).
  assert (Lx : 0.42 <= x).
  { apply Qle_trans with (0.5 * 0.6 + 0.3 * 0.4); [discriminate|].
    unfold x. apply Qplus_le_r. apply Qmult_le_compat_r; [exact L|discriminate]. }
  assert (Ux : x <= 0.54).
  { apply Qle_trans with (0.5 * 0.6 + 0.6 * 0.4); [|discriminate].
    unfold x. apply Qplus_le_r. apply Qmult_le_compat_r; [exact U|discriminate]. }
  assert (Hm : FraudDetector.py_min x 1.0 = x).
  { unfold FraudDetector.py_min. destruct (Qgtb x 1.0) eqn:G; [|reflexivity].
    apply Qgtb_true in G. exfalso. apply (Qlt_irrefl x).
    eapply Qle_lt_trans; [exact Ux|]. eapply Qlt_trans; [|exact G]. reflexivity. }
  rewrite Hm. repeat (split; [assumption|]).
  unfold FraudDetector._get_risk_level, Qgeb.
  destruct (Qle_bool 0.8 x) eqn:G1.
  { apply Qle_bool_iff in G1. exfalso. apply (Qlt_irrefl x).
    eapply Qle_lt_trans; [exact Ux|]. eapply Qlt_le_trans; [|exact G1]. reflexivity. }
  destruct (Qle_bool 0.6 x) eqn:G2.
  { apply Qle_bool_iff in G2. exfalso. apply (Qlt_irrefl x).
    eapply Qle_lt_trans; [exact Ux|]. eapply Qlt_le_trans; [|exact G2]. reflexivity. }
  destruct (Qle_bool 0.4 x) eqn:G3; [reflexivity|].
  exfalso. assert (G : Qle_bool 0.4 x = true); [|congruence].
  apply Qle_bool_iff. eapply Qle_trans; [|exact Lx]. discriminate.
Qed.

(** [degraded_analysis_is_low_risk] for the analysis that [analyze_claim]
    returns when the hosted model is unreachable *)
Lemma degraded_analysis_is_low_risk_witness :
  FraudAssessment.risk_level
    (@FraudDetector.detect_fraud Scenario.runtime Scenario.world
       AnalyzerScenario.analysis Scenario.first_email)
  = "LOW"%string.
Proof.
  assert (E : exists d,
             AnalyzerScenario.analysis = VDict d
             /\ d = @ClaimsAnalyzer._structure_text_analysis AnalyzerScenario.env
                      "Analysis failed: service unavailable"
                      (AnalysisContext.make "Marine claim CLM-100"
                         "agent@insurer.example"
                         "Mon, 06 Jan 2025 10:00:00 +0000" 1
                         "Claim CLM-100: container damaged")).
  { eexists. split; vm_compute; reflexivity. }
  destruct E as [d [-> Hd]].
  refine (proj2 (proj2 (proj2 (proj2
            (@degraded_analysis_is_low_risk Scenario.runtime Scenario.world
               AnalyzerScenario.env _ _ Scenario.first_email d
               (or_introl Hd) _))))).
  left. reflexivity.
Defined.
